(** * Extraction job orchestrator: a shallow embedding of
      [backend/modules/project_manager.py]

    The module keeps three process-wide dictionaries ([message_queues],
    [active_extractions], [extraction_stats]), a MongoDB collection of
    projects, and runs one worker ([run_extraction_thread]) per job.  The
    embedding threads these through an explicit [World]; the worker's local
    variables live in a [Frame]; Python exceptions and early [return]s are
    the two abnormal results of a small state-and-exception monad.

    External collaborators (robots, sitemap, HTTP fetch, scraper, page
    store) are fields of an environment record [Env]. *)

From Stdlib Require Import ZArith String Ascii List Lia.
From stdpp Require Import base option list gmap strings pretty.

Local Open Scope Z_scope.

(** ** Python built-ins used by the module *)

Module Py.

(** [l[:n]] for an integer [n]: a negative bound counts from the end. *)
Definition slice_to {A} (l : list A) (n : Z) : list A :=
  if 0 <=? n then take (Z.to_nat n) l
  else take (length l - Z.to_nat (- n)) l.

(** [str.lower()], on the ASCII letters. *)
Definition lower_ascii (c : ascii) : ascii :=
  let n := nat_of_ascii c in
  if ((65 <=? n) && (n <=? 90))%nat then ascii_of_nat (n + 32) else c.

Fixpoint lower (s : string) : string :=
  match s with
  | EmptyString => EmptyString
  | String c r => String (lower_ascii c) (lower r)
  end.

(** [text.find(sub)]: [None] stands for [-1]. *)
Definition find (text sub : string) : option nat := String.index 0 sub text.

(** [sub in text]. *)
Definition contains (sub text : string) : bool := bool_decide (is_Some (find text sub)).

(** [text[a:b]] for [0 <= a]. *)
Definition slice (text : string) (a b : nat) : string :=
  String.substring a (b - a) text.

(** [sep.join(items)]. *)
Definition join (sep : string) (items : list string) : string :=
  String.concat sep items.

(** Elements of a list received from the caller: the keyword list is
    annotated [list], so an element need not be a string. *)
Inductive value :=
| Str (s : string)
| Int (z : Z).

Definition as_str (v : value) : option string :=
  match v with Str s => Some s | Int _ => None end.

(** All elements as strings, or [None] when one is not a string: the case
    in which [', '.join(items)] and [item.lower()] raise. *)
Definition all_str (l : list value) : option (list string) := mapM as_str l.

(** Truthiness of an optional list ([None] and [[]] are falsy). *)
Definition truthy {A} (o : option (list A)) : bool :=
  match o with Some (_ :: _) => true | _ => false end.

(** [o or []]. *)
Definition or_nil {A} (o : option (list A)) : list A :=
  match o with Some (x :: l) => x :: l | _ => [] end.

End Py.

(** ** Status constants and the data model *)

Inductive Status :=
| STATUS_RUNNING
| STATUS_INTERRUPTED
| STATUS_COMPLETED
| STATUS_ERROR.

Definition is_terminal (s : Status) : bool :=
  match s with STATUS_RUNNING => false | _ => true end.

(** Values of [robots_status] and [sitemap_status]. *)
Inductive Discovery :=
| not_processed
| success
| failed
| error
| no_pages.

Definition Timestamp := nat.

(** [meta_info]: a dictionary with optional keys [title], [description],
    [keywords], [og]. *)
Record MetaInfo := {
  mi_title : option string;
  mi_description : option string;
  mi_keywords : option string;
  mi_og : option (list (string * string))
}.

Definition meta_empty : MetaInfo :=
  {| mi_title := None; mi_description := None; mi_keywords := None; mi_og := None |}.

(** An empty dictionary is falsy. *)
Definition meta_truthy (m : MetaInfo) : bool :=
  match mi_title m, mi_description m, mi_keywords m, mi_og m with
  | None, None, None, None => false
  | _, _, _, _ => true
  end.

(** The [processing_status] dictionary.  Keys that the code adds later are
    optional fields. *)
Record ProcessingStatus := {
  robots_status : Discovery;
  sitemap_status : Discovery;
  pages_found : nat;
  pages_scraped : nat;
  errors : list string;
  extraction_status : Status;
  start_time : Timestamp;
  end_time : option Timestamp;
  scrape_mode : string;
  pages_limit : Z;
  search_keywords : list Py.value;
  include_meta : bool;
  keyword_search_performed : option bool;
  keyword_search_results : option string;
  pages_checked : option nat;
  keyword_matches : option (gmap string (list string));
  keyword_contexts : option (gmap string (gmap string string));
  pages_with_keywords : option nat
}.

(** The dictionary literal of lines 75-89 and 364-377. *)
Definition initial_status (now : Timestamp) (mode : string) (limit : Z)
    (keywords : option (list Py.value)) (meta : bool)
    (matches : option (gmap string (list string))) : ProcessingStatus :=
  {| robots_status := not_processed;
     sitemap_status := not_processed;
     pages_found := 0;
     pages_scraped := 0;
     errors := [];
     extraction_status := STATUS_RUNNING;
     start_time := now;
     end_time := None;
     scrape_mode := mode;
     pages_limit := limit;
     search_keywords := Py.or_nil keywords;
     include_meta := meta;
     keyword_search_performed := None;
     keyword_search_results := None;
     pages_checked := None;
     keyword_matches := matches;
     keyword_contexts := None;
     pages_with_keywords := None |}.

(** Assignments to keys of [processing_status], one definition per group of
    adjacent assignments in the source. *)
Module Upd.

Definition robots (d : Discovery) (err : list string) (s : ProcessingStatus) :=
  {| robots_status := d; sitemap_status := sitemap_status s;
     pages_found := pages_found s; pages_scraped := pages_scraped s;
     errors := errors s ++ err; extraction_status := extraction_status s;
     start_time := start_time s; end_time := end_time s;
     scrape_mode := scrape_mode s; pages_limit := pages_limit s;
     search_keywords := search_keywords s; include_meta := include_meta s;
     keyword_search_performed := keyword_search_performed s;
     keyword_search_results := keyword_search_results s;
     pages_checked := pages_checked s; keyword_matches := keyword_matches s;
     keyword_contexts := keyword_contexts s;
     pages_with_keywords := pages_with_keywords s |}.

(** [found] is [Some n] on the branch that assigns [pages_found]. *)
Definition sitemap (d : Discovery) (found : option nat) (err : list string)
    (s : ProcessingStatus) :=
  {| robots_status := robots_status s; sitemap_status := d;
     pages_found := default (pages_found s) found; pages_scraped := pages_scraped s;
     errors := errors s ++ err; extraction_status := extraction_status s;
     start_time := start_time s; end_time := end_time s;
     scrape_mode := scrape_mode s; pages_limit := pages_limit s;
     search_keywords := search_keywords s; include_meta := include_meta s;
     keyword_search_performed := keyword_search_performed s;
     keyword_search_results := keyword_search_results s;
     pages_checked := pages_checked s; keyword_matches := keyword_matches s;
     keyword_contexts := keyword_contexts s;
     pages_with_keywords := pages_with_keywords s |}.

(** Lines 494-497. *)
Definition no_matches (checked : nat) (kws : list Py.value) (s : ProcessingStatus) :=
  {| robots_status := robots_status s; sitemap_status := sitemap_status s;
     pages_found := pages_found s; pages_scraped := pages_scraped s;
     errors := errors s; extraction_status := extraction_status s;
     start_time := start_time s; end_time := end_time s;
     scrape_mode := scrape_mode s; pages_limit := pages_limit s;
     search_keywords := kws; include_meta := include_meta s;
     keyword_search_performed := Some true;
     keyword_search_results := Some "no_matches"%string;
     pages_checked := Some checked; keyword_matches := keyword_matches s;
     keyword_contexts := keyword_contexts s;
     pages_with_keywords := pages_with_keywords s |}.

(** Lines 512-515. *)
Definition keyword_info (km : gmap string (list string))
    (kc : gmap string (gmap string string)) (with_kw checked : nat)
    (s : ProcessingStatus) :=
  {| robots_status := robots_status s; sitemap_status := sitemap_status s;
     pages_found := pages_found s; pages_scraped := pages_scraped s;
     errors := errors s; extraction_status := extraction_status s;
     start_time := start_time s; end_time := end_time s;
     scrape_mode := scrape_mode s; pages_limit := pages_limit s;
     search_keywords := search_keywords s; include_meta := include_meta s;
     keyword_search_performed := keyword_search_performed s;
     keyword_search_results := keyword_search_results s;
     pages_checked := Some checked; keyword_matches := Some km;
     keyword_contexts := Some kc;
     pages_with_keywords := Some with_kw |}.

Definition add_error (msg : string) (s : ProcessingStatus) :=
  robots (robots_status s) [msg] s.

(** Lines 590-592, 650-652 and 687-688: the state and [end_time] are
    assigned together; [scraped] is [Some n] where the count is assigned
    too. *)
Definition finish (st : Status) (now : Timestamp) (scraped : option nat)
    (err : list string) (s : ProcessingStatus) :=
  {| robots_status := robots_status s; sitemap_status := sitemap_status s;
     pages_found := pages_found s;
     pages_scraped := default (pages_scraped s) scraped;
     errors := errors s ++ err; extraction_status := st;
     start_time := start_time s; end_time := Some now;
     scrape_mode := scrape_mode s; pages_limit := pages_limit s;
     search_keywords := search_keywords s; include_meta := include_meta s;
     keyword_search_performed := keyword_search_performed s;
     keyword_search_results := keyword_search_results s;
     pages_checked := pages_checked s; keyword_matches := keyword_matches s;
     keyword_contexts := keyword_contexts s;
     pages_with_keywords := pages_with_keywords s |}.

End Upd.

(** ** Messages, registry entries, stored documents *)

(** The [type] key of a queued message. *)
Inductive LogType :=
| log_info
| log_success
| log_warning
| log_error
| log_detail
| log_completion.

#[global] Instance LogType_eq_dec : EqDecision LogType.
Proof. solve_decision. Defined.

#[global] Instance Status_eq_dec : EqDecision Status.
Proof. solve_decision. Defined.

(** The JSON object of a completion message (lines 628-634, 713-720). *)
Record CompletionInfo := {
  c_project_id : string;
  c_pages_found : nat;
  c_pages_scraped : nat;
  c_extraction_status : option Status
}.

Inductive Body :=
| Text (s : string)
| Json (c : CompletionInfo).

Record Message := {
  msg_type : LogType;
  timestamp : Timestamp;
  message : Body
}.

(** An entry of [active_extractions]. *)
Record RegistryEntry := {
  project_id : string;
  status : Status;
  interrupt_requested : bool;
  last_updated : Timestamp
}.

(** An entry of [extraction_stats] (lines 127-137). *)
Record Stats := {
  stats_start_time : Timestamp;
  robots_time : Z;
  sitemap_time : Z;
  scraping_time : Z;
  pages_attempted : Z;
  pages_successful : Z;
  bytes_processed : Z;
  total_elements_extracted : Z;
  chunks_processed : Z
}.

(** What [scrape_website] returns, as far as this module reads it. *)
Record ScrapedData := {
  sd_url : string;
  content_size_bytes : Z;
  duration_ms : option Z;
  speed_kbps : Z;
  text_content : list string;
  images : list string;
  meta_info : option MetaInfo
}.

Definition with_meta_info (m : MetaInfo) (d : ScrapedData) : ScrapedData :=
  {| sd_url := sd_url d; content_size_bytes := content_size_bytes d;
     duration_ms := duration_ms d; speed_kbps := speed_kbps d;
     text_content := text_content d; images := images d;
     meta_info := Some m |}.

(** A document of [db.projects] (lines 92-103). *)
Record Project := {
  user_email : string;
  url : string;
  title : string;
  robots_id : option string;
  sitemap_pages : list string;
  scraped_pages : list string;
  doc_processing_status : ProcessingStatus;
  created_at : Timestamp
}.

(** The four [$set] documents the module passes to
    [update_project_partial_sync]. *)
Inductive UpdateDoc :=
| doc_search_info (checked : nat) (kws : list Py.value)
    (* lines 503-508 *)
| doc_final_counts (scraped : list string) (n : nat) (st : Status)
    (ended : option Timestamp)
    (* lines 598-603 *)
| doc_keyword_info (km : gmap string (list string))
    (kc : gmap string (gmap string string)) (with_kw checked : nat)
    (performed : bool)
    (* lines 607-613; a falsy [search_keywords] is stored as [false] *)
| doc_status (s : ProcessingStatus).
    (* {"processing_status": processing_status} *)

Definition set_final_counts (n : nat) (st : Status) (ended : option Timestamp)
    (s : ProcessingStatus) : ProcessingStatus :=
  {| robots_status := robots_status s; sitemap_status := sitemap_status s;
     pages_found := pages_found s; pages_scraped := n;
     errors := errors s; extraction_status := st;
     start_time := start_time s; end_time := ended;
     scrape_mode := scrape_mode s; pages_limit := pages_limit s;
     search_keywords := search_keywords s; include_meta := include_meta s;
     keyword_search_performed := keyword_search_performed s;
     keyword_search_results := keyword_search_results s;
     pages_checked := pages_checked s; keyword_matches := keyword_matches s;
     keyword_contexts := keyword_contexts s;
     pages_with_keywords := pages_with_keywords s |}.

Definition set_search_performed (b : bool) (s : ProcessingStatus) : ProcessingStatus :=
  {| robots_status := robots_status s; sitemap_status := sitemap_status s;
     pages_found := pages_found s; pages_scraped := pages_scraped s;
     errors := errors s; extraction_status := extraction_status s;
     start_time := start_time s; end_time := end_time s;
     scrape_mode := scrape_mode s; pages_limit := pages_limit s;
     search_keywords := search_keywords s; include_meta := include_meta s;
     keyword_search_performed := Some b;
     keyword_search_results := keyword_search_results s;
     pages_checked := pages_checked s; keyword_matches := keyword_matches s;
     keyword_contexts := keyword_contexts s;
     pages_with_keywords := pages_with_keywords s |}.

Definition with_status (f : ProcessingStatus -> ProcessingStatus) (p : Project) : Project :=
  {| user_email := user_email p; url := url p; title := title p;
     robots_id := robots_id p; sitemap_pages := sitemap_pages p;
     scraped_pages := scraped_pages p;
     doc_processing_status := f (doc_processing_status p);
     created_at := created_at p |}.

Definition with_scraped_pages (l : list string) (p : Project) : Project :=
  {| user_email := user_email p; url := url p; title := title p;
     robots_id := robots_id p; sitemap_pages := sitemap_pages p;
     scraped_pages := l;
     doc_processing_status := doc_processing_status p;
     created_at := created_at p |}.

(** [$set]: a dotted key replaces one nested field, the key
    [processing_status] replaces the whole nested document. *)
Definition apply_doc (d : UpdateDoc) (p : Project) : Project :=
  match d with
  | doc_search_info checked kws => with_status (Upd.no_matches checked kws) p
  | doc_final_counts scraped n st ended =>
      with_status (set_final_counts n st ended) (with_scraped_pages scraped p)
  | doc_keyword_info km kc with_kw checked performed =>
      with_status (fun s => set_search_performed performed
                              (Upd.keyword_info km kc with_kw checked s)) p
  | doc_status s => with_status (fun _ => s) p
  end.

(** Arguments of a [run_extraction_thread] call handed to the thread pool. *)
Record Job := {
  j_url : string;
  j_project_id : string;
  j_client_id : string;
  j_user_email : string;
  j_scrape_mode : string;
  j_pages_limit : Z;
  j_search_keywords : option (list Py.value);
  j_include_meta : bool
}.

(** The JSON sent directly over the socket at line 147. *)
Record WsEvent := {
  ws_event : string;
  ws_project_id : string;
  ws_status : string;
  ws_message : string
}.

(** ** The world: clock, database, module globals, thread pool *)

Record World := {
  clock : Timestamp;
  projects : gmap string Project;
  users : gmap string (list string);
  scraped_store : list ScrapedData;
  message_queues : gmap string (list Message);
  active_extractions : gmap string RegistryEntry;
  extraction_stats : gmap string Stats;
  thread_pool : list Job;
  ws_sent : list (string * WsEvent)
}.

Module W.

Definition tick (w : World) : World :=
  {| clock := S (clock w); projects := projects w; users := users w;
     scraped_store := scraped_store w; message_queues := message_queues w;
     active_extractions := active_extractions w;
     extraction_stats := extraction_stats w; thread_pool := thread_pool w;
     ws_sent := ws_sent w |}.

Definition on_projects (f : gmap string Project -> gmap string Project) (w : World) :=
  {| clock := clock w; projects := f (projects w); users := users w;
     scraped_store := scraped_store w; message_queues := message_queues w;
     active_extractions := active_extractions w;
     extraction_stats := extraction_stats w; thread_pool := thread_pool w;
     ws_sent := ws_sent w |}.

Definition on_users (f : gmap string (list string) -> gmap string (list string))
    (w : World) :=
  {| clock := clock w; projects := projects w; users := f (users w);
     scraped_store := scraped_store w; message_queues := message_queues w;
     active_extractions := active_extractions w;
     extraction_stats := extraction_stats w; thread_pool := thread_pool w;
     ws_sent := ws_sent w |}.

Definition on_store (f : list ScrapedData -> list ScrapedData) (w : World) :=
  {| clock := clock w; projects := projects w; users := users w;
     scraped_store := f (scraped_store w); message_queues := message_queues w;
     active_extractions := active_extractions w;
     extraction_stats := extraction_stats w; thread_pool := thread_pool w;
     ws_sent := ws_sent w |}.

Definition on_queues (f : gmap string (list Message) -> gmap string (list Message))
    (w : World) :=
  {| clock := clock w; projects := projects w; users := users w;
     scraped_store := scraped_store w; message_queues := f (message_queues w);
     active_extractions := active_extractions w;
     extraction_stats := extraction_stats w; thread_pool := thread_pool w;
     ws_sent := ws_sent w |}.

Definition on_registry
    (f : gmap string RegistryEntry -> gmap string RegistryEntry) (w : World) :=
  {| clock := clock w; projects := projects w; users := users w;
     scraped_store := scraped_store w; message_queues := message_queues w;
     active_extractions := f (active_extractions w);
     extraction_stats := extraction_stats w; thread_pool := thread_pool w;
     ws_sent := ws_sent w |}.

Definition on_stats (f : gmap string Stats -> gmap string Stats) (w : World) :=
  {| clock := clock w; projects := projects w; users := users w;
     scraped_store := scraped_store w; message_queues := message_queues w;
     active_extractions := active_extractions w;
     extraction_stats := f (extraction_stats w); thread_pool := thread_pool w;
     ws_sent := ws_sent w |}.

Definition on_pool (f : list Job -> list Job) (w : World) :=
  {| clock := clock w; projects := projects w; users := users w;
     scraped_store := scraped_store w; message_queues := message_queues w;
     active_extractions := active_extractions w;
     extraction_stats := extraction_stats w; thread_pool := f (thread_pool w);
     ws_sent := ws_sent w |}.

Definition on_ws (f : list (string * WsEvent) -> list (string * WsEvent)) (w : World) :=
  {| clock := clock w; projects := projects w; users := users w;
     scraped_store := scraped_store w; message_queues := message_queues w;
     active_extractions := active_extractions w;
     extraction_stats := extraction_stats w; thread_pool := thread_pool w;
     ws_sent := f (ws_sent w) |}.

End W.

(** ** Registry operations (lines 670-674, 726-734) *)

Definition request_interrupt (now : Timestamp) (e : RegistryEntry) : RegistryEntry :=
  {| project_id := project_id e; status := status e;
     interrupt_requested := true; last_updated := now |}.

Definition set_entry_status (st : Status) (now : Timestamp) (e : RegistryEntry) :=
  {| project_id := project_id e; status := st;
     interrupt_requested := interrupt_requested e; last_updated := now |}.

(** [interrupt_extraction(client_id)]: the returned boolean and the world
    after the call. *)
Definition interrupt_extraction (client_id : string) (w : World) : bool * World :=
  match active_extractions w !! client_id with
  | None => (false, w)
  | Some e =>
      (true, W.tick (W.on_registry <[client_id := request_interrupt (clock w) e]> w))
  end.

Definition should_interrupt (client_id : string) (w : World) : bool :=
  match active_extractions w !! client_id with
  | None => false
  | Some e => interrupt_requested e
  end.

(** ** Validation of the page limit (lines 64-72) *)

Definition validate_scrape_mode (scrape_mode : string) : string :=
  if bool_decide (scrape_mode ∈ ["all"; "limited"]%string) then scrape_mode
  else "limited"%string.

Definition validate_pages_limit (scrape_mode : string) (pages_limit : Z) : Z :=
  if pages_limit <? 1 then 5
  else if bool_decide (scrape_mode = "limited"%string) && (100 <? pages_limit) then 100
  else pages_limit.

(** The limit the job is started with. *)
Definition effective_pages_limit (scrape_mode : string) (pages_limit : Z) : Z :=
  validate_pages_limit (validate_scrape_mode scrape_mode) pages_limit.

(** ** Collaborators *)

(** What the keyword check reads from a fetched and parsed page. *)
Record Html := {
  get_text : string;
  title_tag : option string;
  meta_description : option string;
  meta_keywords : option string;
  og_tags : list (string * string)
}.

(** The collaborators the module imports, and the control plane.
    A [string] on the right of a sum is the text of a raised exception. *)
Record Env := {
  (** [Robots(site=url)]: the truthiness of [robots._id], or an exception. *)
  Robots : string -> bool + string;
  (** [Sitemap(start_url=url)]: [page_urls], or an exception. *)
  Sitemap : string -> list string + string;
  (** [requests.get], [raise_for_status] and [BeautifulSoup]: [None] when
      one of them raises. *)
  http_get : string -> option Html;
  scrape_website : string -> ScrapedData + string;
  (** [store_in_mongodb]: [Some e] when it raises [e]. *)
  store_in_mongodb : ScrapedData -> option string;
  (** [f"{num / den:.1f}"]; float formatting is left to the environment. *)
  format_1f : Z -> Z -> string;
  (** [ObjectId] of the n-th inserted project, as a string. *)
  ObjectId : nat -> string;
  (** Whether the control plane calls [interrupt_extraction] for the job
      between the worker's previous poll of the flag and its n-th one. *)
  interrupt_before_check : nat -> bool
}.

(** ** The worker's frame and the monad of its steps *)

Inductive Event :=
| EvRobots (site : string)
| EvSitemap (start_url : string)
| EvCheck (page_url : string)
    (* the fetch of [check_page_for_keywords] *)
| EvScrape (page_url : string)
| EvStore (page_url : string)
| EvPersist (pid : string) (doc : UpdateDoc)
    (* a call of [update_project_partial_sync] *)
| EvStatus (s : ProcessingStatus).
    (* [processing_status] after an assignment to its keys *)

Record Frame := {
  processing_status : ProcessingStatus;
  checks : nat;          (* polls of the interrupt flag so far *)
  trace : list Event
}.

Inductive Res (A : Type) :=
| Val (a : A)
| Returned            (* a [return] out of the worker function *)
| Raised (e : string).
Arguments Val {A} a.
Arguments Returned {A}.
Arguments Raised {A} e.

Definition St : Type := World * Frame.

Definition M (A : Type) : Type := St -> Res A * St.

Definition ret {A} (a : A) : M A := fun st => (Val a, st).

Definition bind {A B} (m : M A) (k : A -> M B) : M B :=
  fun st =>
    match m st with
    | (Val a, st') => k a st'
    | (Returned, st') => (Returned, st')
    | (Raised e, st') => (Raised e, st')
    end.

(** With these instances the worker is written in stdpp's monad notation:
    [x ← m; k] and [m;; k]. *)
#[global] Instance M_ret : MRet M := @ret.
#[global] Instance M_bind : MBind M := fun A B k m => bind m k.

(** [try: m except Exception as e: h e]. *)
Definition try_ {A} (m : M A) (h : string -> M A) : M A :=
  fun st =>
    match m st with
    | (Raised e, st') => h e st'
    | r => r
    end.

Definition return_ {A} : M A := fun st => (Returned, st).
Definition raise {A} (e : string) : M A := fun st => (Raised e, st).

Definition get_world : M World := fun st => (Val (fst st), st).
Definition get_status : M ProcessingStatus :=
  fun st => (Val (processing_status (snd st)), st).
Definition modify_world (f : World -> World) : M unit :=
  fun st => (Val tt, (f (fst st), snd st)).

(** The frame after an event, after an assignment to keys of the local
    [processing_status], and after a poll of the interrupt flag. *)
Definition push (e : Event) (f : Frame) : Frame :=
  {| processing_status := processing_status f;
     checks := checks f;
     trace := trace f ++ [e] |}.

Definition store_status (s : ProcessingStatus) (f : Frame) : Frame :=
  {| processing_status := s;
     checks := checks f;
     trace := trace f ++ [EvStatus s] |}.

Definition count_poll (f : Frame) : Frame :=
  {| processing_status := processing_status f;
     checks := S (checks f);
     trace := trace f |}.

Definition emit (e : Event) : M unit :=
  fun st => (Val tt, (fst st, push e (snd st))).

(** An assignment to keys of the local [processing_status]. *)
Definition assign (f : ProcessingStatus -> ProcessingStatus) : M unit :=
  fun st =>
    (Val tt, (fst st, store_status (f (processing_status (snd st))) (snd st))).

(** [datetime.datetime.utcnow()]. *)
Definition utcnow : M Timestamp :=
  fun st => (Val (clock (fst st)), (W.tick (fst st), snd st)).


(** ** Keyword check of one page (lines 222-317) *)

Module Keywords.

Definition Contexts := gmap string string.

(** Lines 244-267. *)
Definition extract_meta (h : Html) : MetaInfo :=
  {| mi_title := title_tag h;
     mi_description := meta_description h;
     mi_keywords := meta_keywords h;
     mi_og := match og_tags h with [] => None | l => Some l end |}.

(** One iteration of the loop of lines 273-285. *)
Definition text_step (text_content : string)
    (acc : list string * Contexts) (keyword : string) : list string * Contexts :=
  let keyword_lower := Py.lower keyword in
  match Py.find text_content keyword_lower with
  | Some start_index =>
      let context_start := (start_index - 50)%nat in
      let context_end :=
        Nat.min (String.length text_content)
                (start_index + String.length keyword + 50) in
      let context := Py.slice text_content context_start context_end in
      (acc.1 ++ [keyword], <[keyword := "..." +:+ context +:+ "..."]> acc.2)
  | None => acc
  end.

(** Lines 289-294. *)
Definition meta_text (m : MetaInfo) : string :=
  Py.lower (Py.join " " [default "" (mi_title m);
                         default "" (mi_description m);
                         default "" (mi_keywords m);
                         Py.join " " (snd <$> default [] (mi_og m))]).

(** One iteration of the loop of lines 296-309. *)
Definition meta_step (m : MetaInfo)
    (acc : list string * Contexts) (keyword : string) : list string * Contexts :=
  let keyword_lower := Py.lower keyword in
  if Py.contains keyword_lower (meta_text m)
     && negb (bool_decide (keyword ∈ acc.1)) then
    let label :=
      if Py.contains keyword_lower (Py.lower (default "" (mi_title m)))
      then "Found in title: " +:+ default "" (mi_title m)
      else if Py.contains keyword_lower (Py.lower (default "" (mi_description m)))
      then "Found in meta description: " +:+ default "" (mi_description m)
      else if Py.contains keyword_lower (Py.lower (default "" (mi_keywords m)))
      then "Found in meta keywords: " +:+ default "" (mi_keywords m)
      else "Found in meta information" in
    (acc.1 ++ [keyword], <[keyword := label]> acc.2)
  else acc.

(** The body of the [try] once the page is fetched and every keyword is
    a string. *)
Definition scan (h : Html) (keywords : list string) (with_meta : bool)
    : bool * list string * MetaInfo * Contexts :=
  let text_content := Py.lower (get_text h) in
  let meta_info := if with_meta then extract_meta h else meta_empty in
  let in_text := foldl (text_step text_content) ([], ∅) keywords in
  let found :=
    if with_meta then foldl (meta_step meta_info) in_text keywords else in_text in
  (bool_decide (0 < length found.1)%nat, found.1, meta_info, found.2).

(** The value of the [except] branch, line 317. *)
Definition failure : bool * list string * MetaInfo * Contexts :=
  (false, [], meta_empty, ∅).

End Keywords.

Section Worker.

Variable env : Env.

(** What [check_page_for_keywords] returns: the scan of the fetched page, or
    the value of its [except] branch when the fetch fails or a keyword is
    not a string ([keyword.lower()] raises). *)
Definition keyword_check (page_url : string) (keywords : list Py.value)
    (with_meta : bool) : bool * list string * MetaInfo * Keywords.Contexts :=
  match http_get env page_url with
  | None => Keywords.failure
  | Some h =>
      match Py.all_str keywords with
      | None => Keywords.failure
      | Some kws => Keywords.scan h kws with_meta
      end
  end.

(** [check_page_for_keywords]: every exception of its body is caught
    inside, so the result is always a value. *)
Definition check_page_for_keywords (page_url : string)
    (keywords : list Py.value) (with_meta : bool)
    : M (bool * list string * MetaInfo * Keywords.Contexts) :=
  emit (EvCheck page_url);;
  mret (keyword_check page_url keywords with_meta).

(** ** Queue, persistence and interrupt primitives *)

(** [message_queues[client_id].put(...)] guarded by
    [client_id in message_queues]; the timestamp is read only when the
    queue exists. *)
Definition put_message (client_id : string) (log_type : LogType) (body : Body)
    : M unit :=
  w ← get_world;
  match message_queues w !! client_id with
  | Some q =>
      now ← utcnow;
      modify_world
        (W.on_queues <[client_id :=
           q ++ [{| msg_type := log_type; timestamp := now; message := body |}]]>)
  | None => mret tt
  end.

(** [send_log] (lines 319-338). *)
Definition send_log (client_id : string) (log_type : LogType) (text : string)
    : M unit :=
  put_message client_id log_type (Text text).

(** [update_project_partial_sync] (lines 749-777): a [$set] on the document
    with this id; the store is taken to be reachable, and a failure would
    be caught inside the function. *)
Definition update_project_partial_sync (pid : string) (doc : UpdateDoc) : M unit :=
  modify_world (W.on_projects (alter (apply_doc doc) pid));;
  emit (EvPersist pid doc).

(** A poll of the interrupt flag: the control plane's request, if one
    arrives before this poll, is applied first. *)
Definition poll_interrupt (client_id : string) : M bool :=
  fun st =>
    let w := if interrupt_before_check env (checks (snd st))
             then (interrupt_extraction client_id (fst st)).2
             else fst st in
    (Val (should_interrupt client_id w), (w, count_poll (snd st))).

(** [handle_interruption] (lines 676-724). *)
Definition handle_interruption (client_id pid : string) : M unit :=
  w ← get_world;
  match active_extractions w !! client_id with
  | None => mret tt
  | Some e =>
      now ← utcnow;
      modify_world
        (W.on_registry <[client_id := set_entry_status STATUS_INTERRUPTED now e]>);;
      ended ← utcnow;
      assign (Upd.finish STATUS_INTERRUPTED ended None []);;
      s ← get_status;
      update_project_partial_sync pid (doc_status s);;
      send_log client_id log_warning "Extraction interrupted by user request";;
      put_message client_id log_completion
        (Json {| c_project_id := pid;
                 c_pages_found := pages_found s;
                 c_pages_scraped := pages_scraped s;
                 c_extraction_status := Some STATUS_INTERRUPTED |})
  end.

(** ** Stages of [run_extraction_thread] (lines 340-668) *)

(** [', '.join(search_keywords)]: a [TypeError] when an item is not a
    string. *)
Definition join_keywords (keywords : list Py.value) : M string :=
  match Py.all_str keywords with
  | Some kws => mret (Py.join ", " kws)
  | None => raise "sequence item: expected str instance"
  end.

(** Lines 379-384. *)
Definition log_start (url client_id : string)
    (search_keywords : option (list Py.value)) (with_meta : bool) : M unit :=
  send_log client_id log_info ("Starting extraction process for " +:+ url);;
  if Py.truthy search_keywords then
    joined ← join_keywords (Py.or_nil search_keywords);
    send_log client_id log_info ("Using keyword filter: " +:+ joined);;
    if with_meta
    then send_log client_id log_info "Including meta information in keyword search"
    else mret tt
  else mret tt.

(** Step 1, lines 386-403. *)
Definition process_robots (url client_id : string) : M unit :=
  send_log client_id log_info ("Processing robots.txt for " +:+ url);;
  emit (EvRobots url);;
  match Robots env url with
  | inl true =>
      assign (Upd.robots success []);;
      send_log client_id log_success "Successfully processed robots.txt"
  | inl false =>
      assign (Upd.robots failed ["Failed to process robots.txt"%string]);;
      send_log client_id log_error "Failed to process robots.txt"
  | inr e =>
      let error_msg := "Error in robots.txt processing: " +:+ e in
      assign (Upd.robots error [error_msg]);;
      send_log client_id log_error error_msg
  end.

(** Step 2, lines 405-425: the pages to consider, [[url]] by default. *)
Definition process_sitemap (url client_id : string) : M (list string) :=
  send_log client_id log_info ("Processing sitemap for " +:+ url);;
  emit (EvSitemap url);;
  match Sitemap env url with
  | inl (p :: ps) =>
      let sitemap_pages := p :: ps in
      assign (Upd.sitemap success (Some (length sitemap_pages)) []);;
      send_log client_id log_success
        ("Found " +:+ pretty (length sitemap_pages) +:+ " pages in sitemap");;
      mret sitemap_pages
  | inl [] =>
      assign (Upd.sitemap no_pages None ["No pages found in sitemap"%string]);;
      send_log client_id log_warning "No pages found in sitemap";;
      mret [url]
  | inr e =>
      let error_msg := "Error in sitemap processing: " +:+ e in
      assign (Upd.sitemap error None [error_msg]);;
      send_log client_id log_error error_msg;;
      mret [url]
  end.

(** The local variables of the keyword filter (lines 430-437). *)
Record Filtered := {
  filtered_pages : list string;
  l_keyword_matches : gmap string (list string);
  l_meta_info_extracted : gmap string MetaInfo;
  l_keyword_contexts : gmap string Keywords.Contexts;
  l_pages_with_keywords : nat;
  l_pages_checked : nat
}.

Definition no_filter : Filtered :=
  {| filtered_pages := []; l_keyword_matches := ∅; l_meta_info_extracted := ∅;
     l_keyword_contexts := ∅; l_pages_with_keywords := 0; l_pages_checked := 0 |}.

(** [pages_checked += 1]. *)
Definition count_checked (a : Filtered) : Filtered :=
  {| filtered_pages := filtered_pages a;
     l_keyword_matches := l_keyword_matches a;
     l_meta_info_extracted := l_meta_info_extracted a;
     l_keyword_contexts := l_keyword_contexts a;
     l_pages_with_keywords := l_pages_with_keywords a;
     l_pages_checked := S (l_pages_checked a) |}.

(** Lines 462-466. *)
Definition record_match (page_url : string) (matches : list string)
    (meta : MetaInfo) (contexts : Keywords.Contexts) (a : Filtered) : Filtered :=
  {| filtered_pages := filtered_pages a ++ [page_url];
     l_keyword_matches := <[page_url := matches]> (l_keyword_matches a);
     l_meta_info_extracted := <[page_url := meta]> (l_meta_info_extracted a);
     l_keyword_contexts := <[page_url := contexts]> (l_keyword_contexts a);
     l_pages_with_keywords := S (l_pages_with_keywords a);
     l_pages_checked := l_pages_checked a |}.

(** Line 486. *)
Definition include_anyway (page_url : string) (a : Filtered) : Filtered :=
  {| filtered_pages := filtered_pages a ++ [page_url];
     l_keyword_matches := l_keyword_matches a;
     l_meta_info_extracted := l_meta_info_extracted a;
     l_keyword_contexts := l_keyword_contexts a;
     l_pages_with_keywords := l_pages_with_keywords a;
     l_pages_checked := l_pages_checked a |}.

(** Lines 468-477: one [detail] message per matched keyword. *)
Fixpoint log_match_details (client_id : string) (contexts : Keywords.Contexts)
    (matches : list string) : M unit :=
  match matches with
  | [] => mret tt
  | kw :: rest =>
      let context := default "No context available" (contexts !! kw) in
      send_log client_id log_detail
        ("Match context: " +:+ kw +:+ ": " +:+ Py.slice context 0 100 +:+ "...");;
      log_match_details client_id contexts rest
  end.

(** The [try] of lines 450-480 for one page. *)
Definition check_one (client_id page_url : string) (keywords : list Py.value)
    (with_meta : bool) (total : nat) (a : Filtered) : M Filtered :=
  send_log client_id log_info
    ("Checking page " +:+ pretty (l_pages_checked a) +:+ "/" +:+ pretty total
     +:+ " for keywords: " +:+ page_url);;
  r ← check_page_for_keywords page_url keywords with_meta;
  let '(contains_keywords, matches, meta, contexts) := r in
  if contains_keywords : bool then
    send_log client_id log_success
      ("Page " +:+ page_url +:+ " contains keywords: " +:+ Py.join ", " matches);;
    log_match_details client_id contexts matches;;
    mret (record_match page_url matches meta contexts a)
  else
    send_log client_id log_warning
      ("Page " +:+ page_url +:+ " does not contain any keywords, skipping");;
    mret a.

(** The loop of lines 443-486 over [sitemap_pages[:pages_limit]], from
    index [i]. *)
Fixpoint filter_pages (client_id pid : string) (keywords : list Py.value)
    (with_meta : bool) (total i : nat) (pages : list string) (a : Filtered)
    : M Filtered :=
  match pages with
  | [] => mret a
  | page_url :: rest =>
      stop ← poll_interrupt client_id;
      if stop : bool then
        send_log client_id log_warning
          ("Filtering interrupted after checking " +:+ pretty i +:+ " pages");;
        handle_interruption client_id pid;;
        return_
      else
        let a1 := count_checked a in
        a2 ← try_ (check_one client_id page_url keywords with_meta total a1)
               (fun e =>
                  send_log client_id log_error
                    ("Error checking keywords in " +:+ page_url +:+ ": " +:+ e);;
                  mret (include_anyway page_url a1));
        filter_pages client_id pid keywords with_meta total (S i) rest a2
  end.

(** Lines 440-527: the pages to process and the filter's findings. *)
Definition select_pages (client_id pid : string)
    (search_keywords : option (list Py.value)) (with_meta : bool)
    (pages_limit : Z) (sitemap_pages : list string) : M (list string * Filtered) :=
  if Py.truthy search_keywords then
    let keywords := Py.or_nil search_keywords in
    joined ← join_keywords keywords;
    send_log client_id log_info ("Filtering pages by keywords: " +:+ joined);;
    let candidates := Py.slice_to sitemap_pages pages_limit in
    a ← filter_pages client_id pid keywords with_meta (length candidates) 0
          candidates no_filter;
    (if bool_decide (0 < l_pages_with_keywords a)%nat then
       send_log client_id log_info
         ("Found " +:+ pretty (l_pages_with_keywords a)
          +:+ " pages containing keywords out of "
          +:+ pretty (l_pages_checked a) +:+ " checked")
     else
       send_log client_id log_warning
         ("No pages containing the specified keywords were found after checking "
          +:+ pretty (l_pages_checked a) +:+ " pages");;
       assign (Upd.no_matches (l_pages_checked a) keywords);;
       update_project_partial_sync pid
         (doc_search_info (l_pages_checked a) keywords));;
    assign (Upd.keyword_info (l_keyword_matches a) (l_keyword_contexts a)
              (l_pages_with_keywords a) (l_pages_checked a));;
    match filtered_pages a with
    | _ :: _ =>
        send_log client_id log_info "Processing only pages containing keywords";;
        mret (filtered_pages a, a)
    | [] =>
        send_log client_id log_info
          "No pages matched keywords, processing a limited set of pages anyway";;
        mret (Py.slice_to sitemap_pages
                (Z.min pages_limit (Z.of_nat (length sitemap_pages))), a)
    end
  else mret (Py.slice_to sitemap_pages pages_limit, no_filter).

(** Lines 564-574: the [detail] messages about a scraped page. *)
Definition log_page_info (client_id : string) (d : ScrapedData) : M unit :=
  send_log client_id log_detail
    ("Page size: " +:+ format_1f env (content_size_bytes d) 1024 +:+ " KB");;
  match duration_ms d with
  | Some ms =>
      if 0 <? ms then
        send_log client_id log_detail
          ("Page loaded in " +:+ pretty ms +:+ " ms at speed: "
           +:+ format_1f env (speed_kbps d) 1 +:+ " KB/s")
      else mret tt
  | None => mret tt
  end;;
  let text_count := length (text_content d) in
  let image_count := length (images d) in
  send_log client_id log_detail
    ("Extracted " +:+ pretty (text_count + image_count)%nat +:+ " elements ("
     +:+ pretty text_count +:+ " text, " +:+ pretty image_count +:+ " images)").

(** Lines 536-546. *)
Definition log_page_keywords (client_id page_url : string) (a : Filtered) : M unit :=
  match l_keyword_matches a !! page_url with
  | Some matches =>
      send_log client_id log_detail ("Keyword matches: " +:+ Py.join ", " matches)
  | None => mret tt
  end;;
  match l_meta_info_extracted a !! page_url with
  | Some meta =>
      if meta_truthy meta then
        match mi_title meta with
        | Some t => send_log client_id log_detail ("Meta title: " +:+ t)
        | None => mret tt
        end;;
        match mi_description meta with
        | Some d => send_log client_id log_detail ("Meta description: " +:+ d)
        | None => mret tt
        end
      else mret tt
  | None => mret tt
  end.

(** Lines 553-554. *)
Definition merge_meta (page_url : string) (a : Filtered) (d : ScrapedData)
    : ScrapedData :=
  match l_meta_info_extracted a !! page_url with
  | Some meta => if meta_truthy meta then with_meta_info meta d else d
  | None => d
  end.

(** The [try] of lines 533-574 for one page: the new [scraped_pages]. *)
Definition scrape_one (client_id page_url : string) (a : Filtered)
    (total i : nat) (scraped : list string) : M (list string) :=
  send_log client_id log_info
    ("Scraping page " +:+ pretty (i + 1)%nat +:+ "/" +:+ pretty total +:+ ": "
     +:+ page_url);;
  log_page_keywords client_id page_url a;;
  emit (EvScrape page_url);;
  match scrape_website env page_url with
  | inr e => raise e
  | inl data =>
      let scraped_data := merge_meta page_url a data in
      emit (EvStore page_url);;
      match store_in_mongodb env scraped_data with
      | Some e => raise e
      | None =>
          modify_world (W.on_store (fun l => l ++ [scraped_data]));;
          send_log client_id log_success ("Successfully scraped " +:+ page_url);;
          log_page_info client_id scraped_data;;
          mret (scraped ++ [page_url])
      end
  end.

(** The loop of lines 532-587 over [pages_to_process], from index [i]. *)
Fixpoint scrape_pages (client_id pid : string) (a : Filtered) (total i : nat)
    (pages : list string) (scraped : list string) : M (list string) :=
  match pages with
  | [] => mret scraped
  | page_url :: rest =>
      scraped' ← try_ (scrape_one client_id page_url a total i scraped)
                   (fun e =>
                      let error_msg :=
                        "Error scraping " +:+ page_url +:+ ": " +:+ e in
                      send_log client_id log_error error_msg;;
                      assign (Upd.add_error error_msg);;
                      mret scraped);
      stop ← poll_interrupt client_id;
      if stop : bool then
        send_log client_id log_warning
          ("Scraping interrupted after processing " +:+ pretty (i + 1)%nat
           +:+ " pages");;
        handle_interruption client_id pid;;
        return_
      else scrape_pages client_id pid a total (S i) rest scraped'
  end.

(** Lines 589-635. *)
Definition complete (client_id pid : string)
    (search_keywords : option (list Py.value)) (a : Filtered)
    (scraped : list string) : M unit :=
  ended ← utcnow;
  assign (Upd.finish STATUS_COMPLETED ended (Some (length scraped)) []);;
  s ← get_status;
  update_project_partial_sync pid
    (doc_final_counts scraped (length scraped) STATUS_COMPLETED (end_time s));;
  update_project_partial_sync pid
    (doc_keyword_info (l_keyword_matches a) (l_keyword_contexts a)
       (l_pages_with_keywords a) (l_pages_checked a)
       (Py.truthy search_keywords));;
  send_log client_id log_info "Extraction process completed";;
  put_message client_id log_completion
    (Json {| c_project_id := pid;
             c_pages_found := pages_found s;
             c_pages_scraped := pages_scraped s;
             c_extraction_status := None |}).

(** The body of the outer [try], after the status dictionary is built. *)
Definition pipeline (url pid client_id : string) (pages_limit : Z)
    (search_keywords : option (list Py.value)) (with_meta : bool) : M unit :=
  log_start url client_id search_keywords with_meta;;
  process_robots url client_id;;
  sitemap_pages ← process_sitemap url client_id;
  sel ← select_pages client_id pid search_keywords with_meta pages_limit
          sitemap_pages;
  let '(pages_to_process, a) := sel in
  send_log client_id log_info
    ("Starting to scrape " +:+ pretty (length pages_to_process) +:+ " pages");;
  scraped ← scrape_pages client_id pid a (length pages_to_process) 0
              pages_to_process [];
  complete client_id pid search_keywords a scraped.

(** The outer [except] (lines 637-659). *)
Definition on_unexpected_error (client_id pid e : string) : M unit :=
  let error_msg := "Unexpected error in extraction thread: " +:+ e in
  send_log client_id log_error error_msg;;
  w ← get_world;
  match active_extractions w !! client_id with
  | Some entry =>
      now ← utcnow;
      modify_world
        (W.on_registry <[client_id := set_entry_status STATUS_ERROR now entry]>)
  | None => mret tt
  end;;
  ended ← utcnow;
  assign (Upd.finish STATUS_ERROR ended None [error_msg]);;
  s ← get_status;
  update_project_partial_sync pid (doc_status s).

(** The [finally] (lines 660-668). *)
Definition clean_up (client_id : string) : M unit :=
  modify_world (W.on_stats (delete client_id)).

(** [run_extraction_thread]: the world after the call and the worker's
    frame when it ends. *)
Definition run_extraction_thread (j : Job) (w : World) : St :=
  let s0 := initial_status (clock w) (j_scrape_mode j) (j_pages_limit j)
              (j_search_keywords j) (j_include_meta j) None in
  let st0 : St :=
    (W.tick w, {| processing_status := s0; checks := 0; trace := [EvStatus s0] |}) in
  let worker :=
    try_ (pipeline (j_url j) (j_project_id j) (j_client_id j) (j_pages_limit j)
            (j_search_keywords j) (j_include_meta j))
         (on_unexpected_error (j_client_id j) (j_project_id j)) in
  let after := (worker st0).2 in
  (clean_up (j_client_id j) after).2.

(** ** Job submission: [add_project_with_scraping] (lines 47-176) *)

Record HTTPException := {
  status_code : Z;
  detail : string
}.

(** The dictionary returned at lines 167-172. *)
Record Response := {
  r_message : string;
  r_project_id : string;
  r_client_id : string;
  r_processing_status : ProcessingStatus
}.

(** The class [ConnectionManager] of [utils/websocket_manager.py] is not
    among the sources at hand; what the submission needs of it is taken as
    a parameter: whether [send_personal_json] raises. *)
Record ConnectionManager := {
  send_personal_json_raises : option string
}.

(** The outer [except] of lines 173-176 turns every exception into a 500. *)
Definition internal_error (e : string) : HTTPException :=
  {| status_code := 500; detail := "Internal server error: " +:+ e |}.

Definition new_stats (now : Timestamp) : Stats :=
  {| stats_start_time := now; robots_time := 0; sitemap_time := 0;
     scraping_time := 0; pages_attempted := 0; pages_successful := 0;
     bytes_processed := 0; total_elements_extracted := 0;
     chunks_processed := 0 |}.

Definition add_project_with_scraping (user_email url : string)
    (ws_manager : option ConnectionManager) (scrape_mode : string)
    (pages_limit : Z) (client_id : option string)
    (search_keywords : option (list Py.value)) (with_meta : bool)
    (w : World) : (HTTPException + Response) * World :=
  if bool_decide (url = ""%string) then
    (inl (internal_error "400: URL is required"), w)
  else
    let scrape_mode := validate_scrape_mode scrape_mode in
    let pages_limit := validate_pages_limit scrape_mode pages_limit in
    let processing_status :=
      initial_status (clock w) scrape_mode pages_limit search_keywords
        with_meta (Some ∅) in
    let w := W.tick w in
    let pid := ObjectId env (size (projects w)) in
    let project_data :=
      {| user_email := user_email; url := url;
         title := "Project for " +:+ url; robots_id := None;
         sitemap_pages := [url]; scraped_pages := [];
         doc_processing_status := processing_status;
         created_at := clock w |} in
    let w := W.tick (W.on_projects <[pid := project_data]> w) in
    let w := W.on_users (alter (fun l => l ++ [pid]) user_email) w in
    let client_id :=
      match client_id with
      | Some c => if bool_decide (c = ""%string) then "project_" +:+ pid else c
      | None => "project_" +:+ pid
      end in
    let w :=
      W.tick (W.on_registry
                <[client_id := {| project_id := pid; status := STATUS_RUNNING;
                                  interrupt_requested := false;
                                  last_updated := clock w |}]> w) in
    let w := W.tick (W.on_stats <[client_id := new_stats (clock w)]> w) in
    let response :=
      {| r_message := "Project added successfully, extraction started in background";
         r_project_id := pid; r_client_id := client_id;
         r_processing_status := processing_status |} in
    match ws_manager with
    | Some manager =>
        (* the consumer task of [consume_messages] starts here; it only
           takes messages off the queue and is not part of this model *)
        let w := W.on_queues <[client_id := []]> w in
        match send_personal_json_raises manager with
        | Some e => (inl (internal_error e), w)
        | None =>
            let w :=
              W.on_ws (fun l =>
                l ++ [(client_id,
                       {| ws_event := "project_created"; ws_project_id := pid;
                          ws_status := "starting";
                          ws_message :=
                            "Project created. Starting extraction for " +:+ url |})])
                w in
            let job :=
              {| j_url := url; j_project_id := pid; j_client_id := client_id;
                 j_user_email := user_email; j_scrape_mode := scrape_mode;
                 j_pages_limit := pages_limit;
                 j_search_keywords := search_keywords;
                 j_include_meta := with_meta |} in
            (inr response, W.on_pool (fun l => l ++ [job]) w)
        end
    | None => (inr response, w)
    end.

(** The thread pool runs the submitted calls; here one after the other, in
    the order of submission. *)
Definition run_next_job (w : World) : option St :=
  match thread_pool w with
  | [] => None
  | j :: rest => Some (run_extraction_thread j (W.on_pool (fun _ => rest) w))
  end.

End Worker.

(** ** Observations on worlds and traces *)

(** The kinds of the messages queued for a client. *)
Definition queued_kinds (client_id : string) (w : World) : list LogType :=
  msg_type <$> default [] (message_queues w !! client_id).

(** The pages handed to [scrape_website], in order. *)
Definition scraped_urls (t : list Event) : list string :=
  omap (fun e => match e with EvScrape u => Some u | _ => None end) t.

(** The pages fetched by the keyword check, in order. *)
Definition checked_urls (t : list Event) : list string :=
  omap (fun e => match e with EvCheck u => Some u | _ => None end) t.

(** The successive values of [processing_status]. *)
Definition snapshots (t : list Event) : list ProcessingStatus :=
  omap (fun e => match e with EvStatus s => Some s | _ => None end) t.

(** A registry entry without its timestamp. *)
Definition entry_core (e : RegistryEntry) : string * Status * bool :=
  (project_id e, status e, interrupt_requested e).

(** ** Concrete worlds and environments for the examples *)

Module Demo.

Definition world0 : World :=
  {| clock := 0%nat; projects := ∅; users := ∅; scraped_store := [];
     message_queues := ∅; active_extractions := ∅; extraction_stats := ∅;
     thread_pool := []; ws_sent := [] |}.

Definition page (text : string) : Html :=
  {| get_text := text; title_tag := None; meta_description := None;
     meta_keywords := None; og_tags := [] |}.

Definition data (page_url : string) : ScrapedData :=
  {| sd_url := page_url; content_size_bytes := 2048; duration_ms := Some 120;
     speed_kbps := 17; text_content := ["hello"%string]; images := [];
     meta_info := None |}.

(** An environment in which robots and every scrape succeed; the sitemap
    result, the fetch of the keyword check and the arrival of interrupt
    requests are the parameters. *)
Definition env_of (sitemap : list string + string)
    (fetch : string -> option Html) (interrupts : nat -> bool) : Env :=
  {| Robots := fun _ => inl true;
     Sitemap := fun _ => sitemap;
     http_get := fetch;
     scrape_website := fun u => inl (data u);
     store_in_mongodb := fun _ => None;
     format_1f := fun n d => pretty (n / d);
     ObjectId := fun n => "id" +:+ pretty n;
     interrupt_before_check := interrupts |}.

Definition manager : ConnectionManager := {| send_personal_json_raises := None |}.

(** Submit a job for [https://example.com] with a listening subscriber and
    let the pool run it. *)
Definition submit_and_run (env : Env) (scrape_mode : string) (pages_limit : Z)
    (search_keywords : option (list Py.value)) : option St :=
  run_next_job env
    (add_project_with_scraping env "u@example.com" "https://example.com"
       (Some manager) scrape_mode pages_limit (Some "c1"%string)
       search_keywords true world0).2.

(** The same with the control plane's interrupt request arriving after the
    submission and before the pool starts the worker. *)
Definition submit_interrupt_run (env : Env) (scrape_mode : string)
    (pages_limit : Z) (search_keywords : option (list Py.value)) : option St :=
  run_next_job env
    (interrupt_extraction "c1"
       (add_project_with_scraping env "u@example.com" "https://example.com"
          (Some manager) scrape_mode pages_limit (Some "c1"%string)
          search_keywords true world0).2).2.

Definition never : nat -> bool := fun _ => false.
Definition at_poll (k : nat) : nat -> bool := fun n => bool_decide (n = k).

(** A registry with one job whose worker has already ended in [error]. *)
Definition world_ended : World :=
  W.on_registry
    <["c1"%string := {| project_id := "id0"; status := STATUS_ERROR;
                        interrupt_requested := false; last_updated := 3%nat |}]>
    world0.

(** Page [a] cannot be fetched, page [b] contains the keyword. *)
Definition fetch_ab (u : string) : option Html :=
  if bool_decide (u = "b"%string) then Some (page "Hello Foo world") else None.

(** The job that [submit_and_run] hands to the pool, and the world in which
    the pool finds it: after the submission, and after the submission followed
    by an interrupt request. *)
Definition job (search_keywords : option (list Py.value)) : Job :=
  {| j_url := "https://example.com"; j_project_id := "id0"; j_client_id := "c1";
     j_user_email := "u@example.com"; j_scrape_mode := "limited";
     j_pages_limit := 5; j_search_keywords := search_keywords;
     j_include_meta := true |}.

Definition submitted (env : Env) (search_keywords : option (list Py.value)) : World :=
  (add_project_with_scraping env "u@example.com" "https://example.com"
     (Some manager) "limited" 5 (Some "c1"%string) search_keywords true world0).2.

Definition flagged (env : Env) (search_keywords : option (list Py.value)) : World :=
  (interrupt_extraction "c1" (submitted env search_keywords)).2.

End Demo.

(** ** Specifications of worker steps *)

(** [triple P m Q R E]: from a state satisfying [P], the step [m] ends in a
    state satisfying [Q a] when it yields [a], [R] when it returns from the
    worker function, and [E] when it raises. *)
Definition triple {A} (P : St -> Prop) (m : M A) (Q : A -> St -> Prop)
    (R E : St -> Prop) : Prop :=
  forall st, P st ->
    match m st with
    | (Val a, st') => Q a st'
    | (Returned, st') => R st'
    | (Raised _, st') => E st'
    end.

(** A step that yields a value, leaves the frame alone and does not touch
    the registry. *)
Definition calm {A} (m : M A) : Prop :=
  forall w f, exists a w',
    m (w, f) = (Val a, (w', f))
    /\ active_extractions w' = active_extractions w.

(** A state predicate made of one on the frame and one on the registry. *)
Definition inv (FP : Frame -> Prop) (WP : gmap string RegistryEntry -> Prop)
    : St -> Prop :=
  fun st => FP st.2 /\ WP (active_extractions st.1).

(** A status that is still running, with no end time. *)
Definition running_snap (s : ProcessingStatus) : Prop :=
  extraction_status s = STATUS_RUNNING /\ end_time s = None.

(** The worker has not ended: its status and all earlier ones are running. *)
Definition Running (f : Frame) : Prop :=
  running_snap (processing_status f)
  /\ Forall running_snap (snapshots (trace f)).

(** The worker has ended: the last assignment to the status made it
    terminal and set the end time, and no earlier status had either. *)
Definition Finished (f : Frame) : Prop :=
  exists before,
    snapshots (trace f) = before ++ [processing_status f]
    /\ Forall running_snap before
    /\ is_terminal (extraction_status (processing_status f)) = true
    /\ is_Some (end_time (processing_status f)).

(** The interrupt flag of a client as the registry has it. *)
Definition flag (client_id : string) (reg : gmap string RegistryEntry) : bool :=
  match reg !! client_id with
  | Some e => interrupt_requested e
  | None => false
  end.

(** The count of scraped pages does not exceed the count of found pages. *)
Definition within_found (s : ProcessingStatus) : Prop :=
  (pages_scraped s <= pages_found s)%nat.

(** Every value the status has had is [within_found]. *)
Definition Counted (f : Frame) : Prop :=
  Forall within_found (snapshots (trace f)).

(** No count of scraped pages has been assigned yet; [found] is [Some n]
    once discovery has recorded [n] pages. *)
Definition Unscraped (found : option nat) (f : Frame) : Prop :=
  pages_scraped (processing_status f) = 0%nat
  /\ (forall n, found = Some n -> pages_found (processing_status f) = n)
  /\ Counted f.

(** The pages the worker goes on with after discovery (lines 407-425): the
    sitemap's pages, or the target URL alone. *)
Definition discovered (env : Env) (url : string) : list string :=
  match Sitemap env url with
  | inl (p :: ps) => p :: ps
  | _ => [url]
  end.

(** Nothing has been counted as scraped, no keyword check has fetched a
    page, and the pages handed to the scraper so far are [urls]. *)
Definition Quiet (urls : list string) (f : Frame) : Prop :=
  pages_scraped (processing_status f) = 0%nat
  /\ checked_urls (trace f) = []
  /\ scraped_urls (trace f) = urls.

(** The frame of a worker that has ended as interrupted. *)
Definition Stopped (urls : list string) (f : Frame) : Prop :=
  extraction_status (processing_status f) = STATUS_INTERRUPTED
  /\ is_Some (end_time (processing_status f))
  /\ Quiet urls f.

(** The state in which an interrupted worker leaves the job: status and
    registry say [interrupted], and the client's queue, when there is one,
    ends with the completion message that reports it. *)
Definition Halted (client_id : string) (urls : list string) (st : St) : Prop :=
  Stopped urls st.2
  /\ status <$> active_extractions st.1 !! client_id = Some STATUS_INTERRUPTED
  /\ forall q, message_queues st.1 !! client_id = Some q ->
       exists m c, last q = Some m
         /\ msg_type m = log_completion
         /\ message m = Json c
         /\ c_pages_scraped c = 0%nat
         /\ c_extraction_status c = Some STATUS_INTERRUPTED.

(** The first component of the keyword check's result. *)
Definition contains_keywords
    (r : bool * list string * MetaInfo * Keywords.Contexts) : bool :=
  r.1.1.1.

(** The keyword search found nothing and this has been recorded: the status
    says [no_matches] with [n] pages checked; the trace holds the assignment
    that recorded it, followed at once by the write of the same facts to the
    stored project, with no page handed to the scraper before; the pages
    handed to it since are [urls]. *)
Definition Recorded (pid : string) (n : nat) (kws : list Py.value)
    (urls : list string) (f : Frame) : Prop :=
  keyword_search_results (processing_status f) = Some "no_matches"%string
  /\ pages_checked (processing_status f) = Some n
  /\ exists pre s post,
       trace f = pre ++ [EvStatus s; EvPersist pid (doc_search_info n kws)] ++ post
       /\ scraped_urls pre = []
       /\ keyword_search_results s = Some "no_matches"%string
       /\ pages_checked s = Some n
       /\ scraped_urls post = urls.

(** No page has been handed to the scraper yet. *)
Definition NoScrape (f : Frame) : Prop := scraped_urls (trace f) = [].

(** ** Observations on the keyword check *)

(** The second and fourth components of the keyword check's result. *)
Definition matches_of
    (r : bool * list string * MetaInfo * Keywords.Contexts) : list string :=
  r.1.1.2.

Definition contexts_of
    (r : bool * list string * MetaInfo * Keywords.Contexts) : Keywords.Contexts :=
  r.2.

(** [keyword] occurs in the page's text, whatever the case of either. *)
Definition in_text (h : Html) (keyword : string) : bool :=
  Py.contains (Py.lower keyword) (Py.lower (get_text h)).

(** [keyword] occurs in the page's title, description, keywords or
    OpenGraph values, whatever the case of either. *)
Definition in_meta (h : Html) (keyword : string) : bool :=
  Py.contains (Py.lower keyword) (Keywords.meta_text (Keywords.extract_meta h)).


(** ** Status lookup (lines 736-747) *)

(** [get_extraction_status]: a copy of the registry entry, with the
    statistics under the key [stats] when there are some. *)
Definition get_extraction_status (client_id : string) (w : World)
    : option (RegistryEntry * option Stats) :=
  match active_extractions w !! client_id with
  | None => None
  | Some e => Some (e, extraction_stats w !! client_id)
  end.

(** The client id a submission goes by (lines 114-116): the one given, or
    [project_<id>] when none or an empty one is given. *)
Definition client_id_of (client_id : option string) (pid : string) : string :=
  match client_id with
  | Some c => if bool_decide (c = ""%string) then "project_" +:+ pid else c
  | None => "project_" +:+ pid
  end.

(** ** The consumer task: [consume_messages] (lines 178-220) *)

(** What one turn of the consumer's loop does. *)
Inductive Turn :=
| Delivered (m : Message)   (* taken off the queue and sent *)
| Dropped (m : Message)     (* taken off the queue; the send raised *)
| Idle                      (* queue empty, job not over: sleep and retry *)
| Exited.                   (* queue empty, job over: clean up and stop *)

(** One turn of the [while True] loop.  The queue the consumer holds is
    the one registered for the client.  A message is taken off the queue
    before it is sent, so an exception of the send (caught by the loop's
    [except Exception]) loses it.  On an empty queue the consumer stops
    when the client is no longer registered or its state is terminal, and
    then deletes the queue and the registry entry. *)
Definition consume_turn (manager : ConnectionManager) (client_id : string)
    (w : World) : Turn * World :=
  match message_queues w !! client_id with
  | Some (m :: rest) =>
      let w' := W.on_queues <[client_id := rest]> w in
      match send_personal_json_raises manager with
      | None => (Delivered m, w')
      | Some _ => (Dropped m, w')
      end
  | Some [] =>
      let over :=
        match active_extractions w !! client_id with
        | None => true
        | Some e => is_terminal (status e)
        end in
      if over then
        (Exited, W.on_registry (delete client_id)
                   (W.on_queues (delete client_id) w))
      else (Idle, w)
  | None => (Exited, w)
  end.

(** [consume_messages] for at most [turns] turns of its loop, with nothing
    else running in between: the messages sent to the subscriber, in order,
    whether the consumer has stopped, and the world it leaves.  Without a
    queue for the client the function returns at once (lines 182-184).  The
    submission creates this task (line 144); its turns are taken here from
    the world that the submission or a worker leaves. *)
Fixpoint consume_messages (turns : nat) (manager : ConnectionManager)
    (client_id : string) (w : World) : list Message * bool * World :=
  match turns with
  | O => ([], bool_decide (message_queues w !! client_id = None), w)
  | S n =>
      match consume_turn manager client_id w with
      | (Delivered m, w') =>
          let r := consume_messages n manager client_id w' in
          (m :: r.1.1, r.1.2, r.2)
      | (Dropped _, w') => consume_messages n manager client_id w'
      | (Idle, w') => consume_messages n manager client_id w'
      | (Exited, w') => ([], true, w')
      end
  end.

(** ** The effects of a worker *)

(** The assignments a worker makes to keys of its [processing_status]. *)
Inductive update : (ProcessingStatus -> ProcessingStatus) -> Prop :=
| update_robots d err : update (Upd.robots d err)
| update_sitemap d found err : update (Upd.sitemap d found err)
| update_no_matches checked kws : update (Upd.no_matches checked kws)
| update_keyword_info km kc with_kw checked :
    update (Upd.keyword_info km kc with_kw checked)
| update_add_error msg : update (Upd.add_error msg)
| update_finish st now scraped err : update (Upd.finish st now scraped err).

(** What one step of the worker of client [client_id] on project [pid] does
    to the state.  [effect_request] is the control plane's interrupt request
    for that client, taken in at a poll of the flag. *)
Inductive effect (client_id pid : string) : St -> St -> Prop :=
| effect_tick w f :
    effect client_id pid (w, f) (W.tick w, f)
| effect_put w f q m :
    message_queues w !! client_id = Some q ->
    effect client_id pid (w, f) (W.on_queues <[client_id := q ++ [m]]> w, f)
| effect_persist w f doc :
    effect client_id pid (w, f) (W.on_projects (alter (apply_doc doc) pid) w, f)
| effect_store w f d :
    effect client_id pid (w, f) (W.on_store (fun l => l ++ [d]) w, f)
| effect_request w f e now :
    active_extractions w !! client_id = Some e ->
    effect client_id pid (w, f)
      (W.on_registry <[client_id := request_interrupt now e]> w, f)
| effect_set_status w f e st now :
    active_extractions w !! client_id = Some e ->
    st = STATUS_INTERRUPTED \/ st = STATUS_ERROR ->
    effect client_id pid (w, f)
      (W.on_registry <[client_id := set_entry_status st now e]> w, f)
| effect_forget_stats w f :
    effect client_id pid (w, f) (W.on_stats (delete client_id) w, f)
| effect_emit w f e :
    (forall s, e <> EvStatus s) ->
    effect client_id pid (w, f) (w, push e f)
| effect_assign w f g :
    update g ->
    effect client_id pid (w, f) (w, store_status (g (processing_status f)) f)
| effect_poll w f :
    effect client_id pid (w, f) (w, count_poll f).

(** A step all of whose state changes are such effects. *)
Definition walks (client_id pid : string) {A} (m : M A) : Prop :=
  forall st, rtc (effect client_id pid) st (m st).2.

(** The fields of a stored project that say what it is a project of. *)
Definition identity (p : Project)
    : string * string * string * option string * list string * Timestamp :=
  (user_email p, url p, title p, robots_id p, sitemap_pages p, created_at p).

(** The settings a job is started with, as its status records them. *)
Definition settings (s : ProcessingStatus) : string * Z * bool * Timestamp :=
  (scrape_mode s, pages_limit s, include_meta s, start_time s).

(** Two worlds that agree on everything that does not belong to client
    [client_id] or project [pid]. *)
Definition elsewhere (client_id pid : string) (w w' : World) : Prop :=
  users w' = users w
  /\ thread_pool w' = thread_pool w
  /\ ws_sent w' = ws_sent w
  /\ (forall k, k <> client_id ->
        message_queues w' !! k = message_queues w !! k
        /\ active_extractions w' !! k = active_extractions w !! k
        /\ extraction_stats w' !! k = extraction_stats w !! k)
  /\ (forall k, k <> pid -> projects w' !! k = projects w !! k).

(** ** Whole runs *)

(** The parts of the world that a log message leaves alone. *)
Definition core (w : World)
    : gmap string Project * list ScrapedData * gmap string RegistryEntry :=
  (projects w, scraped_store w, active_extractions w).

(** A step that yields a value, leaves the frame alone and changes nothing
    of the world but the clock and the queues. *)
Definition chatty {A} (m : M A) : Prop :=
  forall w f, exists a w',
    m (w, f) = (Val a, (w', f)) /\ core w' = core w.

(** A state predicate made of one on the frame and one on the core. *)
Definition cinv (FP : Frame -> Prop)
    (CP : gmap string Project * list ScrapedData * gmap string RegistryEntry
          -> Prop)
    : St -> Prop :=
  fun st => FP st.2 /\ CP (core st.1).

(** What the scrape of a page adds to the page store (lines 549-557): the
    scraped data, with the meta information of the keyword check if there is
    any, when neither [scrape_website] nor [store_in_mongodb] raises. *)
Definition stored_page (env : Env) (a : Filtered) (page_url : string)
    : option ScrapedData :=
  match scrape_website env page_url with
  | inl d =>
      match store_in_mongodb env (merge_meta page_url a d) with
      | None => Some (merge_meta page_url a d)
      | Some _ => None
      end
  | inr _ => None
  end.

(** The pages of a list whose scrape adds to the page store. *)
Definition stored_pages (env : Env) (a : Filtered) (pages : list string)
    : list string :=
  filter (fun u => is_Some (stored_page env a u)) pages.

(** What a stored project says about the job's result. *)
Definition result_of (p : Project) : list string * Status * nat :=
  (scraped_pages p, extraction_status (doc_processing_status p),
   pages_scraped (doc_processing_status p)).

(** What one turn of the keyword filter's loop (lines 450-477) does to the
    loop's variables. *)
Definition filter_step (env : Env) (keywords : list Py.value) (with_meta : bool)
    (a : Filtered) (page_url : string) : Filtered :=
  let a1 := count_checked a in
  let '(contains_keywords, matches, meta, contexts) :=
    keyword_check env page_url keywords with_meta in
  if contains_keywords : bool
  then record_match page_url matches meta contexts a1
  else a1.

(** The candidate pages on which the keyword check reports keywords. *)
Definition hits (env : Env) (keywords : list Py.value) (with_meta : bool)
    (pages : list string) : list string :=
  filter (fun u => contains_keywords (keyword_check env u keywords with_meta) = true)
    pages.

(** * Properties *)

(** ** Page limit *)

Lemma validate_scrape_mode_known (m : string) :
  m = "all"%string \/ m = "limited"%string -> validate_scrape_mode m = m.
Proof.
  intros H. unfold validate_scrape_mode.
  rewrite bool_decide_eq_true_2; [reflexivity | ].
  destruct H as [-> | ->]; set_solver.
Qed.

(** C7. The limit a job is started with is 5 when the submitted limit is
    below 1; otherwise it is [min(pages_limit, 100)] in mode ["limited"] and
    the submitted limit itself in mode ["all"].  The status returned to the
    caller and the job handed to the thread pool both carry this value. *)
Theorem effective_pages_limit_spec (limit : Z) :
  effective_pages_limit "limited" limit
    = (if limit <? 1 then 5 else Z.min limit 100)
  /\ effective_pages_limit "all" limit
    = (if limit <? 1 then 5 else limit)
  /\ forall env user_email url ws_manager scrape_mode client_id keywords meta w,
      match add_project_with_scraping env user_email url ws_manager scrape_mode
              limit client_id keywords meta w with
      | (inr r, w') =>
          pages_limit (r_processing_status r)
            = effective_pages_limit scrape_mode limit
          /\ forall j, j ∈ thread_pool w' ->
               j ∈ thread_pool w
               \/ j_pages_limit j = effective_pages_limit scrape_mode limit
      | (inl _, _) => True
      end.
Proof.
  split; [ | split ].
  - unfold effective_pages_limit, validate_pages_limit.
    rewrite validate_scrape_mode_known by (right; reflexivity).
    destruct (limit <? 1) eqn:H1; [reflexivity | ].
    rewrite bool_decide_eq_true_2 by reflexivity. cbn.
    destruct (100 <? limit) eqn:H2; lia.
  - unfold effective_pages_limit, validate_pages_limit.
    rewrite validate_scrape_mode_known by (left; reflexivity).
    destruct (limit <? 1) eqn:H1; [reflexivity | ].
    rewrite bool_decide_eq_false_2 by discriminate. reflexivity.
  - intros. unfold add_project_with_scraping.
    case_bool_decide; [exact I | ].
    destruct ws_manager as [manager | ]; cbn.
    + destruct (send_personal_json_raises manager); [exact I | ].
      cbn. split; [reflexivity | ].
      intros j Hj. apply elem_of_app in Hj as [Hj | Hj]; [left; exact Hj | ].
      right. apply list_elem_of_singleton in Hj. subst j. reflexivity.
    + split; [reflexivity | ]. intros j Hj. left. exact Hj.
Qed.

(** ** Interrupt requests *)

(** C6, as the code has it: [interrupt_extraction] returns [false] exactly
    when the client is not in the registry.  A second call returns what the
    first returned and leaves the project id, the state and the interrupt
    flag of every entry as the first call left them; only [last_updated] is
    refreshed. *)
Theorem interrupt_extraction_spec (client_id : string) (w : World) :
  ((interrupt_extraction client_id w).1 = false
     <-> active_extractions w !! client_id = None)
  /\ (active_extractions w !! client_id <> None ->
        interrupt_requested
          <$> active_extractions (interrupt_extraction client_id w).2 !! client_id
        = Some true)
  /\ let w1 := (interrupt_extraction client_id w).2 in
     let w2 := (interrupt_extraction client_id w1).2 in
     (interrupt_extraction client_id w1).1 = (interrupt_extraction client_id w).1
     /\ forall k : string,
          entry_core <$> active_extractions w2 !! k
          = entry_core <$> active_extractions w1 !! k.
Proof.
  unfold interrupt_extraction.
  destruct (active_extractions w !! client_id) as [e | ] eqn:He; cbn.
  - split; [ split; discriminate | ].
    split; [ intros _; rewrite lookup_insert_eq; reflexivity | ].
    rewrite lookup_insert_eq. cbn. split; [reflexivity | ].
    intros k. destruct (decide (client_id = k)) as [-> | Hne].
    + rewrite !lookup_insert_eq. reflexivity.
    + rewrite !lookup_insert_ne by exact Hne. reflexivity.
  - split; [ split; reflexivity | ].
    split; [ intros H; contradiction | ].
    rewrite He. split; reflexivity.
Qed.

(** C6 fails as stated: for a job whose registry state is already [error]
    the call returns [true] and sets the flag. *)
Lemma interrupt_extraction_terminal :
  status <$> active_extractions Demo.world_ended !! "c1"%string = Some STATUS_ERROR
  /\ (interrupt_extraction "c1" Demo.world_ended).1 = true
  /\ interrupt_requested
       <$> active_extractions (interrupt_extraction "c1" Demo.world_ended).2
             !! "c1"%string
     = Some true.
Proof. vm_compute. repeat split. Qed.

(** ** Runs of the worker on concrete jobs *)

(** C1 fails on the error path.  A job whose keyword list holds a
    non-string item raises in the pipeline body (line 382); the worker ends
    in [error], the registry says so, and the queue holds the start message
    and the error message only: no completion message is queued. *)
Theorem error_path_queues_no_completion :
  (fun st : St =>
     (extraction_status (processing_status st.2),
      end_time (processing_status st.2),
      status <$> active_extractions st.1 !! "c1"%string,
      queued_kinds "c1" st.1))
    <$> Demo.submit_and_run
          (Demo.env_of (inl ["a"%string]) Demo.fetch_ab Demo.never)
          "limited" 5 (Some [Py.Int 5])
  = Some (STATUS_ERROR, Some 8%nat, Some STATUS_ERROR,
          [log_info; log_error]).
Proof. vm_compute. reflexivity. Qed.

(** The two other termination paths do end their queue with one completion
    message. *)
Lemma completed_and_interrupted_paths_queue_completion :
  (fun st : St => (extraction_status (processing_status st.2),
                   last (queued_kinds "c1" st.1),
                   length (filter (fun k => k = log_completion)
                                  (queued_kinds "c1" st.1))))
    <$> Demo.submit_and_run
          (Demo.env_of (inl ["a"%string]) Demo.fetch_ab Demo.never)
          "limited" 5 None
  = Some (STATUS_COMPLETED, Some log_completion, 1%nat)
  /\ (fun st : St => (extraction_status (processing_status st.2),
                      last (queued_kinds "c1" st.1),
                      length (filter (fun k => k = log_completion)
                                     (queued_kinds "c1" st.1))))
       <$> Demo.submit_interrupt_run
             (Demo.env_of (inl ["a"%string]) Demo.fetch_ab Demo.never)
             "limited" 5 None
     = Some (STATUS_INTERRUPTED, Some log_completion, 1%nat).
Proof. split; vm_compute; reflexivity. Qed.

(** Projections of a world built by the setters of [W]. *)
Ltac world_simpl :=
  cbv beta iota delta
    [W.tick W.on_projects W.on_users W.on_store W.on_queues W.on_registry
     W.on_stats W.on_pool W.on_ws clock projects users scraped_store
     message_queues active_extractions extraction_stats thread_pool ws_sent
     fst snd].

(** C2 fails: without a subscriber channel the submission registers the job
    and answers that extraction has started, but hands nothing to the thread
    pool: no worker runs, whatever the other arguments. *)
Theorem no_subscriber_no_worker (env : Env) (user_email url scrape_mode : string)
    (limit : Z) (client_id : option string) (keywords : option (list Py.value))
    (meta : bool) (w : World) :
  let r := add_project_with_scraping env user_email url None scrape_mode limit
             client_id keywords meta w in
  thread_pool r.2 = thread_pool w
  /\ message_queues r.2 = message_queues w
  /\ (thread_pool w = [] -> run_next_job env r.2 = None)
  /\ (url <> ""%string ->
      exists resp, r.1 = inr resp
        /\ r_message resp
           = "Project added successfully, extraction started in background"%string
        /\ (doc_processing_status <$> projects r.2 !! r_project_id resp)
           = Some (r_processing_status resp)
        /\ extraction_status (r_processing_status resp) = STATUS_RUNNING
        /\ pages_scraped (r_processing_status resp) = 0%nat).
Proof.
  intros r. subst r. unfold add_project_with_scraping, run_next_job.
  case_bool_decide as Hurl.
  - world_simpl.
    split; [reflexivity | ]. split; [reflexivity | ].
    split; [ intros ->; reflexivity | intros H; contradiction ].
  - world_simpl.
    split; [reflexivity | ]. split; [reflexivity | ].
    split; [ intros ->; reflexivity | ].
    intros _. eexists. split; [reflexivity | ].
    cbv beta iota delta [r_message r_project_id r_processing_status].
    split; [reflexivity | ].
    split; [ rewrite lookup_insert_eq; reflexivity | ].
    split; reflexivity.
Qed.

(** C3 fails: with pages [a] and [b], keyword [foo], page [a] failing to
    fetch and page [b] matching, the check of [a] yields the failure tuple,
    the caller treats it as "no keywords", and only [b] is scraped. *)
Theorem failed_check_drops_page :
  let env := Demo.env_of (inl ["a"; "b"]%string) Demo.fetch_ab Demo.never in
  http_get env "a" = None
  /\ (fun st : St => (checked_urls (trace st.2), scraped_urls (trace st.2),
                      extraction_status (processing_status st.2),
                      pages_checked (processing_status st.2),
                      pages_with_keywords (processing_status st.2)))
       <$> Demo.submit_and_run env "limited" 5 (Some [Py.Str "foo"])
     = Some (["a"; "b"]%string, ["b"%string], STATUS_COMPLETED,
             Some 2%nat, Some 1%nat).
Proof. split; vm_compute; reflexivity. Qed.

(** C4 fails as stated: with no keywords, an interrupt requested before the
    worker starts is seen only after the first page has been scraped. *)
Lemma interrupt_seen_after_first_fetch :
  (fun st : St => (extraction_status (processing_status st.2),
                   pages_scraped (processing_status st.2),
                   scraped_urls (trace st.2),
                   sd_url <$> scraped_store st.1,
                   last (queued_kinds "c1" st.1)))
    <$> Demo.submit_interrupt_run
          (Demo.env_of (inl ["a"; "b"]%string) Demo.fetch_ab Demo.never)
          "limited" 5 None
  = Some (STATUS_INTERRUPTED, 0%nat, ["a"%string], ["a"%string],
          Some log_completion).
Proof. vm_compute. reflexivity. Qed.

(** C5 fails: interrupted after two of three pages have been scraped and
    stored, the worker writes a job record whose [pages_scraped] is 0 and
    whose [scraped_pages] list is empty. *)
Theorem interrupted_job_record_has_no_pages :
  (fun st : St => (extraction_status (processing_status st.2),
                   sd_url <$> scraped_store st.1,
                   (fun p => (extraction_status (doc_processing_status p),
                              pages_scraped (doc_processing_status p),
                              scraped_pages p))
                     <$> projects st.1 !! "id0"%string))
    <$> Demo.submit_and_run
          (Demo.env_of (inl ["a"; "b"; "c"]%string) Demo.fetch_ab (Demo.at_poll 1))
          "limited" 5 None
  = Some (STATUS_INTERRUPTED, ["a"; "b"]%string,
          Some (STATUS_INTERRUPTED, 0%nat, [])).
Proof. vm_compute. reflexivity. Qed.

(** C8 fails as stated when discovery failed: [pages_found] stays 0, yet the
    fallback processes the target URL, not the first
    [min(pages_limit, pages_found) = 0] pages. *)
Lemma fallback_ignores_pages_found :
  (fun st : St => (pages_found (processing_status st.2),
                   keyword_search_results (processing_status st.2),
                   scraped_urls (trace st.2),
                   bool_decide
                     (scraped_urls (trace st.2)
                      = take (Z.to_nat
                                (Z.min 5 (Z.of_nat (pages_found (processing_status st.2)))))
                          ["https://example.com"%string])))
    <$> Demo.submit_and_run
          (Demo.env_of (inr "boom"%string) Demo.fetch_ab Demo.never)
          "limited" 5 (Some [Py.Str "foo"])
  = Some (0%nat, Some "no_matches"%string, ["https://example.com"%string], false).
Proof. vm_compute. reflexivity. Qed.

(** C10 fails as stated when discovery failed: the job completes with
    [pages_scraped = 1] and [pages_found = 0]. *)
Lemma scraped_exceeds_found_after_failed_discovery :
  (fun st : St => (sitemap_status (processing_status st.2),
                   extraction_status (processing_status st.2),
                   pages_scraped (processing_status st.2),
                   pages_found (processing_status st.2),
                   bool_decide (pages_scraped (processing_status st.2)
                                <= pages_found (processing_status st.2))%nat))
    <$> Demo.submit_and_run
          (Demo.env_of (inr "boom"%string) Demo.fetch_ab Demo.never)
          "limited" 5 None
  = Some (error, STATUS_COMPLETED, 1%nat, 0%nat, false).
Proof. vm_compute. reflexivity. Qed.

(** ** Rules for triples *)

Lemma triple_ret {A} (a : A) (P : St -> Prop) (Q : A -> St -> Prop) R E :
  (forall st, P st -> Q a st) -> triple P (mret a) Q R E.
Proof. intros H st HP. apply H, HP. Qed.

Lemma triple_bind {A B} (m : M A) (k : A -> M B) (P : St -> Prop)
    (Q' : A -> St -> Prop) (Q : B -> St -> Prop) R E :
  triple P m Q' R E -> (forall a, triple (Q' a) (k a) Q R E) ->
  triple P (m ≫= k) Q R E.
Proof.
  intros Hm Hk st HP. specialize (Hm st HP).
  unfold mbind, M_bind, bind.
  destruct (m st) as [[a | | e] st']; [ apply Hk, Hm | exact Hm | exact Hm ].
Qed.

Lemma triple_try {A} (m : M A) (h : string -> M A) (P : St -> Prop)
    (Q : A -> St -> Prop) R E E' :
  triple P m Q R E' -> (forall e, triple E' (h e) Q R E) ->
  triple P (try_ m h) Q R E.
Proof.
  intros Hm Hh st HP. specialize (Hm st HP). unfold try_.
  destruct (m st) as [[a | | e] st']; [ exact Hm | exact Hm | apply Hh, Hm ].
Qed.

Lemma triple_weaken {A} (m : M A) (P P' : St -> Prop)
    (Q Q' : A -> St -> Prop) (R R' E E' : St -> Prop) :
  triple P' m Q' R' E' ->
  (forall st, P st -> P' st) -> (forall a st, Q' a st -> Q a st) ->
  (forall st, R' st -> R st) -> (forall st, E' st -> E st) ->
  triple P m Q R E.
Proof.
  intros Hm HP HQ HR HE st Hst. specialize (Hm st (HP st Hst)).
  destruct (m st) as [[a | | e] st']; auto.
Qed.

Lemma triple_return {A} (P R : St -> Prop) (Q : A -> St -> Prop) E :
  (forall st, P st -> R st) -> triple P return_ Q R E.
Proof. intros H st HP. apply H, HP. Qed.

Lemma triple_raise {A} (e : string) (P E : St -> Prop) (Q : A -> St -> Prop) R :
  (forall st, P st -> E st) -> triple P (raise e) Q R E.
Proof. intros H st HP. apply H, HP. Qed.

Lemma triple_emit (e : Event) (P : St -> Prop) (Q : unit -> St -> Prop) R E :
  (forall w f, P (w, f) -> Q tt (w, push e f)) -> triple P (emit e) Q R E.
Proof. intros H [w f] HP. apply H, HP. Qed.

Lemma triple_assign (g : ProcessingStatus -> ProcessingStatus) (P : St -> Prop)
    (Q : unit -> St -> Prop) R E :
  (forall w f, P (w, f) -> Q tt (w, store_status (g (processing_status f)) f)) ->
  triple P (assign g) Q R E.
Proof. intros H [w f] HP. apply H, HP. Qed.

Lemma triple_get_status (P : St -> Prop) (Q : ProcessingStatus -> St -> Prop) R E :
  (forall w f, P (w, f) -> Q (processing_status f) (w, f)) ->
  triple P get_status Q R E.
Proof. intros H [w f] HP. apply H, HP. Qed.

Lemma triple_get_world (P : St -> Prop) (Q : World -> St -> Prop) R E :
  (forall w f, P (w, f) -> Q w (w, f)) -> triple P get_world Q R E.
Proof. intros H [w f] HP. apply H, HP. Qed.

Lemma triple_calm {A} (m : M A) (P : St -> Prop) (Q : A -> St -> Prop) R E :
  calm m ->
  (forall w w' f a, P (w, f) ->
     active_extractions w' = active_extractions w -> Q a (w', f)) ->
  triple P m Q R E.
Proof.
  intros Hm H [w f] HP. destruct (Hm w f) as (a & w' & -> & Hreg).
  eapply H; eassumption.
Qed.

(** A calm step keeps every predicate of the form [inv FP WP]. *)
Lemma triple_calm_inv {A} (m : M A) FP WP R E :
  calm m -> triple (inv FP WP) m (fun _ => inv FP WP) R E.
Proof.
  intros Hm. apply triple_calm; [exact Hm | ].
  intros w w' f a [HF HW] Hreg. split; [exact HF | ].
  cbn [fst]. rewrite Hreg. exact HW.
Qed.

(** ** Calm steps *)

Lemma calm_ret {A} (a : A) : calm (mret a).
Proof. intros w f. exists a, w. split; reflexivity. Qed.

Lemma calm_bind {A B} (m : M A) (k : A -> M B) :
  calm m -> (forall a, calm (k a)) -> calm (m ≫= k).
Proof.
  intros Hm Hk w f. destruct (Hm w f) as (a & w1 & E1 & R1).
  destruct (Hk a w1 f) as (b & w2 & E2 & R2).
  exists b, w2. unfold mbind, M_bind, bind. rewrite E1, E2.
  split; [reflexivity | congruence].
Qed.

Lemma calm_utcnow : calm utcnow.
Proof. intros w f. eexists _, _. split; reflexivity. Qed.

Lemma calm_get_world : calm get_world.
Proof. intros w f. eexists _, _. split; reflexivity. Qed.

Lemma calm_get_status : calm get_status.
Proof. intros w f. eexists _, _. split; reflexivity. Qed.

Lemma calm_modify_world (g : World -> World) :
  (forall w, active_extractions (g w) = active_extractions w) ->
  calm (modify_world g).
Proof. intros H w f. eexists _, _. split; [reflexivity | apply H]. Qed.

Lemma calm_put_message (client_id : string) (t : LogType) (b : Body) :
  calm (put_message client_id t b).
Proof.
  unfold put_message. apply calm_bind; [apply calm_get_world | intros w].
  destruct (message_queues w !! client_id); [ | apply calm_ret ].
  apply calm_bind; [apply calm_utcnow | intros now].
  apply calm_modify_world. reflexivity.
Qed.

Lemma calm_send_log (client_id : string) (t : LogType) (text : string) :
  calm (send_log client_id t text).
Proof. apply calm_put_message. Qed.

Ltac calm_tac :=
  repeat first
    [ apply calm_send_log | apply calm_put_message | apply calm_ret
    | apply calm_utcnow | apply calm_get_world | apply calm_get_status
    | apply calm_bind; [ | intros ? ]
    | match goal with
      | |- calm (match ?x with _ => _ end) => destruct x
      | |- calm (if ?x then _ else _) => destruct x
      end
    | apply calm_modify_world; reflexivity ].

Lemma calm_log_match_details (client_id : string) (contexts : Keywords.Contexts)
    (matches : list string) :
  calm (log_match_details client_id contexts matches).
Proof.
  induction matches as [ | kw rest IH]; cbn [log_match_details].
  - apply calm_ret.
  - apply calm_bind; [apply calm_send_log | intros _; exact IH].
Qed.

Lemma calm_log_page_info (env : Env) (client_id : string) (d : ScrapedData) :
  calm (log_page_info env client_id d).
Proof. unfold log_page_info. calm_tac. Qed.

Lemma calm_log_page_keywords (client_id page_url : string) (a : Filtered) :
  calm (log_page_keywords client_id page_url a).
Proof. unfold log_page_keywords. calm_tac. Qed.

(** ** Steps against invariants of the form [inv FP WP] *)

Lemma triple_emit_inv (e : Event) (FP FP' : Frame -> Prop) WP R E :
  (forall f, FP f -> FP' (push e f)) ->
  triple (inv FP WP) (emit e) (fun _ => inv FP' WP) R E.
Proof.
  intros H. apply triple_emit. intros w f [HF HW].
  split; [apply H, HF | exact HW].
Qed.

Lemma triple_assign_inv (g : ProcessingStatus -> ProcessingStatus)
    (FP FP' : Frame -> Prop) WP R E :
  (forall f, FP f -> FP' (store_status (g (processing_status f)) f)) ->
  triple (inv FP WP) (assign g) (fun _ => inv FP' WP) R E.
Proof.
  intros H. apply triple_assign. intros w f [HF HW].
  split; [apply H, HF | exact HW].
Qed.

Lemma triple_persist_inv (pid : string) (doc : UpdateDoc)
    (FP FP' : Frame -> Prop) WP R E :
  (forall f, FP f -> FP' (push (EvPersist pid doc) f)) ->
  triple (inv FP WP) (update_project_partial_sync pid doc) (fun _ => inv FP' WP) R E.
Proof. intros H [w f] [HF HW]. split; [apply H, HF | exact HW]. Qed.

Lemma triple_modify_world_inv (g : World -> World) (FP : Frame -> Prop)
    (WP WP' : gmap string RegistryEntry -> Prop) R E :
  (forall w, WP (active_extractions w) -> WP' (active_extractions (g w))) ->
  triple (inv FP WP) (modify_world g) (fun _ => inv FP WP') R E.
Proof. intros H [w f] [HF HW]. split; [exact HF | apply H, HW]. Qed.

Lemma triple_get_status_inv (FP : Frame -> Prop) WP R E :
  triple (inv FP WP) get_status
    (fun s => inv (fun f => FP f /\ processing_status f = s) WP) R E.
Proof. intros [w f] [HF HW]. repeat split; assumption. Qed.

Lemma triple_get_world_inv (FP : Frame -> Prop) WP R E :
  triple (inv FP WP) get_world
    (fun w => inv FP (fun reg => WP reg /\ reg = active_extractions w)) R E.
Proof. intros [w f] [HF HW]. repeat split; assumption. Qed.

(** A poll of the flag: the control plane may have set the flag just
    before; the worker reads what the registry then says. *)
Lemma triple_poll_inv (env : Env) (client_id : string) (FP : Frame -> Prop)
    (WP : gmap string RegistryEntry -> Prop) R E :
  (forall f, FP f -> FP (count_poll f)) ->
  (forall reg e t, reg !! client_id = Some e -> WP reg ->
     WP (<[client_id := request_interrupt t e]> reg)) ->
  triple (inv FP WP) (poll_interrupt env client_id)
    (fun stop => inv FP (fun reg => WP reg /\ flag client_id reg = stop)) R E.
Proof.
  intros HF HW [w f] [H1 H2]. unfold poll_interrupt. cbn [fst snd].
  destruct (interrupt_before_check env (checks f)).
  - unfold interrupt_extraction.
    destruct (active_extractions w !! client_id) as [e | ] eqn:He.
    + split; [apply HF, H1 | ]. split; [ | reflexivity ].
      apply HW; assumption.
    + split; [apply HF, H1 | ]. split; [exact H2 | reflexivity].
  - split; [apply HF, H1 | ]. split; [exact H2 | reflexivity].
Qed.

Ltac bind_with lem := eapply triple_bind; [ eapply lem | intros ? ].
Ltac bind_as lem x := eapply triple_bind; [ eapply lem | intros x ].
Ltac bind_calm := eapply triple_bind; [ eapply triple_calm_inv; calm_tac | intros ? ].

Lemma triple_pre {A} (m : M A) (P P' : St -> Prop) (Q : A -> St -> Prop) R E :
  (forall st, P st -> P' st) -> triple P' m Q R E -> triple P m Q R E.
Proof. intros HP Hm st Hst. apply Hm, HP, Hst. Qed.

Lemma triple_absurd {A} (m : M A) (P : St -> Prop) (Q : A -> St -> Prop) R E :
  (forall st, P st -> False) -> triple P m Q R E.
Proof. intros HP st Hst. destruct (HP st Hst). Qed.

(** ** The end time is set once, together with the terminal state *)

Lemma snapshots_push (e : Event) (t : list Event) :
  snapshots (t ++ [e])
  = snapshots t ++ match e with EvStatus s => [s] | _ => [] end.
Proof. unfold snapshots. rewrite omap_app. destruct e; reflexivity. Qed.

Lemma snapshots_push_other (e : Event) (t : list Event) :
  (forall s, e <> EvStatus s) -> snapshots (t ++ [e]) = snapshots t.
Proof.
  intros H. rewrite snapshots_push.
  destruct e; try apply app_nil_r. destruct (H s eq_refl).
Qed.

Lemma Running_push (e : Event) (f : Frame) :
  (forall s, e <> EvStatus s) -> Running f -> Running (push e f).
Proof.
  intros He [H1 H2]. split; [exact H1 | ].
  cbn [push trace]. rewrite snapshots_push_other by exact He. exact H2.
Qed.

Lemma Running_store (s : ProcessingStatus) (f : Frame) :
  running_snap s -> Running f -> Running (store_status s f).
Proof.
  intros Hs [H1 H2]. split; [exact Hs | ].
  cbn [store_status trace]. rewrite snapshots_push.
  apply Forall_app. split; [exact H2 | ]. constructor; [exact Hs | constructor].
Qed.

Lemma Finished_store (s : ProcessingStatus) (f : Frame) :
  is_terminal (extraction_status s) = true -> is_Some (end_time s) ->
  Running f -> Finished (store_status s f).
Proof.
  intros Ht He [H1 H2]. exists (snapshots (trace f)).
  cbn [store_status trace processing_status]. rewrite snapshots_push.
  repeat split; assumption.
Qed.

Lemma Finished_push (e : Event) (f : Frame) :
  (forall s, e <> EvStatus s) -> Finished f -> Finished (push e f).
Proof.
  intros He (before & H1 & H2 & H3 & H4). exists before.
  cbn [push trace processing_status]. rewrite snapshots_push_other by exact He.
  repeat split; assumption.
Qed.

Section EndTime.

Variable env : Env.
Variables client_id pid : string.

#[local] Abbreviation RUN := (inv Running (fun _ => True)).
#[local] Abbreviation FIN := (inv Finished (fun _ => True)).

Ltac quiet_push :=
  intros ? ?;
  first [ apply Running_push; [discriminate | assumption]
        | apply Finished_push; [discriminate | assumption] ].
Ltac soft_store := intros ? [? ?]; apply Running_store; [ | split]; assumption.

Lemma running_check_page (page_url : string) (keywords : list Py.value)
    (with_meta : bool) R E :
  triple RUN (check_page_for_keywords env page_url keywords with_meta)
    (fun _ => RUN) R E.
Proof.
  unfold check_page_for_keywords.
  bind_with triple_emit_inv; [quiet_push | ].
  apply triple_ret. auto.
Qed.

Lemma running_handle_interruption R E :
  triple (inv Running (fun reg => is_Some (reg !! client_id)))
    (handle_interruption client_id pid) (fun _ => FIN) R E.
Proof.
  unfold handle_interruption.
  bind_as triple_get_world_inv w0.
  destruct (active_extractions w0 !! client_id) as [e | ] eqn:He.
  - bind_calm.
    eapply triple_bind;
      [ eapply triple_modify_world_inv with (WP' := fun _ => True); intros; exact I
      | intros ? ].
    bind_calm.
    bind_with triple_assign_inv.
    { intros f Hf. apply Finished_store; [reflexivity | eexists; reflexivity | exact Hf]. }
    bind_calm.
    bind_with triple_persist_inv; [quiet_push | ].
    bind_calm.
    eapply triple_calm_inv. calm_tac.
  - apply triple_absurd. intros st [_ [[x Hx] Heq]].
    cbn beta in Heq. rewrite Heq in Hx. congruence.
Qed.

Lemma running_check_one (page_url : string) (keywords : list Py.value)
    (with_meta : bool) (total : nat) (a : Filtered) R E :
  triple RUN (check_one env client_id page_url keywords with_meta total a)
    (fun _ => RUN) R E.
Proof.
  unfold check_one. bind_calm.
  bind_as running_check_page r.
  destruct r as [[[contains matches] meta] contexts].
  destruct contains.
  - bind_calm. eapply triple_bind.
    + eapply triple_calm_inv. apply calm_log_match_details.
    + intros ?. apply triple_ret. auto.
  - bind_calm. apply triple_ret. auto.
Qed.

Lemma running_interrupted {A} (text : string) (Q : A -> St -> Prop) E :
  triple (inv Running (fun reg => True /\ flag client_id reg = true))
    (send_log client_id log_warning text;;
     handle_interruption client_id pid;;
     return_) Q FIN E.
Proof.
  eapply triple_pre with (P' := inv Running (fun reg => is_Some (reg !! client_id))).
  { intros st [H1 [_ H2]]. split; [exact H1 | ]. unfold flag in H2.
    destruct (active_extractions st.1 !! client_id); [eauto | discriminate]. }
  bind_calm. bind_with running_handle_interruption.
  apply triple_return. auto.
Qed.

Lemma running_filter_pages (keywords : list Py.value) (with_meta : bool)
    (total : nat) (pages : list string) :
  forall (i : nat) (a : Filtered),
    triple RUN (filter_pages env client_id pid keywords with_meta total i pages a)
      (fun _ => RUN) FIN RUN.
Proof.
  induction pages as [ | page_url rest IH]; intros i a; cbn [filter_pages].
  - apply triple_ret. auto.
  - eapply triple_bind.
    { eapply triple_poll_inv; [ intros f Hf; exact Hf | intros; exact I ]. }
    intros [ | ].
    + apply running_interrupted.
    + eapply triple_pre with (P' := RUN); [ intros st [H _]; split; [exact H | exact I] | ].
      eapply triple_bind; [ | intros a2; apply IH ].
      eapply triple_try with (E' := RUN); [ apply running_check_one | ].
      intros e. bind_calm. apply triple_ret. auto.
Qed.

Lemma running_join_keywords (keywords : list Py.value) R :
  triple RUN (join_keywords keywords) (fun _ => RUN) R RUN.
Proof.
  unfold join_keywords. destruct (Py.all_str keywords).
  - apply triple_ret. auto.
  - apply triple_raise. auto.
Qed.

Lemma running_select_pages (search_keywords : option (list Py.value))
    (with_meta : bool) (limit : Z) (sitemap_pages : list string) :
  triple RUN
    (select_pages env client_id pid search_keywords with_meta limit sitemap_pages)
    (fun _ => RUN) FIN RUN.
Proof.
  unfold select_pages. destruct (Py.truthy search_keywords).
  - bind_with running_join_keywords. bind_calm.
    bind_as running_filter_pages flt.
    eapply triple_bind.
    { case_bool_decide.
      - eapply triple_calm_inv. calm_tac.
      - bind_calm. bind_with triple_assign_inv; [soft_store | ].
        eapply triple_persist_inv. quiet_push. }
    intros ?. bind_with triple_assign_inv; [soft_store | ].
    destruct (filtered_pages flt); bind_calm; apply triple_ret; auto.
  - apply triple_ret. auto.
Qed.

Lemma running_scrape_one (page_url : string) (a : Filtered) (total i : nat)
    (scraped : list string) R :
  triple RUN (scrape_one env client_id page_url a total i scraped)
    (fun _ => RUN) R RUN.
Proof.
  unfold scrape_one. bind_calm.
  eapply triple_bind;
    [ eapply triple_calm_inv; apply calm_log_page_keywords | intros ? ].
  bind_with triple_emit_inv; [quiet_push | ].
  destruct (scrape_website env page_url) as [data | e].
  - bind_with triple_emit_inv; [quiet_push | ].
    destruct (store_in_mongodb env _).
    + apply triple_raise. auto.
    + eapply triple_bind;
        [ eapply triple_modify_world_inv with (WP' := fun _ => True); intros; exact I
        | intros ? ].
      bind_calm.
      eapply triple_bind;
        [ eapply triple_calm_inv; apply calm_log_page_info | intros ? ].
      apply triple_ret. auto.
  - apply triple_raise. auto.
Qed.

Lemma running_scrape_pages (a : Filtered) (total : nat) (pages : list string) :
  forall (i : nat) (scraped : list string),
    triple RUN (scrape_pages env client_id pid a total i pages scraped)
      (fun _ => RUN) FIN RUN.
Proof.
  induction pages as [ | page_url rest IH]; intros i scraped; cbn [scrape_pages].
  - apply triple_ret. auto.
  - eapply triple_bind.
    { eapply triple_try; [ apply running_scrape_one | ].
      intros e. bind_calm. bind_with triple_assign_inv; [soft_store | ].
      apply triple_ret. auto. }
    intros scraped'. eapply triple_bind.
    { eapply triple_poll_inv; [ intros f Hf; exact Hf | intros; exact I ]. }
    intros [ | ].
    + apply running_interrupted.
    + eapply triple_pre with (P' := RUN); [ intros st [H _]; split; [exact H | exact I] | ].
      apply IH.
Qed.

Lemma running_log_start (url : string) (search_keywords : option (list Py.value))
    (with_meta : bool) R :
  triple RUN (log_start url client_id search_keywords with_meta)
    (fun _ => RUN) R RUN.
Proof.
  unfold log_start. bind_calm. destruct (Py.truthy search_keywords).
  - bind_with running_join_keywords. bind_calm.
    eapply triple_calm_inv. calm_tac.
  - apply triple_ret. auto.
Qed.

Lemma running_process_robots (url : string) R E :
  triple RUN (process_robots env url client_id) (fun _ => RUN) R E.
Proof.
  unfold process_robots. bind_calm.
  bind_with triple_emit_inv; [quiet_push | ].
  destruct (Robots env url) as [[ | ] | e];
    (bind_with triple_assign_inv; [soft_store | ]);
    eapply triple_calm_inv; calm_tac.
Qed.

Lemma running_process_sitemap (url : string) R E :
  triple RUN (process_sitemap env url client_id) (fun _ => RUN) R E.
Proof.
  unfold process_sitemap. bind_calm.
  bind_with triple_emit_inv; [quiet_push | ].
  destruct (Sitemap env url) as [[ | p ps] | e];
    (bind_with triple_assign_inv; [soft_store | ]);
    bind_calm; apply triple_ret; auto.
Qed.

Lemma running_complete (search_keywords : option (list Py.value)) (a : Filtered)
    (scraped : list string) R E :
  triple RUN (complete client_id pid search_keywords a scraped)
    (fun _ => FIN) R E.
Proof.
  unfold complete. bind_calm.
  bind_with triple_assign_inv.
  { intros f Hf. apply Finished_store; [reflexivity | eexists; reflexivity | exact Hf]. }
  bind_calm.
  bind_with triple_persist_inv; [quiet_push | ].
  bind_with triple_persist_inv; [quiet_push | ].
  bind_calm. eapply triple_calm_inv. calm_tac.
Qed.

Lemma running_pipeline (url : string) (limit : Z)
    (search_keywords : option (list Py.value)) (with_meta : bool) :
  triple RUN (pipeline env url pid client_id limit search_keywords with_meta)
    (fun _ => FIN) FIN RUN.
Proof.
  unfold pipeline.
  bind_with running_log_start.
  bind_with running_process_robots.
  bind_with running_process_sitemap.
  bind_as running_select_pages sel.
  destruct sel as [pages_to_process flt].
  bind_calm.
  bind_with running_scrape_pages.
  apply running_complete.
Qed.

Lemma running_on_unexpected_error (e : string) R E :
  triple RUN (on_unexpected_error client_id pid e) (fun _ => FIN) R E.
Proof.
  unfold on_unexpected_error. bind_calm.
  bind_as triple_get_world_inv w0.
  eapply triple_bind with (Q' := fun _ => RUN).
  { destruct (active_extractions w0 !! client_id).
    - bind_calm. eapply triple_modify_world_inv. intros; exact I.
    - apply triple_ret. intros st [H _]. split; [exact H | exact I]. }
  intros ?. bind_calm.
  bind_with triple_assign_inv.
  { intros f Hf. apply Finished_store; [reflexivity | eexists; reflexivity | exact Hf]. }
  bind_calm. eapply triple_persist_inv. quiet_push.
Qed.

End EndTime.

(** C9. Whatever the collaborators answer and whenever interrupt requests
    arrive, the worker ends with a terminal [extraction_status] and an
    [end_time]; the assignment that set them is the last one made to the
    status, and every earlier value of the status was [running] with no
    [end_time].  So at every point [end_time] is set if and only if the
    state is terminal, and it is assigned once. *)
Theorem end_time_set_once_with_terminal_state (env : Env) (j : Job) (w : World) :
  let f := (run_extraction_thread env j w).2 in
  (exists before,
     snapshots (trace f) = before ++ [processing_status f]
     /\ Forall (fun s => extraction_status s = STATUS_RUNNING /\ end_time s = None)
          before
     /\ is_terminal (extraction_status (processing_status f)) = true
     /\ is_Some (end_time (processing_status f)))
  /\ Forall (fun s => is_Some (end_time s)
                      <-> is_terminal (extraction_status s) = true)
       (snapshots (trace f)).
Proof.
  cbn zeta.
  assert (HF : Finished (run_extraction_thread env j w).2).
  { unfold run_extraction_thread, clean_up, modify_world. cbn [fst snd].
    match goal with
    | |- context [try_ ?m ?h ?st0] =>
        pose proof (triple_try m h (inv Running (fun _ => True))
                      (fun _ => inv Finished (fun _ => True))
                      (inv Finished (fun _ => True))
                      (inv Finished (fun _ => True))
                      (inv Running (fun _ => True))
                      (running_pipeline env _ _ _ _ _ _)
                      (fun e => running_on_unexpected_error _ _ e _ _) st0) as H;
        assert (H0 : inv Running (fun _ => True) st0);
        [ | specialize (H H0); destruct (try_ m h st0) as [[[] | | e] st'];
            exact (proj1 H) ]
    end.
    split; [ | exact I ]. split; [ split; reflexivity | ].
    cbn. constructor; [ split; reflexivity | constructor ]. }
  split; [exact HF | ].
  destruct HF as (before & -> & Hb & Ht & He).
  apply Forall_app. split.
  - eapply Forall_impl; [exact Hb | ]. intros s [H1 H2]. rewrite H1, H2.
    split; [ intros [x Hx]; discriminate | discriminate ].
  - constructor; [ | constructor ]. split; intros _; assumption.
Qed.

(** ** Scraped pages against found pages *)

Lemma slice_to_length {A} (l : list A) (n : Z) :
  (length (Py.slice_to l n) <= length l)%nat.
Proof. unfold Py.slice_to. destruct (0 <=? n); rewrite length_take; lia. Qed.

Lemma Unscraped_Counted (x : option nat) (f : Frame) : Unscraped x f -> Counted f.
Proof. intros (_ & _ & H). exact H. Qed.

Lemma Unscraped_forget (x : option nat) (f : Frame) :
  Unscraped x f -> Unscraped None f.
Proof. intros (H1 & _ & H3). repeat split; [exact H1 | discriminate | exact H3]. Qed.

Lemma Counted_push (e : Event) (f : Frame) :
  (forall s, e <> EvStatus s) -> Counted f -> Counted (push e f).
Proof.
  intros He H. unfold Counted. cbn [push trace].
  rewrite snapshots_push_other by exact He. exact H.
Qed.

Lemma Counted_store (s : ProcessingStatus) (f : Frame) :
  within_found s -> Counted f -> Counted (store_status s f).
Proof.
  intros Hs H. unfold Counted. cbn [store_status trace]. rewrite snapshots_push.
  apply Forall_app. split; [exact H | ]. constructor; [exact Hs | constructor].
Qed.

Lemma Unscraped_push (x : option nat) (e : Event) (f : Frame) :
  (forall s, e <> EvStatus s) -> Unscraped x f -> Unscraped x (push e f).
Proof.
  intros He (H1 & H2 & H3). repeat split; [exact H1 | exact H2 | ].
  apply Counted_push; assumption.
Qed.

(** An assignment that leaves both counts alone. *)
Lemma Unscraped_store (x : option nat) (s : ProcessingStatus) (f : Frame) :
  pages_scraped s = pages_scraped (processing_status f) ->
  pages_found s = pages_found (processing_status f) ->
  Unscraped x f -> Unscraped x (store_status s f).
Proof.
  intros Hs Hf (H1 & H2 & H3). split; [ | split ].
  - cbn [store_status processing_status]. congruence.
  - intros n Hn. cbn [store_status processing_status]. rewrite Hf. auto.
  - apply Counted_store; [ | exact H3 ]. unfold within_found. lia.
Qed.

(** The assignment that ends the worker without a count. *)
Lemma Counted_finish (x : option nat) (st : Status) (t : Timestamp)
    (err : list string) (f : Frame) :
  Unscraped x f ->
  Counted (store_status (Upd.finish st t None err (processing_status f)) f).
Proof.
  intros (H1 & _ & H3). apply Counted_store; [ | exact H3 ].
  unfold within_found. cbn. lia.
Qed.

Lemma triple_inv_pure {A} (m : M A) (phi : Prop) (FP : Frame -> Prop) WP
    (Q : A -> St -> Prop) R E :
  (phi -> triple (inv FP WP) m Q R E) ->
  triple (inv (fun f => FP f /\ phi) WP) m Q R E.
Proof.
  intros H st [[H1 H2] H3]. apply (H H2). split; assumption.
Qed.

Lemma triple_exc {A} (m : M A) (P : St -> Prop) (Q : A -> St -> Prop)
    (R E E' : St -> Prop) :
  (forall st, E' st -> E st) -> triple P m Q R E' -> triple P m Q R E.
Proof.
  intros HE Hm. eapply triple_weaken; [exact Hm | auto | auto | auto | exact HE].
Qed.

Section Counts.

Variable env : Env.
Variables client_id pid : string.

#[local] Abbreviation UNS x := (inv (Unscraped x) (fun _ => True)).
#[local] Abbreviation CNT := (inv Counted (fun _ => True)).

Ltac keep_push :=
  intros ? ?;
  first [ eapply Unscraped_push; [discriminate | eassumption]
        | eapply Counted_push; [discriminate | eassumption] ].
Ltac keep_store :=
  intros ? ?; eapply Unscraped_store; [reflexivity | reflexivity | eassumption].
Ltac trivial_ret := apply triple_ret; intros ? ?; assumption.

Lemma counted_check_page (x : option nat) (page_url : string)
    (keywords : list Py.value) (with_meta : bool) R E :
  triple (UNS x) (check_page_for_keywords env page_url keywords with_meta)
    (fun _ => UNS x) R E.
Proof.
  unfold check_page_for_keywords.
  bind_with triple_emit_inv; [keep_push | ].
  trivial_ret.
Qed.

Lemma counted_handle_interruption (x : option nat) WP R E :
  triple (inv (Unscraped x) WP) (handle_interruption client_id pid)
    (fun _ => CNT) R E.
Proof.
  unfold handle_interruption.
  bind_as triple_get_world_inv w0.
  destruct (active_extractions w0 !! client_id) as [e | ].
  - bind_calm.
    eapply triple_bind;
      [ eapply triple_modify_world_inv with (WP' := fun _ => True); intros; exact I
      | intros ? ].
    bind_calm.
    bind_with triple_assign_inv; [ intros f Hf; eapply Counted_finish, Hf | ].
    bind_calm.
    bind_with triple_persist_inv; [keep_push | ].
    bind_calm.
    eapply triple_calm_inv. calm_tac.
  - apply triple_ret. intros st [H _]. split; [ | exact I ].
    eapply Unscraped_Counted, H.
Qed.

Lemma counted_interrupted {A} (x : option nat) (text : string) WP
    (Q : A -> St -> Prop) E :
  triple (inv (Unscraped x) WP)
    (send_log client_id log_warning text;;
     handle_interruption client_id pid;;
     return_) Q CNT E.
Proof.
  bind_calm. bind_with counted_handle_interruption.
  apply triple_return. auto.
Qed.

Lemma counted_check_one (x : option nat) (page_url : string)
    (keywords : list Py.value) (with_meta : bool) (total : nat) (a : Filtered)
    R E :
  triple (UNS x) (check_one env client_id page_url keywords with_meta total a)
    (fun a' => inv (fun f => Unscraped x f
                             /\ (length (filtered_pages a')
                                 <= length (filtered_pages a) + 1)%nat)
                   (fun _ => True)) R E.
Proof.
  unfold check_one. bind_calm.
  bind_as counted_check_page r.
  destruct r as [[[contains matches] meta] contexts].
  destruct contains.
  - bind_calm. eapply triple_bind.
    + eapply triple_calm_inv. apply calm_log_match_details.
    + intros ?. apply triple_ret. intros st [H1 H2].
      split; [ | exact I ]. split; [exact H1 | ].
      cbn [record_match filtered_pages]. rewrite length_app. cbn. lia.
  - bind_calm. apply triple_ret. intros st [H1 H2].
    split; [ | exact I ]. split; [exact H1 | lia].
Qed.

Lemma counted_filter_pages (x : option nat) (keywords : list Py.value)
    (with_meta : bool) (total : nat) (pages : list string) :
  forall (i : nat) (a : Filtered),
    triple (UNS x)
      (filter_pages env client_id pid keywords with_meta total i pages a)
      (fun a' => inv (fun f => Unscraped x f
                               /\ (length (filtered_pages a')
                                   <= length (filtered_pages a) + length pages)%nat)
                     (fun _ => True))
      CNT (UNS x).
Proof.
  induction pages as [ | page_url rest IH]; intros i a; cbn [filter_pages].
  - apply triple_ret. intros st [H1 H2]. split; [ | exact I ].
    split; [exact H1 | lia].
  - eapply triple_bind.
    { eapply triple_poll_inv; [ intros f Hf; exact Hf | intros; exact I ]. }
    intros [ | ].
    + apply counted_interrupted.
    + eapply triple_pre with (P' := UNS x);
        [ intros st [H _]; split; [exact H | exact I] | ].
      eapply triple_bind with
        (Q' := fun a2 => inv (fun f => Unscraped x f
                                /\ (length (filtered_pages a2)
                                    <= length (filtered_pages (count_checked a)) + 1)%nat)
                             (fun _ => True)).
      * eapply triple_try with (E' := UNS x); [ apply counted_check_one | ].
        intros e. bind_calm. apply triple_ret. intros st [H1 H2].
        split; [ | exact I ]. split; [exact H1 | ].
        cbn [include_anyway count_checked filtered_pages].
        rewrite length_app. cbn. lia.
      * intros a2. apply triple_inv_pure. intros Hlen.
        cbn [count_checked filtered_pages] in Hlen.
        eapply triple_weaken; [ apply (IH (S i) a2) | auto | | auto | auto ].
        intros a' st [[H1 H2] _]. split; [ | exact I ].
        split; [exact H1 | ]. cbn [length]. lia.
Qed.

Lemma counted_join_keywords (x : option nat) (keywords : list Py.value) R :
  triple (UNS x) (join_keywords keywords) (fun _ => UNS x) R (UNS x).
Proof.
  unfold join_keywords. destruct (Py.all_str keywords).
  - trivial_ret.
  - apply triple_raise. auto.
Qed.

(** The pages selected for scraping are no more than the candidate pages. *)
Lemma counted_select_pages (x : option nat)
    (search_keywords : option (list Py.value)) (with_meta : bool) (limit : Z)
    (pages : list string) :
  triple (UNS x)
    (select_pages env client_id pid search_keywords with_meta limit pages)
    (fun sel => inv (fun f => Unscraped x f
                              /\ (length sel.1 <= length pages)%nat)
                    (fun _ => True))
    CNT (UNS x).
Proof.
  unfold select_pages. destruct (Py.truthy search_keywords).
  - bind_with counted_join_keywords. bind_calm.
    bind_as counted_filter_pages flt.
    apply triple_inv_pure. intros Hlen.
    eapply triple_bind with (Q' := fun _ => UNS x).
    { case_bool_decide.
      - eapply triple_calm_inv. calm_tac.
      - bind_calm. bind_with triple_assign_inv; [keep_store | ].
        eapply triple_persist_inv. keep_push. }
    intros ?. bind_with triple_assign_inv; [keep_store | ].
    pose proof (slice_to_length pages limit) as Hs.
    destruct (filtered_pages flt) as [ | p l] eqn:Hf; bind_calm;
      apply triple_ret; intros st [H1 H2]; (split; [ | exact I ]);
      (split; [exact H1 | ]); cbn [fst].
    + apply slice_to_length.
    + cbn [no_filter filtered_pages length] in Hlen. cbn [length]. lia.
  - apply triple_ret. intros st [H1 H2]. split; [ | exact I ].
    split; [exact H1 | ]. cbn [fst]. apply slice_to_length.
Qed.

Lemma counted_scrape_one (x : option nat) (page_url : string) (a : Filtered)
    (total i : nat) (scraped : list string) R :
  triple (UNS x) (scrape_one env client_id page_url a total i scraped)
    (fun scraped' => inv (fun f => Unscraped x f
                                   /\ (length scraped' <= length scraped + 1)%nat)
                         (fun _ => True))
    R (UNS x).
Proof.
  unfold scrape_one. bind_calm.
  eapply triple_bind;
    [ eapply triple_calm_inv; apply calm_log_page_keywords | intros ? ].
  bind_with triple_emit_inv; [keep_push | ].
  destruct (scrape_website env page_url) as [data | e].
  - bind_with triple_emit_inv; [keep_push | ].
    destruct (store_in_mongodb env _).
    + apply triple_raise. auto.
    + eapply triple_bind;
        [ eapply triple_modify_world_inv with (WP' := fun _ => True); intros; exact I
        | intros ? ].
      bind_calm.
      eapply triple_bind;
        [ eapply triple_calm_inv; apply calm_log_page_info | intros ? ].
      apply triple_ret. intros st [H1 H2]. split; [ | exact I ].
      split; [exact H1 | ]. rewrite length_app. cbn. lia.
  - apply triple_raise. auto.
Qed.

Lemma counted_scrape_pages (x : option nat) (a : Filtered) (total : nat)
    (pages : list string) :
  forall (i : nat) (scraped : list string),
    triple (UNS x) (scrape_pages env client_id pid a total i pages scraped)
      (fun scraped' =>
         inv (fun f => Unscraped x f
                       /\ (length scraped' <= length scraped + length pages)%nat)
             (fun _ => True))
      CNT (UNS x).
Proof.
  induction pages as [ | page_url rest IH]; intros i scraped; cbn [scrape_pages].
  - apply triple_ret. intros st [H1 H2]. split; [ | exact I ].
    split; [exact H1 | lia].
  - eapply triple_bind with
      (Q' := fun s' => inv (fun f => Unscraped x f
                              /\ (length s' <= length scraped + 1)%nat)
                           (fun _ => True)).
    { eapply triple_try with (E' := UNS x); [ apply counted_scrape_one | ].
      intros e. bind_calm. bind_with triple_assign_inv; [keep_store | ].
      apply triple_ret. intros st [H1 H2]. split; [ | exact I ].
      split; [exact H1 | lia]. }
    intros scraped'. apply triple_inv_pure. intros Hlen.
    eapply triple_bind.
    { eapply triple_poll_inv; [ intros f Hf; exact Hf | intros; exact I ]. }
    intros [ | ].
    + apply counted_interrupted.
    + eapply triple_weaken; [ apply (IH (S i) scraped') | | | auto | auto ].
      * intros st [H _]. split; [exact H | exact I].
      * intros s' st [[H1 H2] _]. split; [ | exact I ].
        split; [exact H1 | ]. cbn [length]. lia.
Qed.

Lemma counted_log_start (x : option nat) (url : string)
    (search_keywords : option (list Py.value)) (with_meta : bool) R :
  triple (UNS x) (log_start url client_id search_keywords with_meta)
    (fun _ => UNS x) R (UNS x).
Proof.
  unfold log_start. bind_calm. destruct (Py.truthy search_keywords).
  - bind_with counted_join_keywords. bind_calm.
    eapply triple_calm_inv. calm_tac.
  - trivial_ret.
Qed.

Lemma counted_process_robots (x : option nat) (url : string) R E :
  triple (UNS x) (process_robots env url client_id) (fun _ => UNS x) R E.
Proof.
  unfold process_robots. bind_calm.
  bind_with triple_emit_inv; [keep_push | ].
  destruct (Robots env url) as [[ | ] | e];
    (bind_with triple_assign_inv; [keep_store | ]);
    eapply triple_calm_inv; calm_tac.
Qed.

(** When discovery succeeds, [pages_found] is the number of pages the
    worker goes on with. *)
Lemma counted_process_sitemap (url : string) (p : string) (ps : list string) R E :
  Sitemap env url = inl (p :: ps) ->
  triple (UNS None) (process_sitemap env url client_id)
    (fun pages => inv (fun f => Unscraped (Some (length pages)) f
                                /\ pages = p :: ps)
                      (fun _ => True)) R E.
Proof.
  intros Hs. unfold process_sitemap. bind_calm.
  bind_with triple_emit_inv; [keep_push | ].
  rewrite Hs.
  eapply triple_bind with (Q' := fun _ => UNS (Some (length (p :: ps)))).
  { eapply triple_assign_inv. intros f (H1 & H2 & H3). split; [ | split ].
    - exact H1.
    - intros n [= <-]. reflexivity.
    - apply Counted_store; [ | exact H3 ].
      unfold within_found. cbn. rewrite H1. lia. }
  intros ?. bind_calm. apply triple_ret. intros st [H1 H2].
  split; [ | exact I ]. split; [exact H1 | reflexivity].
Qed.

Lemma counted_complete (n : nat) (search_keywords : option (list Py.value))
    (a : Filtered) (scraped : list string) R E :
  (length scraped <= n)%nat ->
  triple (UNS (Some n)) (complete client_id pid search_keywords a scraped)
    (fun _ => CNT) R E.
Proof.
  intros Hlen. unfold complete. bind_calm.
  bind_with triple_assign_inv.
  { intros f (H1 & H2 & H3). apply Counted_store; [ | exact H3 ].
    unfold within_found. cbn. rewrite (H2 n eq_refl). exact Hlen. }
  bind_calm.
  bind_with triple_persist_inv; [keep_push | ].
  bind_with triple_persist_inv; [keep_push | ].
  bind_calm. eapply triple_calm_inv. calm_tac.
Qed.

Lemma counted_pipeline (url : string) (limit : Z)
    (search_keywords : option (list Py.value)) (with_meta : bool)
    (p : string) (ps : list string) :
  Sitemap env url = inl (p :: ps) ->
  triple (UNS None)
    (pipeline env url pid client_id limit search_keywords with_meta)
    (fun _ => CNT) CNT (UNS None).
Proof.
  intros Hs. unfold pipeline.
  bind_with counted_log_start.
  bind_with counted_process_robots.
  eapply triple_bind;
    [ eapply counted_process_sitemap; exact Hs | intros pages ].
  apply triple_inv_pure. intros ->.
  apply triple_exc with (E' := UNS (Some (length (p :: ps)))).
  { intros st [H _]. split; [ | exact I ]. eapply Unscraped_forget, H. }
  bind_as counted_select_pages sel.
  destruct sel as [pages_to_process flt].
  apply triple_inv_pure. cbn [fst]. intros Hsel.
  bind_calm.
  bind_as counted_scrape_pages scraped.
  apply triple_inv_pure. intros Hscr. cbn [length] in Hscr.
  apply counted_complete. cbn [length] in *. lia.
Qed.

Lemma counted_on_unexpected_error (e : string) R E :
  triple (UNS None) (on_unexpected_error client_id pid e) (fun _ => CNT) R E.
Proof.
  unfold on_unexpected_error. bind_calm.
  bind_as triple_get_world_inv w0.
  eapply triple_bind with (Q' := fun _ => UNS None).
  { destruct (active_extractions w0 !! client_id).
    - bind_calm. eapply triple_modify_world_inv. intros; exact I.
    - apply triple_ret. intros st [H _]. split; [exact H | exact I]. }
  intros ?. bind_calm.
  bind_with triple_assign_inv; [ intros f Hf; eapply Counted_finish, Hf | ].
  bind_calm. eapply triple_persist_inv. keep_push.
Qed.

End Counts.

(** C10, as the code has it: when sitemap discovery succeeds (the sitemap
    yields at least one page), every value the worker's status takes has
    [pages_scraped <= pages_found]. *)
Theorem pages_scraped_within_found (env : Env) (j : Job) (w : World)
    (p : string) (ps : list string) :
  Sitemap env (j_url j) = inl (p :: ps) ->
  Forall (fun s => (pages_scraped s <= pages_found s)%nat)
    (snapshots (trace (run_extraction_thread env j w).2)).
Proof.
  intros Hs.
  change (Counted (run_extraction_thread env j w).2).
  unfold run_extraction_thread, clean_up, modify_world. cbn [fst snd].
  match goal with
  | |- context [try_ ?m ?h ?st0] =>
      pose proof (triple_try m h (inv (Unscraped None) (fun _ => True))
                    (fun _ => inv Counted (fun _ => True))
                    (inv Counted (fun _ => True))
                    (inv Counted (fun _ => True))
                    (inv (Unscraped None) (fun _ => True))
                    (counted_pipeline env _ _ _ _ _ _ p ps Hs)
                    (fun e => counted_on_unexpected_error _ _ e _ _) st0) as H;
      assert (H0 : inv (Unscraped None) (fun _ => True) st0);
      [ | specialize (H H0); destruct (try_ m h st0) as [[[] | | e] st'];
          exact (proj1 H) ]
  end.
  split; [ | exact I ]. split; [reflexivity | ].
  split; [discriminate | ].
  unfold Counted. cbn. constructor; [ | constructor ].
  unfold within_found. cbn. lia.
Qed.

Lemma pages_scraped_within_found_witness :
  Forall (fun s => (pages_scraped s <= pages_found s)%nat)
    (snapshots
       (trace
          (run_extraction_thread
             (Demo.env_of (inl ["a"; "b"]%string) Demo.fetch_ab Demo.never)
             {| j_url := "https://example.com"; j_project_id := "id0";
                j_client_id := "c1"; j_user_email := "u@example.com";
                j_scrape_mode := "limited"; j_pages_limit := 5;
                j_search_keywords := None; j_include_meta := true |}
             Demo.world0).2)).
Proof.
  apply (pages_scraped_within_found _ _ _ "a"%string ["b"%string]). reflexivity.
Defined.

(** ** An interrupt requested before the worker starts *)

Lemma slice_to_cons {A} (p : A) (l : list A) (n : Z) :
  1 <= n -> Py.slice_to (p :: l) n = p :: take (Z.to_nat n - 1) l.
Proof.
  intros H. unfold Py.slice_to.
  destruct (0 <=? n) eqn:E; [ | lia ].
  destruct (Z.to_nat n) as [ | k] eqn:Ek; [lia | ].
  cbn. rewrite Nat.sub_0_r. reflexivity.
Qed.

Lemma checked_urls_push (e : Event) (t : list Event) :
  checked_urls (t ++ [e])
  = checked_urls t ++ match e with EvCheck u => [u] | _ => [] end.
Proof. unfold checked_urls. rewrite omap_app. destruct e; reflexivity. Qed.

Lemma scraped_urls_push (e : Event) (t : list Event) :
  scraped_urls (t ++ [e])
  = scraped_urls t ++ match e with EvScrape u => [u] | _ => [] end.
Proof. unfold scraped_urls. rewrite omap_app. destruct e; reflexivity. Qed.

(** Events that are no fetch of a page. *)
Lemma Quiet_push (urls : list string) (e : Event) (f : Frame) :
  (forall u, e <> EvCheck u) -> (forall u, e <> EvScrape u) ->
  Quiet urls f -> Quiet urls (push e f).
Proof.
  intros Hc Hs (H1 & H2 & H3). split; [exact H1 | ].
  cbn [push trace]. rewrite checked_urls_push, scraped_urls_push.
  destruct e; rewrite ?app_nil_r; try (split; assumption).
  - destruct (Hc page_url eq_refl).
  - destruct (Hs page_url eq_refl).
Qed.

Lemma Quiet_scrape (urls : list string) (u : string) (f : Frame) :
  Quiet urls f -> Quiet (urls ++ [u]) (push (EvScrape u) f).
Proof.
  intros (H1 & H2 & H3). split; [exact H1 | ].
  cbn [push trace]. rewrite checked_urls_push, scraped_urls_push, app_nil_r, H3.
  split; [exact H2 | reflexivity].
Qed.

Lemma Quiet_store (urls : list string) (s : ProcessingStatus) (f : Frame) :
  pages_scraped s = pages_scraped (processing_status f) ->
  Quiet urls f -> Quiet urls (store_status s f).
Proof.
  intros Hs (H1 & H2 & H3). split; [ | split ].
  - cbn [store_status processing_status]. congruence.
  - cbn [store_status trace]. rewrite checked_urls_push, app_nil_r. exact H2.
  - cbn [store_status trace]. rewrite scraped_urls_push, app_nil_r. exact H3.
Qed.

(** The last step of [handle_interruption]. *)
Lemma triple_put_completion (client_id : string) (c : CompletionInfo)
    (FP : Frame -> Prop) WP R E :
  triple (inv FP WP) (put_message client_id log_completion (Json c))
    (fun _ st =>
       FP st.2 /\ WP (active_extractions st.1)
       /\ forall q, message_queues st.1 !! client_id = Some q ->
            exists m, last q = Some m /\ msg_type m = log_completion
                      /\ message m = Json c)
    R E.
Proof.
  intros [w f] [HF HW].
  unfold put_message, mbind, M_bind, bind, get_world, utcnow, modify_world.
  cbn [fst snd].
  destruct (message_queues w !! client_id) as [q0 | ] eqn:Hq.
  - cbn [fst snd]. split; [exact HF | ]. split; [exact HW | ].
    intros q. world_simpl. rewrite lookup_insert_eq. intros [= <-].
    eexists. rewrite last_snoc. repeat split.
  - split; [exact HF | ]. split; [exact HW | ].
    cbn [fst]. intros q Hq'. congruence.
Qed.

Lemma triple_post {A} (m : M A) (P : St -> Prop) (Q Q' : A -> St -> Prop) R E :
  (forall a st, Q' a st -> Q a st) -> triple P m Q' R E -> triple P m Q R E.
Proof.
  intros HQ Hm. eapply triple_weaken; [exact Hm | auto | exact HQ | auto | auto].
Qed.

Section Interrupted.

Variable env : Env.
Variables client_id pid : string.

#[local] Abbreviation FLG := (fun reg => flag client_id reg = true).

Ltac quiet_push :=
  intros ? ?; eapply Quiet_push; [discriminate | discriminate | eassumption].
Ltac quiet_store :=
  intros ? ?; eapply Quiet_store; [reflexivity | eassumption].

Lemma halted_handle_interruption (urls : list string) R E :
  triple (inv (Quiet urls) FLG) (handle_interruption client_id pid)
    (fun _ => Halted client_id urls) R E.
Proof.
  unfold handle_interruption.
  bind_as triple_get_world_inv w0.
  destruct (active_extractions w0 !! client_id) as [e | ] eqn:He.
  - bind_calm.
    eapply triple_bind;
      [ eapply triple_modify_world_inv with
          (WP' := fun reg => status <$> reg !! client_id = Some STATUS_INTERRUPTED)
      | intros ? ].
    { intros w _. world_simpl. rewrite lookup_insert_eq. reflexivity. }
    bind_calm.
    eapply triple_bind;
      [ eapply triple_assign_inv with (FP' := Stopped urls) | intros ? ].
    { intros f Hf. split; [reflexivity | ]. split; [eexists; reflexivity | ].
      eapply Quiet_store; [reflexivity | exact Hf]. }
    bind_as triple_get_status_inv s.
    eapply triple_bind;
      [ eapply triple_persist_inv with
          (FP' := fun f => Stopped urls f /\ processing_status f = s)
      | intros ? ].
    { intros f [(H1 & H2 & H3) H4]. split; [ | exact H4 ].
      split; [exact H1 | ]. split; [exact H2 | ].
      eapply Quiet_push; [discriminate | discriminate | exact H3]. }
    bind_calm.
    eapply triple_post; [ | apply triple_put_completion ].
    intros _ st ([H1 H2] & H3 & H4). split; [exact H1 | ]. split; [exact H3 | ].
    intros q Hq. destruct (H4 q Hq) as (m & Hm1 & Hm2 & Hm3).
    exists m. eexists. split; [exact Hm1 | ]. split; [exact Hm2 | ].
    split; [exact Hm3 | ]. cbn. split; [ | reflexivity ].
    rewrite <- H2. destruct H1 as (_ & _ & H & _). exact H.
  - apply triple_absurd. intros st [_ [Hflag Heq]].
    unfold flag in Hflag. cbn beta in Heq. rewrite Heq, He in Hflag. discriminate.
Qed.

(** What follows a poll that saw the flag. *)
Lemma halted_interrupted {A} (urls : list string) (text : string)
    (Q : A -> St -> Prop) E :
  triple (inv (Quiet urls) FLG)
    (send_log client_id log_warning text;;
     handle_interruption client_id pid;;
     return_) Q (Halted client_id urls) E.
Proof.
  bind_calm. bind_with halted_handle_interruption.
  apply triple_return. auto.
Qed.

(** With the flag set, a poll answers [true]. *)
Lemma flagged_poll (urls : list string) R E :
  triple (inv (Quiet urls) FLG) (poll_interrupt env client_id)
    (fun stop => inv (fun f => Quiet urls f /\ stop = true) FLG) R E.
Proof.
  eapply triple_post;
    [ | eapply triple_poll_inv with (FP := Quiet urls) (WP := FLG) ].
  - intros stop st [H1 [H2 H3]]. split; [ | exact H2 ].
    split; [exact H1 | ]. cbn beta in H2, H3. congruence.
  - intros f Hf. exact Hf.
  - intros reg e t He _. unfold flag. rewrite lookup_insert_eq. reflexivity.
Qed.

#[local] Abbreviation Q0 := (inv (Quiet []) FLG).
#[local] Abbreviation NEVER := (fun _ : St => False).

Lemma flagged_join_keywords (urls : list string) (keywords : list Py.value) R E :
  is_Some (Py.all_str keywords) ->
  triple (inv (Quiet urls) FLG) (join_keywords keywords)
    (fun _ => inv (Quiet urls) FLG) R E.
Proof.
  intros [kws Hk]. unfold join_keywords. rewrite Hk. apply triple_ret. auto.
Qed.

Lemma flagged_log_start (url : string) (search_keywords : option (list Py.value))
    (with_meta : bool) R E :
  is_Some (Py.all_str (Py.or_nil search_keywords)) ->
  triple Q0 (log_start url client_id search_keywords with_meta) (fun _ => Q0) R E.
Proof.
  intros Hk. unfold log_start. bind_calm. destruct (Py.truthy search_keywords).
  - eapply triple_bind; [ eapply flagged_join_keywords, Hk | intros ? ].
    bind_calm. eapply triple_calm_inv. calm_tac.
  - apply triple_ret. auto.
Qed.

Lemma flagged_process_robots (url : string) R E :
  triple Q0 (process_robots env url client_id) (fun _ => Q0) R E.
Proof.
  unfold process_robots. bind_calm.
  bind_with triple_emit_inv; [quiet_push | ].
  destruct (Robots env url) as [[ | ] | e];
    (bind_with triple_assign_inv; [quiet_store | ]);
    eapply triple_calm_inv; calm_tac.
Qed.

Lemma flagged_process_sitemap (url : string) R E :
  triple Q0 (process_sitemap env url client_id)
    (fun pages => inv (fun f => Quiet [] f /\ pages = discovered env url) FLG) R E.
Proof.
  unfold process_sitemap, discovered. bind_calm.
  bind_with triple_emit_inv; [quiet_push | ].
  destruct (Sitemap env url) as [[ | p ps] | e];
    (bind_with triple_assign_inv; [quiet_store | ]);
    bind_calm; apply triple_ret; intros st [H1 H2];
    (split; [ split; [exact H1 | reflexivity] | exact H2 ]).
Qed.

Lemma discovered_cons (url : string) :
  exists p ps, discovered env url = p :: ps.
Proof.
  unfold discovered. destruct (Sitemap env url) as [[ | p ps] | e]; eauto.
Qed.

(** The keyword filter polls the flag before its first check. *)
Lemma halted_filter_pages (keywords : list Py.value) (with_meta : bool)
    (total i : nat) (page_url : string) (rest : list string) (a : Filtered)
    (Q : Filtered -> St -> Prop) E :
  triple Q0
    (filter_pages env client_id pid keywords with_meta total i (page_url :: rest) a)
    Q (Halted client_id []) E.
Proof.
  cbn [filter_pages]. bind_as flagged_poll stop.
  apply triple_inv_pure. intros ->. apply halted_interrupted.
Qed.

Lemma flagged_select_pages (search_keywords : option (list Py.value))
    (with_meta : bool) (limit : Z) (p : string) (ps : list string) E :
  1 <= limit ->
  is_Some (Py.all_str (Py.or_nil search_keywords)) ->
  triple Q0
    (select_pages env client_id pid search_keywords with_meta limit (p :: ps))
    (fun sel => inv (fun f => Quiet [] f
                              /\ Py.truthy search_keywords = false
                              /\ sel.1 = p :: take (Z.to_nat limit - 1) ps) FLG)
    (fun st => Py.truthy search_keywords = true /\ Halted client_id [] st) E.
Proof.
  intros Hl Hk. unfold select_pages.
  destruct (Py.truthy search_keywords) eqn:Ht.
  - eapply triple_bind; [ eapply flagged_join_keywords, Hk | intros ? ].
    bind_calm. rewrite (slice_to_cons p ps limit Hl).
    eapply triple_bind with (Q' := fun _ => NEVER).
    + eapply triple_weaken;
        [ apply halted_filter_pages with (Q := fun _ => NEVER) (E := E)
        | auto | auto | | auto ].
      intros st H. split; [reflexivity | exact H].
    + intros ?. apply triple_absurd. auto.
  - apply triple_ret. intros st [H1 H2]. split; [ | exact H2 ].
    split; [exact H1 | ]. split; [reflexivity | ].
    cbn [fst]. apply slice_to_cons, Hl.
Qed.

Lemma flagged_scrape_one (page_url : string) (a : Filtered) (total i : nat)
    (scraped : list string) R :
  triple Q0 (scrape_one env client_id page_url a total i scraped)
    (fun _ => inv (Quiet [page_url]) FLG) R (inv (Quiet [page_url]) FLG).
Proof.
  unfold scrape_one. bind_calm.
  eapply triple_bind;
    [ eapply triple_calm_inv; apply calm_log_page_keywords | intros ? ].
  eapply triple_bind;
    [ eapply triple_emit_inv with (FP' := Quiet [page_url]) | intros ? ].
  { intros f Hf. apply (Quiet_scrape [] page_url f Hf). }
  destruct (scrape_website env page_url) as [data | e].
  - bind_with triple_emit_inv; [quiet_push | ].
    destruct (store_in_mongodb env _).
    + apply triple_raise. auto.
    + eapply triple_bind;
        [ eapply triple_modify_world_inv with (WP' := FLG); intros w H; exact H
        | intros ? ].
      bind_calm.
      eapply triple_bind;
        [ eapply triple_calm_inv; apply calm_log_page_info | intros ? ].
      apply triple_ret. auto.
  - apply triple_raise. auto.
Qed.

(** The fetch loop scrapes the first page and polls the flag after it. *)
Lemma halted_scrape_pages (a : Filtered) (total i : nat) (page_url : string)
    (rest scraped : list string) (Q : list string -> St -> Prop) E :
  triple Q0
    (scrape_pages env client_id pid a total i (page_url :: rest) scraped)
    Q (Halted client_id [page_url]) E.
Proof.
  cbn [scrape_pages].
  eapply triple_bind with (Q' := fun _ => inv (Quiet [page_url]) FLG).
  { eapply triple_try; [ apply flagged_scrape_one | ].
    intros e. bind_calm. bind_with triple_assign_inv; [quiet_store | ].
    apply triple_ret. auto. }
  intros scraped'. bind_as flagged_poll stop.
  apply triple_inv_pure. intros ->. apply halted_interrupted.
Qed.

Lemma halted_pipeline (url : string) (limit : Z)
    (search_keywords : option (list Py.value)) (with_meta : bool) :
  1 <= limit ->
  is_Some (Py.all_str (Py.or_nil search_keywords)) ->
  triple Q0 (pipeline env url pid client_id limit search_keywords with_meta)
    (fun _ => NEVER)
    (Halted client_id
       (if Py.truthy search_keywords then [] else take 1 (discovered env url)))
    NEVER.
Proof.
  intros Hl Hk. unfold pipeline.
  eapply triple_bind; [ eapply flagged_log_start, Hk | intros ? ].
  bind_with flagged_process_robots.
  bind_as flagged_process_sitemap pages.
  apply triple_inv_pure. intros ->.
  destruct (discovered_cons url) as (p & ps & ->).
  eapply triple_bind.
  { eapply triple_weaken;
      [ apply (flagged_select_pages search_keywords with_meta limit p ps NEVER Hl Hk)
      | auto | intros sel st H; exact H | | auto ].
    intros st [Ht H]. rewrite Ht. exact H. }
  intros [pages_to_process flt]. cbn [fst].
  eapply triple_pre with
    (P' := inv (fun f => Quiet [] f
                         /\ (Py.truthy search_keywords = false
                             /\ pages_to_process = p :: take (Z.to_nat limit - 1) ps))
               FLG); [auto | ].
  apply triple_inv_pure. intros [Ht ->]. rewrite Ht. cbn [take].
  bind_calm.
  eapply triple_bind with (Q' := fun _ => NEVER);
    [ apply halted_scrape_pages | intros ?; apply triple_absurd; auto ].
Qed.

End Interrupted.

(** C4, as the code has it.  The prefilter loop polls the interrupt flag
    before each page; the fetch loop polls it after each page.  So when the
    interrupt was requested before the worker starts (for a job with string
    keywords or none and a page limit of at least 1), the worker ends with
    state [interrupted], [pages_scraped = 0], an end time, and the
    completion message last in the client's queue; no keyword check has
    fetched a page; and the scraper has been handed no page when keywords
    are configured, exactly the first candidate page when they are not. *)
Theorem interrupt_requested_before_start (env : Env) (j : Job) (w : World) :
  flag (j_client_id j) (active_extractions w) = true ->
  is_Some (Py.all_str (Py.or_nil (j_search_keywords j))) ->
  1 <= j_pages_limit j ->
  Halted (j_client_id j)
    (if Py.truthy (j_search_keywords j) then []
     else take 1 (discovered env (j_url j)))
    (run_extraction_thread env j w).
Proof.
  intros Hflag Hk Hl.
  unfold run_extraction_thread, clean_up, modify_world. cbn [fst snd].
  match goal with
  | |- context [try_ ?m ?h ?st0] =>
      pose proof (triple_try m h
                    (inv (Quiet []) (fun reg => flag (j_client_id j) reg = true))
                    (fun _ _ => False)
                    (Halted (j_client_id j)
                       (if Py.truthy (j_search_keywords j) then []
                        else take 1 (discovered env (j_url j))))
                    (fun _ => False) (fun _ => False)
                    (halted_pipeline env (j_client_id j) (j_project_id j)
                       (j_url j) (j_pages_limit j) (j_search_keywords j)
                       (j_include_meta j) Hl Hk)
                    (fun e => triple_absurd (h e) (fun _ => False) _ _ _
                                (fun _ H => H)) st0) as H;
      assert (H0 : inv (Quiet []) (fun reg => flag (j_client_id j) reg = true) st0);
      [ | specialize (H H0); destruct (try_ m h st0) as [[[] | | e] st'];
          [ destruct H | | destruct H ] ]
  end.
  - split; [ | exact Hflag ]. repeat split.
  - destruct H as (H1 & H2 & H3). split; [exact H1 | ]. split; [exact H2 | exact H3].
Qed.

Lemma interrupt_requested_before_start_witness :
  Halted "c1" ["a"%string]
    (run_extraction_thread
       (Demo.env_of (inl ["a"; "b"]%string) Demo.fetch_ab Demo.never)
       (Demo.job None)
       (Demo.flagged
          (Demo.env_of (inl ["a"; "b"]%string) Demo.fetch_ab Demo.never) None))
  /\ is_Some
       (message_queues
          (run_extraction_thread
             (Demo.env_of (inl ["a"; "b"]%string) Demo.fetch_ab Demo.never)
             (Demo.job None)
             (Demo.flagged
                (Demo.env_of (inl ["a"; "b"]%string) Demo.fetch_ab Demo.never)
                None)).1 !! "c1"%string).
Proof.
  split.
  - apply (interrupt_requested_before_start
             (Demo.env_of (inl ["a"; "b"]%string) Demo.fetch_ab Demo.never)
             (Demo.job None)).
    + vm_compute. reflexivity.
    + vm_compute. eexists. reflexivity.
    + vm_compute. discriminate.
  - vm_compute. eexists. reflexivity.
Defined.

(** ** A keyword search without matches *)

Lemma Recorded_push (pid : string) (n : nat) (kws : list Py.value)
    (urls : list string) (e : Event) (f : Frame) :
  (forall u, e <> EvScrape u) ->
  Recorded pid n kws urls f -> Recorded pid n kws urls (push e f).
Proof.
  intros He (H1 & H2 & pre & s & post & Ht & Hp & Hs1 & Hs2 & Hu).
  split; [exact H1 | ]. split; [exact H2 | ].
  exists pre, s, (post ++ [e]). cbn [push trace]. rewrite Ht.
  split; [ rewrite <- !app_assoc; reflexivity | ].
  split; [exact Hp | ]. split; [exact Hs1 | ]. split; [exact Hs2 | ].
  rewrite scraped_urls_push, Hu.
  destruct e; try apply app_nil_r. destruct (He page_url eq_refl).
Qed.

Lemma Recorded_scrape (pid : string) (n : nat) (kws : list Py.value)
    (urls : list string) (u : string) (f : Frame) :
  Recorded pid n kws urls f ->
  Recorded pid n kws (urls ++ [u]) (push (EvScrape u) f).
Proof.
  intros (H1 & H2 & pre & s & post & Ht & Hp & Hs1 & Hs2 & Hu).
  split; [exact H1 | ]. split; [exact H2 | ].
  exists pre, s, (post ++ [EvScrape u]). cbn [push trace]. rewrite Ht.
  split; [ rewrite <- !app_assoc; reflexivity | ].
  split; [exact Hp | ]. split; [exact Hs1 | ]. split; [exact Hs2 | ].
  rewrite scraped_urls_push, Hu. reflexivity.
Qed.

(** An assignment that keeps what the search recorded. *)
Lemma Recorded_store (pid : string) (n : nat) (kws : list Py.value)
    (urls : list string) (s' : ProcessingStatus) (f : Frame) :
  keyword_search_results s' = Some "no_matches"%string ->
  pages_checked s' = Some n ->
  Recorded pid n kws urls f -> Recorded pid n kws urls (store_status s' f).
Proof.
  intros Hk Hc (H1 & H2 & pre & s & post & Ht & Hp & Hs1 & Hs2 & Hu).
  split; [exact Hk | ]. split; [exact Hc | ].
  exists pre, s, (post ++ [EvStatus s']). cbn [store_status trace]. rewrite Ht.
  split; [ rewrite <- !app_assoc; reflexivity | ].
  split; [exact Hp | ]. split; [exact Hs1 | ]. split; [exact Hs2 | ].
  rewrite scraped_urls_push, Hu. apply app_nil_r.
Qed.

Lemma Recorded_scraped_urls (pid : string) (n : nat) (kws : list Py.value)
    (urls : list string) (f : Frame) :
  Recorded pid n kws urls f -> scraped_urls (trace f) = urls.
Proof.
  intros (_ & _ & pre & s & post & Ht & Hp & _ & _ & Hu).
  rewrite Ht. unfold scraped_urls in *. rewrite !omap_app, Hp, Hu. reflexivity.
Qed.

Section NoMatch.

Variable env : Env.
Variables client_id pid : string.
Hypothesis no_requests : forall n, interrupt_before_check env n = false.

#[local] Abbreviation UNF := (fun reg => flag client_id reg = false).
#[local] Abbreviation NS := NoScrape.
#[local] Abbreviation NEVER := (fun _ : St => False).

Lemma NS_push (e : Event) (f : Frame) :
  (forall u, e <> EvScrape u) -> NS f -> NS (push e f).
Proof.
  unfold NoScrape. intros He H. cbn [push trace]. rewrite scraped_urls_push, H.
  destruct e; try reflexivity. destruct (He page_url eq_refl).
Qed.

Lemma NS_store (s : ProcessingStatus) (f : Frame) : NS f -> NS (store_status s f).
Proof.
  unfold NoScrape. intros H. cbn [store_status trace].
  rewrite scraped_urls_push, H. reflexivity.
Qed.

Ltac ns_push := intros ? ?; apply NS_push; [discriminate | assumption].
Ltac ns_store := intros ? ?; apply NS_store; assumption.

(** Without a request, a poll leaves the world alone and answers what the
    registry says. *)
Lemma unflagged_poll (FP : Frame -> Prop) R E :
  (forall f, FP f -> FP (count_poll f)) ->
  triple (inv FP UNF) (poll_interrupt env client_id)
    (fun stop => inv (fun f => FP f /\ stop = false) UNF) R E.
Proof.
  intros HF [w f] [H1 H2]. unfold poll_interrupt. cbn [fst snd].
  rewrite no_requests. split; [ | exact H2 ].
  split; [apply HF, H1 | exact H2].
Qed.

Lemma unflagged_join_keywords (FP : Frame -> Prop) (keywords : list Py.value) R E :
  is_Some (Py.all_str keywords) ->
  triple (inv FP UNF) (join_keywords keywords) (fun _ => inv FP UNF) R E.
Proof.
  intros [kws Hk]. unfold join_keywords. rewrite Hk. apply triple_ret. auto.
Qed.

Lemma nomatch_check_one (page_url : string) (keywords : list Py.value)
    (with_meta : bool) (total : nat) (a : Filtered) R E :
  contains_keywords (keyword_check env page_url keywords with_meta) = false ->
  triple (inv NS UNF)
    (check_one env client_id page_url keywords with_meta total a)
    (fun a' => inv (fun f => NS f /\ a' = a) UNF) R E.
Proof.
  intros Hn. unfold check_one, check_page_for_keywords. bind_calm.
  eapply triple_bind with
    (Q' := fun r => inv (fun f => NS f /\ contains_keywords r = false) UNF).
  { bind_with triple_emit_inv; [ns_push | ].
    apply triple_ret. intros st [H1 H2]. split; [ | exact H2 ].
    split; [exact H1 | exact Hn]. }
  intros [[[contains matches] meta] contexts].
  apply triple_inv_pure. unfold contains_keywords. cbn [fst]. intros ->.
  bind_calm. apply triple_ret. intros st [H1 H2].
  split; [ | exact H2 ]. split; [exact H1 | reflexivity].
Qed.

Lemma nomatch_filter_pages (keywords : list Py.value) (with_meta : bool)
    (total : nat) (pages : list string) :
  (forall u, u ∈ pages ->
     contains_keywords (keyword_check env u keywords with_meta) = false) ->
  forall (i : nat) (a : Filtered),
    triple (inv NS UNF)
      (filter_pages env client_id pid keywords with_meta total i pages a)
      (fun a' => inv (fun f => NS f
                               /\ (filtered_pages a' = filtered_pages a
                                   /\ l_pages_with_keywords a'
                                      = l_pages_with_keywords a
                                   /\ l_pages_checked a'
                                      = (l_pages_checked a + length pages)%nat
                                   /\ l_keyword_matches a' = l_keyword_matches a
                                   /\ l_keyword_contexts a' = l_keyword_contexts a))
                     UNF)
      NEVER NEVER.
Proof.
  induction pages as [ | page_url rest IH]; intros Hn i a; cbn [filter_pages].
  - apply triple_ret. intros st [H1 H2]. split; [ | exact H2 ].
    split; [exact H1 | ]. cbn [length]. repeat split. lia.
  - eapply triple_bind; [ apply unflagged_poll; intros f Hf; exact Hf | intros stop ].
    apply triple_inv_pure. intros ->.
    eapply triple_bind with
      (Q' := fun a2 => inv (fun f => NS f /\ a2 = count_checked a) UNF).
    { eapply triple_try with (E' := NEVER).
      - apply nomatch_check_one. apply Hn. left.
      - intros e. apply triple_absurd. auto. }
    intros a2. apply triple_inv_pure. intros ->.
    eapply triple_post; [ | apply IH ].
    + intros a' st [[H1 (E1 & E2 & E3 & E4 & E5)] H2]. split; [ | exact H2 ].
      split; [exact H1 | ]. rewrite E1, E2, E3, E4, E5. cbn. repeat split. lia.
    + intros u Hu. apply Hn. right. exact Hu.
Qed.

(** Lines 494-509: the status records the outcome and the same facts are
    written to the stored project at once. *)
Lemma record_no_matches (n : nat) (kws : list Py.value) R E :
  triple (inv NS UNF)
    (assign (Upd.no_matches n kws);;
     update_project_partial_sync pid (doc_search_info n kws))
    (fun _ => inv (Recorded pid n kws []) UNF) R E.
Proof.
  intros [w f] [H1 H2]. split; [ | exact H2 ].
  split; [reflexivity | ]. split; [reflexivity | ].
  exists (trace f), (Upd.no_matches n kws (processing_status f)), [].
  split; [ | repeat split; exact H1 ].
  cbn [snd fst push store_status trace]. rewrite app_nil_r, <- app_assoc.
  reflexivity.
Qed.

Lemma nomatch_select_pages (search_keywords : option (list Py.value))
    (with_meta : bool) (limit : Z) (pages : list string) :
  Py.truthy search_keywords = true ->
  is_Some (Py.all_str (Py.or_nil search_keywords)) ->
  (forall u, u ∈ Py.slice_to pages limit ->
     contains_keywords
       (keyword_check env u (Py.or_nil search_keywords) with_meta) = false) ->
  triple (inv NS UNF)
    (select_pages env client_id pid search_keywords with_meta limit pages)
    (fun sel =>
       inv (fun f =>
              Recorded pid (length (Py.slice_to pages limit))
                (Py.or_nil search_keywords) [] f
              /\ sel.1 = Py.slice_to pages
                           (Z.min limit (Z.of_nat (length pages))))
           UNF)
    NEVER NEVER.
Proof.
  intros Ht Hk Hn. unfold select_pages. rewrite Ht.
  eapply triple_bind; [ eapply unflagged_join_keywords, Hk | intros ? ].
  bind_calm.
  eapply triple_bind; [ apply nomatch_filter_pages, Hn | intros flt ].
  apply triple_inv_pure. intros (E1 & E2 & E3 & E4 & E5).
  cbn [no_filter filtered_pages l_pages_with_keywords l_pages_checked] in E1, E2, E3.
  rewrite E1, E2, E3, Nat.add_0_l.
  rewrite bool_decide_eq_false_2 by lia.
  eapply triple_bind.
  { bind_calm. apply record_no_matches. }
  intros ?.
  eapply triple_bind;
    [ eapply triple_assign_inv with
        (FP' := Recorded pid (length (Py.slice_to pages limit))
                  (Py.or_nil search_keywords) [])
    | intros ? ].
  { intros f Hf. apply Recorded_store; [exact (proj1 Hf) | reflexivity | exact Hf]. }
  bind_calm. apply triple_ret. intros st [H1 H2].
  split; [ | exact H2 ]. split; [exact H1 | reflexivity].
Qed.

Lemma recorded_scrape_one (n : nat) (kws : list Py.value) (urls : list string)
    (page_url : string) (a : Filtered) (total i : nat) (scraped : list string) R :
  triple (inv (Recorded pid n kws urls) UNF)
    (scrape_one env client_id page_url a total i scraped)
    (fun _ => inv (Recorded pid n kws (urls ++ [page_url])) UNF)
    R (inv (Recorded pid n kws (urls ++ [page_url])) UNF).
Proof.
  unfold scrape_one. bind_calm.
  eapply triple_bind;
    [ eapply triple_calm_inv; apply calm_log_page_keywords | intros ? ].
  eapply triple_bind;
    [ eapply triple_emit_inv with (FP' := Recorded pid n kws (urls ++ [page_url]))
    | intros ? ].
  { intros f Hf. apply Recorded_scrape, Hf. }
  destruct (scrape_website env page_url) as [data | e].
  - eapply triple_bind;
      [ eapply triple_emit_inv with (FP' := Recorded pid n kws (urls ++ [page_url]))
      | intros ? ].
    { intros f Hf. apply Recorded_push; [discriminate | exact Hf]. }
    destruct (store_in_mongodb env _).
    + apply triple_raise. auto.
    + eapply triple_bind;
        [ eapply triple_modify_world_inv with (WP' := UNF); intros w H; exact H
        | intros ? ].
      bind_calm.
      eapply triple_bind;
        [ eapply triple_calm_inv; apply calm_log_page_info | intros ? ].
      apply triple_ret. auto.
  - apply triple_raise. auto.
Qed.

(** Without an interrupt the fetch loop hands every page to the scraper, in
    order. *)
Lemma recorded_scrape_pages (n : nat) (kws : list Py.value) (a : Filtered)
    (total : nat) (pages : list string) :
  forall (i : nat) (scraped urls : list string),
    triple (inv (Recorded pid n kws urls) UNF)
      (scrape_pages env client_id pid a total i pages scraped)
      (fun _ => inv (Recorded pid n kws (urls ++ pages)) UNF)
      NEVER NEVER.
Proof.
  induction pages as [ | page_url rest IH]; intros i scraped urls;
    cbn [scrape_pages].
  - apply triple_ret. intros st H. rewrite app_nil_r. exact H.
  - eapply triple_bind with
      (Q' := fun _ => inv (Recorded pid n kws (urls ++ [page_url])) UNF).
    { eapply triple_try; [ apply recorded_scrape_one | ].
      intros e. bind_calm.
      eapply triple_bind;
        [ eapply triple_assign_inv with
            (FP' := Recorded pid n kws (urls ++ [page_url]))
        | intros ? ].
      { intros f Hf.
        apply Recorded_store; [exact (proj1 Hf) | exact (proj1 (proj2 Hf)) | exact Hf]. }
      apply triple_ret. auto. }
    intros scraped'.
    eapply triple_bind; [ apply unflagged_poll; intros f Hf; exact Hf | intros stop ].
    apply triple_inv_pure. intros ->.
    eapply triple_post; [ | apply IH ].
    intros ? st H. rewrite <- app_assoc in H. exact H.
Qed.

Lemma recorded_complete (n : nat) (kws : list Py.value) (urls : list string)
    (search_keywords : option (list Py.value)) (a : Filtered)
    (scraped : list string) R E :
  triple (inv (Recorded pid n kws urls) UNF)
    (complete client_id pid search_keywords a scraped)
    (fun _ => inv (Recorded pid n kws urls) UNF) R E.
Proof.
  unfold complete. bind_calm.
  eapply triple_bind;
    [ eapply triple_assign_inv with (FP' := Recorded pid n kws urls) | intros ? ].
  { intros f Hf.
    apply Recorded_store; [exact (proj1 Hf) | exact (proj1 (proj2 Hf)) | exact Hf]. }
  bind_calm.
  eapply triple_bind;
    [ eapply triple_persist_inv with (FP' := Recorded pid n kws urls) | intros ? ].
  { intros f Hf. apply Recorded_push; [discriminate | exact Hf]. }
  eapply triple_bind;
    [ eapply triple_persist_inv with (FP' := Recorded pid n kws urls) | intros ? ].
  { intros f Hf. apply Recorded_push; [discriminate | exact Hf]. }
  bind_calm. eapply triple_calm_inv. calm_tac.
Qed.

Lemma unflagged_log_start (url : string) (search_keywords : option (list Py.value))
    (with_meta : bool) R E :
  is_Some (Py.all_str (Py.or_nil search_keywords)) ->
  triple (inv NS UNF) (log_start url client_id search_keywords with_meta)
    (fun _ => inv NS UNF) R E.
Proof.
  intros Hk. unfold log_start. bind_calm. destruct (Py.truthy search_keywords).
  - eapply triple_bind; [ eapply unflagged_join_keywords, Hk | intros ? ].
    bind_calm. eapply triple_calm_inv. calm_tac.
  - apply triple_ret. auto.
Qed.

Lemma unflagged_process_robots (url : string) R E :
  triple (inv NS UNF) (process_robots env url client_id) (fun _ => inv NS UNF) R E.
Proof.
  unfold process_robots. bind_calm.
  bind_with triple_emit_inv; [ns_push | ].
  destruct (Robots env url) as [[ | ] | e];
    (bind_with triple_assign_inv; [ns_store | ]);
    eapply triple_calm_inv; calm_tac.
Qed.

Lemma unflagged_process_sitemap (url : string) R E :
  triple (inv NS UNF) (process_sitemap env url client_id)
    (fun pages => inv (fun f => NS f /\ pages = discovered env url) UNF) R E.
Proof.
  unfold process_sitemap, discovered. bind_calm.
  bind_with triple_emit_inv; [ns_push | ].
  destruct (Sitemap env url) as [[ | p ps] | e];
    (bind_with triple_assign_inv; [ns_store | ]);
    bind_calm; apply triple_ret; intros st [H1 H2];
    (split; [ split; [exact H1 | reflexivity] | exact H2 ]).
Qed.

Lemma nomatch_pipeline (url : string) (limit : Z)
    (search_keywords : option (list Py.value)) (with_meta : bool) :
  Py.truthy search_keywords = true ->
  is_Some (Py.all_str (Py.or_nil search_keywords)) ->
  (forall u, u ∈ Py.slice_to (discovered env url) limit ->
     contains_keywords
       (keyword_check env u (Py.or_nil search_keywords) with_meta) = false) ->
  triple (inv NS UNF)
    (pipeline env url pid client_id limit search_keywords with_meta)
    (fun _ =>
       inv (Recorded pid (length (Py.slice_to (discovered env url) limit))
              (Py.or_nil search_keywords)
              (Py.slice_to (discovered env url)
                 (Z.min limit (Z.of_nat (length (discovered env url))))))
           UNF)
    NEVER NEVER.
Proof.
  intros Ht Hk Hn. unfold pipeline.
  eapply triple_bind; [ eapply unflagged_log_start, Hk | intros ? ].
  bind_with unflagged_process_robots.
  bind_as unflagged_process_sitemap pages.
  apply triple_inv_pure. intros ->.
  eapply triple_bind; [ apply nomatch_select_pages; assumption | ].
  intros [pages_to_process flt]. cbn [fst].
  apply triple_inv_pure. intros ->.
  bind_calm.
  eapply triple_bind; [ apply recorded_scrape_pages | intros scraped ].
  cbn [app]. apply recorded_complete.
Qed.

End NoMatch.

(** C8, as the code has it.  For a job with string keywords, not
    interrupted, in which no checked page matches: the pages handed to the
    scraper are the first [min(pages_limit, n)] candidate pages, where [n]
    is the number of candidate pages (the sitemap's pages, or the target URL
    alone when discovery failed); the status records
    [keyword_search_results = "no_matches"] and [pages_checked], and the
    assignment that records them is followed at once, before any page is
    scraped, by the write of the same two fields to the stored project. *)
Theorem no_match_fallback (env : Env) (j : Job) (w : World) :
  Py.truthy (j_search_keywords j) = true ->
  is_Some (Py.all_str (Py.or_nil (j_search_keywords j))) ->
  0 <= j_pages_limit j ->
  (forall n, interrupt_before_check env n = false) ->
  flag (j_client_id j) (active_extractions w) = false ->
  (forall u, u ∈ Py.slice_to (discovered env (j_url j)) (j_pages_limit j) ->
     contains_keywords
       (keyword_check env u (Py.or_nil (j_search_keywords j)) (j_include_meta j))
     = false) ->
  let pages := discovered env (j_url j) in
  let n := length (Py.slice_to pages (j_pages_limit j)) in
  let processed :=
    take (Z.to_nat (Z.min (j_pages_limit j) (Z.of_nat (length pages)))) pages in
  let f := (run_extraction_thread env j w).2 in
  scraped_urls (trace f) = processed
  /\ Recorded (j_project_id j) n (Py.or_nil (j_search_keywords j)) processed f
  /\ forall p : Project,
       let p' := apply_doc (doc_search_info n (Py.or_nil (j_search_keywords j))) p in
       keyword_search_results (doc_processing_status p') = Some "no_matches"%string
       /\ pages_checked (doc_processing_status p') = Some n.
Proof.
  intros Ht Hk Hl Hq Hflag Hn. cbn zeta.
  assert (HR : Recorded (j_project_id j)
                 (length (Py.slice_to (discovered env (j_url j)) (j_pages_limit j)))
                 (Py.or_nil (j_search_keywords j))
                 (take (Z.to_nat (Z.min (j_pages_limit j)
                                    (Z.of_nat (length (discovered env (j_url j))))))
                    (discovered env (j_url j)))
                 (run_extraction_thread env j w).2).
  { unfold run_extraction_thread, clean_up, modify_world. cbn [fst snd].
    match goal with
    | |- context [try_ ?m ?h ?st0] =>
        pose proof (triple_try m h
                      (inv NoScrape (fun reg => flag (j_client_id j) reg = false))
                      _ (fun _ => False) (fun _ => False) (fun _ => False)
                      (nomatch_pipeline env (j_client_id j) (j_project_id j) Hq
                         (j_url j) (j_pages_limit j) (j_search_keywords j)
                         (j_include_meta j) Ht Hk Hn)
                      (fun e => triple_absurd (h e) (fun _ => False) _ _ _
                                  (fun _ H => H)) st0) as H;
        assert (H0 : inv NoScrape (fun reg => flag (j_client_id j) reg = false) st0);
        [ | specialize (H H0); destruct (try_ m h st0) as [[[] | | e] st'];
            [ | destruct H | destruct H ] ]
    end.
    - split; [reflexivity | exact Hflag].
    - destruct H as [H _]. cbn [snd].
      unfold Py.slice_to in H at 2.
      rewrite (proj2 (Z.leb_le 0 _)) in H by lia. exact H. }
  split; [ eapply Recorded_scraped_urls, HR | ].
  split; [exact HR | ]. intros p. split; reflexivity.
Qed.

Lemma no_match_fallback_witness :
  scraped_urls
    (trace
       (run_extraction_thread
          (Demo.env_of (inl ["a"; "c"; "d"]%string) Demo.fetch_ab Demo.never)
          (Demo.job (Some [Py.Str "foo"]))
          (Demo.submitted
             (Demo.env_of (inl ["a"; "c"; "d"]%string) Demo.fetch_ab Demo.never)
             (Some [Py.Str "foo"]))).2)
  = ["a"; "c"; "d"]%string.
Proof.
  refine (proj1 (no_match_fallback
                   (Demo.env_of (inl ["a"; "c"; "d"]%string) Demo.fetch_ab Demo.never)
                   (Demo.job (Some [Py.Str "foo"]))
                   (Demo.submitted
                      (Demo.env_of (inl ["a"; "c"; "d"]%string)
                         Demo.fetch_ab Demo.never)
                      (Some [Py.Str "foo"]))
                   _ _ _ _ _ _)).
  - reflexivity.
  - eexists. reflexivity.
  - vm_compute. discriminate.
  - intros n. reflexivity.
  - vm_compute. reflexivity.
  - intros u Hu. vm_compute in Hu.
    repeat (apply elem_of_cons in Hu as [-> | Hu]; [vm_compute; reflexivity | ]).
    apply elem_of_nil in Hu. destruct Hu.
Defined.

(** ** The two handlers *)

(** Whatever exception reaches the outer handler, and in whatever state, the
    handler queues one [error] message when the client has a queue and
    nothing otherwise: it never queues a completion message. *)
Lemma message_queues_put (g : gmap string (list Message) -> gmap string (list Message))
    (w : World) :
  message_queues (W.on_queues g (W.tick w)) = g (message_queues w).
Proof. reflexivity. Qed.

Lemma send_log_queue (client_id : string) (t : LogType) (text : string)
    (w : World) R E :
  triple (fun st => message_queues st.1 = message_queues w)
    (send_log client_id t text)
    (fun _ st =>
       queued_kinds client_id st.1
       = queued_kinds client_id w
         ++ match message_queues w !! client_id with
            | Some _ => [t]
            | None => []
            end)
    R E.
Proof.
  intros [w0 f0] H. cbn [fst] in H.
  unfold send_log, put_message, mbind, M_bind, bind, get_world, utcnow,
    modify_world, mret, M_ret, ret.
  cbn [fst snd]. rewrite H.
  destruct (message_queues w !! client_id) as [q | ] eqn:Hq; cbn [fst snd].
  - unfold queued_kinds. rewrite message_queues_put, lookup_insert_eq, Hq.
    cbn [from_option id]. rewrite fmap_app. reflexivity.
  - unfold queued_kinds. rewrite H, Hq. symmetry. apply app_nil_r.
Qed.

Lemma on_unexpected_error_queues_error_only (client_id pid e : string)
    (w : World) (f : Frame) :
  queued_kinds client_id (on_unexpected_error client_id pid e (w, f)).2.1
  = queued_kinds client_id w
    ++ match message_queues w !! client_id with
       | Some _ => [log_error]
       | None => []
       end.
Proof.
  pose (K := queued_kinds client_id w
             ++ match message_queues w !! client_id with
                | Some _ => [log_error]
                | None => []
                end).
  assert (H : triple (fun st => message_queues st.1 = message_queues w)
                (on_unexpected_error client_id pid e)
                (fun _ st => queued_kinds client_id st.1 = K)
                (fun _ => False) (fun _ => False)).
  { unfold on_unexpected_error.
    eapply triple_bind; [ apply send_log_queue | intros ? ].
    fold K.
    eapply triple_bind with (Q' := fun _ st => queued_kinds client_id st.1 = K);
      [ intros [w0 f0] H0; exact H0 | intros w1 ].
    eapply triple_bind with (Q' := fun _ st => queued_kinds client_id st.1 = K).
    { destruct (active_extractions w1 !! client_id).
      - eapply triple_bind with (Q' := fun _ st => queued_kinds client_id st.1 = K);
          [ intros [w0 f0] H0; exact H0 | intros ? ].
        intros [w0 f0] H0. exact H0.
      - apply triple_ret. auto. }
    intros ?.
    eapply triple_bind with (Q' := fun _ st => queued_kinds client_id st.1 = K);
      [ intros [w0 f0] H0; exact H0 | intros ? ].
    eapply triple_bind with (Q' := fun _ st => queued_kinds client_id st.1 = K);
      [ intros [w0 f0] H0; exact H0 | intros ? ].
    eapply triple_bind with (Q' := fun _ st => queued_kinds client_id st.1 = K);
      [ intros [w0 f0] H0; exact H0 | intros ? ].
    intros [w0 f0] H0. exact H0. }
  specialize (H (w, f) eq_refl).
  destruct (on_unexpected_error client_id pid e (w, f)) as [[[] | | x] st'];
    [ exact H | destruct H | destruct H ].
Qed.

(** The keyword check of one page yields a value from every state: the
    [except] branch of the filter loop (line 481), which would include the
    page, is never entered. *)
Lemma check_one_yields_value (env : Env) (client_id page_url : string)
    (keywords : list Py.value) (with_meta : bool) (total : nat) (a : Filtered)
    (st : St) :
  exists a' st',
    check_one env client_id page_url keywords with_meta total a st = (Val a', st').
Proof.
  assert (H : triple (inv (fun _ => True) (fun _ => True))
                (check_one env client_id page_url keywords with_meta total a)
                (fun _ _ => True) (fun _ => False) (fun _ => False)).
  { unfold check_one, check_page_for_keywords. bind_calm.
    eapply triple_bind with (Q' := fun _ => inv (fun _ => True) (fun _ => True)).
    { eapply triple_bind;
        [ eapply triple_emit_inv with (FP' := fun _ => True); intros; exact I
        | intros ? ].
      apply triple_ret. auto. }
    intros [[[contains matches] meta] contexts].
    destruct contains.
    - bind_calm. eapply triple_bind.
      + eapply triple_calm_inv. apply calm_log_match_details.
      + intros ?. apply triple_ret. auto.
    - bind_calm. apply triple_ret. auto. }
  specialize (H st (conj I I)).
  destruct (check_one _ _ _ _ _ _ _ st) as [[a' | | e] st']; [eauto | destruct H ..].
Qed.

(** * Further properties of the module *)

(** ** The keyword check *)

Lemma text_step_matches (T : string) (acc : list string * Keywords.Contexts)
    (k : string) :
  (Keywords.text_step T acc k).1
  = acc.1 ++ (if Py.contains (Py.lower k) T then [k] else []).
Proof.
  unfold Keywords.text_step, Py.contains.
  destruct (Py.find T (Py.lower k)) as [i | ]; cbn [fst].
  - rewrite bool_decide_eq_true_2 by eauto. reflexivity.
  - rewrite bool_decide_eq_false_2 by (intros [x Hx]; discriminate).
    symmetry. apply app_nil_r.
Qed.

Lemma text_fold_elem (T : string) (ks : list string) :
  forall (acc : list string * Keywords.Contexts) (k : string),
    k ∈ (foldl (Keywords.text_step T) acc ks).1
    <-> k ∈ acc.1 \/ (k ∈ ks /\ Py.contains (Py.lower k) T = true).
Proof.
  induction ks as [ | x ks IH]; intros acc k; cbn [foldl].
  - split; [ auto | intros [H | [H _]]; [exact H | inversion H] ].
  - rewrite IH, text_step_matches, elem_of_app, elem_of_cons.
    destruct (Py.contains (Py.lower x) T) eqn:Hx.
    + rewrite list_elem_of_singleton. split.
      * intros [[H | ->] | [H1 H2]]; auto.
      * intros [H | [[-> | H1] H2]]; auto.
    + split.
      * intros [[H | H] | [H1 H2]]; [auto | inversion H | auto].
      * intros [H | [[-> | H1] H2]]; [auto | congruence | auto].
Qed.

Lemma meta_fold_elem (m : MetaInfo) (ks : list string) :
  forall (acc : list string * Keywords.Contexts) (k : string),
    k ∈ (foldl (Keywords.meta_step m) acc ks).1
    <-> k ∈ acc.1
        \/ (k ∈ ks /\ Py.contains (Py.lower k) (Keywords.meta_text m) = true).
Proof.
  induction ks as [ | x ks IH]; intros acc k; cbn [foldl].
  - split; [ auto | intros [H | [H _]]; [exact H | inversion H] ].
  - rewrite IH, elem_of_cons. unfold Keywords.meta_step.
    destruct (Py.contains (Py.lower x) (Keywords.meta_text m)) eqn:Hx;
      cbn [andb].
    + case_bool_decide as Hin; cbn [negb fst].
      * split; [ intros [H | [H1 H2]]; auto | ].
        intros [H | [[-> | H1] H2]]; auto.
      * rewrite elem_of_app, list_elem_of_singleton. split.
        -- intros [[H | ->] | [H1 H2]]; auto.
        -- intros [H | [[-> | H1] H2]]; auto.
    + split; [ intros [H | [H1 H2]]; auto | ].
      intros [H | [[-> | H1] H2]]; [auto | congruence | auto].
Qed.

Lemma scan_matches (h : Html) (ks : list string) (with_meta : bool) (k : string) :
  k ∈ matches_of (Keywords.scan h ks with_meta)
  <-> k ∈ ks /\ (in_text h k = true \/ (with_meta = true /\ in_meta h k = true)).
Proof.
  unfold matches_of, Keywords.scan, in_text, in_meta. cbn [fst snd].
  destruct with_meta.
  - rewrite meta_fold_elem, text_fold_elem. cbn [fst]. split.
    + intros [[H | [H1 H2]] | [H1 H2]]; [inversion H | auto | auto].
    + intros [H1 [H2 | [_ H2]]]; auto.
  - rewrite text_fold_elem. cbn [fst]. split.
    + intros [H | [H1 H2]]; [inversion H | auto].
    + intros [H1 [H2 | [H2 _]]]; [auto | discriminate].
Qed.


(** Without meta information the matches are the keywords that occur in the
    text, in the order and with the repetitions of the keyword list. *)
Lemma text_fold_filter (T : string) (ks : list string) :
  forall acc : list string * Keywords.Contexts,
    (foldl (Keywords.text_step T) acc ks).1
    = acc.1 ++ List.filter (fun k => Py.contains (Py.lower k) T) ks.
Proof.
  induction ks as [ | x ks IH]; intros acc; cbn [foldl List.filter].
  - symmetry. apply app_nil_r.
  - rewrite IH, text_step_matches, <- app_assoc.
    destruct (Py.contains (Py.lower x) T); reflexivity.
Qed.

Lemma scan_contains (h : Html) (ks : list string) (with_meta : bool) :
  contains_keywords (Keywords.scan h ks with_meta) = true
  <-> exists k, k ∈ ks
        /\ (in_text h k = true \/ (with_meta = true /\ in_meta h k = true)).
Proof.
  transitivity (exists k, k ∈ matches_of (Keywords.scan h ks with_meta)).
  - unfold contains_keywords, matches_of, Keywords.scan. cbn [fst snd].
    rewrite bool_decide_eq_true.
    match goal with |- context [length ?l0] => destruct l0 as [ | x l] end.
    + cbn. split; [lia | intros [k Hk]; inversion Hk].
    + cbn. split; [ intros _; exists x; left | lia ].
  - split; intros [k Hk]; exists k; apply scan_matches, Hk.
Qed.





Lemma contains_empty (T : string) : Py.contains "" T = true.
Proof.
  unfold Py.contains, Py.find. apply bool_decide_eq_true_2.
  destruct T; cbn; eauto.
Qed.

(** X4. An empty keyword occurs in every text: a keyword list that holds
    the empty string makes every fetched page count as containing
    keywords. *)
Theorem empty_keyword_matches_every_page (h : Html) (before after : list string)
    (with_meta : bool) :
  contains_keywords (Keywords.scan h (before ++ ""%string :: after) with_meta)
  = true.
Proof.
  apply scan_contains. exists ""%string. split.
  - apply elem_of_app. right. left.
  - left. apply contains_empty.
Qed.

(** A property of the accumulator kept by both loops. *)
Lemma foldl_invariant {A B} (P : A -> Prop) (step : A -> B -> A) (l : list B) :
  (forall a b, P a -> P (step a b)) -> forall a, P a -> P (foldl step a l).
Proof.
  intros Hstep. induction l as [ | b l IH]; intros a Ha; cbn [foldl]; auto.
Qed.

Lemma text_step_dom (T : string) (acc : list string * Keywords.Contexts)
    (x : string) :
  (forall k, is_Some (acc.2 !! k) <-> k ∈ acc.1) ->
  forall k, is_Some ((Keywords.text_step T acc x).2 !! k)
            <-> k ∈ (Keywords.text_step T acc x).1.
Proof.
  intros H k. unfold Keywords.text_step.
  destruct (Py.find T (Py.lower x)) as [i | ]; cbn [fst snd]; [ | apply H ].
  unfold Keywords.Contexts in *.
  rewrite elem_of_app, list_elem_of_singleton, <- H.
  destruct (decide (x = k)) as [-> | Hne].
  - rewrite lookup_insert_eq. split; [auto | eauto].
  - rewrite lookup_insert_ne by exact Hne. split; [auto | ].
    intros [H1 | H1]; [exact H1 | congruence].
Qed.

Lemma meta_step_dom (m : MetaInfo) (acc : list string * Keywords.Contexts)
    (x : string) :
  (forall k, is_Some (acc.2 !! k) <-> k ∈ acc.1) ->
  forall k, is_Some ((Keywords.meta_step m acc x).2 !! k)
            <-> k ∈ (Keywords.meta_step m acc x).1.
Proof.
  intros H k. unfold Keywords.meta_step.
  destruct (Py.contains (Py.lower x) (Keywords.meta_text m)
            && negb (bool_decide (x ∈ acc.1))); cbn [fst snd]; [ | apply H ].
  unfold Keywords.Contexts in *.
  rewrite elem_of_app, list_elem_of_singleton, <- H.
  destruct (decide (x = k)) as [-> | Hne].
  - rewrite lookup_insert_eq. split; [auto | eauto].
  - rewrite lookup_insert_ne by exact Hne. split; [auto | ].
    intros [H1 | H1]; [exact H1 | congruence].
Qed.

(** X5. The context map has an entry for every matched keyword and for
    nothing else. *)
Theorem contexts_cover_matches (h : Html) (ks : list string) (with_meta : bool)
    (k : string) :
  is_Some (contexts_of (Keywords.scan h ks with_meta) !! k)
  <-> k ∈ matches_of (Keywords.scan h ks with_meta).
Proof.
  unfold contexts_of, matches_of, Keywords.scan. cbn [fst snd].
  revert k.
  assert (H0 : forall k : string,
             is_Some ((([], ∅) : list string * Keywords.Contexts).2 !! k)
             <-> k ∈ (([], ∅) : list string * Keywords.Contexts).1).
  { intros k. cbn [fst snd]. unfold Keywords.Contexts. rewrite lookup_empty. split.
    - intros [x Hx]. discriminate.
    - intros Hk. inversion Hk. }
  pose proof (foldl_invariant
                (fun acc : list string * Keywords.Contexts =>
                   forall k, is_Some (acc.2 !! k) <-> k ∈ acc.1)
                (Keywords.text_step (Py.lower (get_text h))) ks
                (text_step_dom _) _ H0) as H1.
  destruct with_meta; [ | exact H1 ].
  exact (foldl_invariant
           (fun acc : list string * Keywords.Contexts =>
              forall k, is_Some (acc.2 !! k) <-> k ∈ acc.1)
           (Keywords.meta_step (Keywords.extract_meta h)) ks
           (meta_step_dom _) _ H1).
Qed.







(** ** Registry, status lookup and partial updates *)

(** Projections of a world built by the setters of [W], leaving projections
    of a variable folded. *)
Ltac world_cbn :=
  cbn [W.tick W.on_projects W.on_users W.on_store W.on_queues W.on_registry
       W.on_stats W.on_pool W.on_ws clock projects users scraped_store
       message_queues active_extractions extraction_stats thread_pool ws_sent
       fst snd].

(** X7. An interrupt request changes one thing: the flag (and timestamp) of
    the client's own registry entry.  What [get_extraction_status] and
    [should_interrupt] answer for every other client is unchanged, and for
    the client itself [should_interrupt] answers [true] exactly when the
    client is registered. *)
Theorem interrupt_touches_one_entry (client_id k : string) (w : World) :
  let w' := (interrupt_extraction client_id w).2 in
  get_extraction_status k w'
  = (if decide (k = client_id)
     then (fun r : RegistryEntry * option Stats =>
             (request_interrupt (clock w) r.1, r.2))
            <$> get_extraction_status k w
     else get_extraction_status k w)
  /\ should_interrupt k w'
     = (if decide (k = client_id)
        then bool_decide (is_Some (active_extractions w !! client_id))
        else should_interrupt k w)
  /\ message_queues w' = message_queues w
  /\ projects w' = projects w.
Proof.
  cbn zeta. unfold interrupt_extraction, get_extraction_status, should_interrupt.
  destruct (active_extractions w !! client_id) as [e | ] eqn:He; cbn [snd].
  - world_cbn. destruct (decide (k = client_id)) as [-> | Hne].
    + rewrite lookup_insert_eq, He.
      rewrite bool_decide_eq_true_2 by eauto. repeat split.
    + rewrite lookup_insert_ne by congruence. repeat split.
  - destruct (decide (k = client_id)) as [-> | Hne].
    + rewrite He.
      rewrite bool_decide_eq_false_2 by (intros [x Hx]; discriminate).
      repeat split.
    + repeat split.
Qed.

Lemma apply_doc_idempotent (d : UpdateDoc) (p : Project) :
  apply_doc d (apply_doc d p) = apply_doc d p.
Proof. destruct d, p; reflexivity. Qed.

(** X8. [update_project_partial_sync] changes the document with the given
    id and no other, and creates none when the id is unknown; issuing the
    same update a second time leaves the store as the first left it. *)
Theorem partial_update_targeted_and_idempotent (pid : string) (doc : UpdateDoc)
    (st : St) :
  let st1 := (update_project_partial_sync pid doc st).2 in
  let st2 := (update_project_partial_sync pid doc st1).2 in
  (forall k, projects st1.1 !! k
             = if decide (k = pid) then apply_doc doc <$> projects st.1 !! k
               else projects st.1 !! k)
  /\ projects st2.1 = projects st1.1
  /\ message_queues st1.1 = message_queues st.1
  /\ active_extractions st1.1 = active_extractions st.1.
Proof.
  destruct st as [w f]. cbn zeta.
  unfold update_project_partial_sync, mbind, M_bind, bind, modify_world, emit.
  world_cbn.
  split; [ | split; [ | split; reflexivity ] ].
  - intros k. destruct (decide (k = pid)) as [-> | Hne].
    + apply lookup_alter_eq.
    + apply lookup_alter_ne. congruence.
  - apply map_eq. intros k. destruct (decide (pid = k)) as [<- | Hne].
    + rewrite !lookup_alter_eq.
      destruct (projects w !! pid) as [p | ]; cbn [fmap option_fmap option_map];
        [ | reflexivity ].
      rewrite apply_doc_idempotent. reflexivity.
    + rewrite !lookup_alter_ne by exact Hne. reflexivity.
Qed.

(** ** Job submission *)

(** X9. A submission without a URL is answered with status 500, not 400:
    the 400 raised inside the [try] is caught by the function's own
    [except Exception] and re-raised as an internal error.  Nothing is
    created or registered. *)
Theorem empty_url_is_internal_error (env : Env) (user_email : string)
    (ws_manager : option ConnectionManager) (scrape_mode : string) (limit : Z)
    (client_id : option string) (keywords : option (list Py.value))
    (meta : bool) (w : World) :
  exists exn,
    add_project_with_scraping env user_email "" ws_manager scrape_mode limit
      client_id keywords meta w = (inl exn, w)
    /\ status_code exn = 500.
Proof. eexists. split; reflexivity. Qed.

(** X10. A submission with a URL and a subscriber whose first send succeeds
    stores the project (status [running], the URL as its only sitemap page,
    nothing scraped), registers the client as running and not interrupted,
    gives it statistics and a fresh empty queue (replacing any earlier one),
    and hands exactly one job to the pool, with the validated mode and
    limit; the answer names the project and the client. *)
Theorem submission_registers_and_queues (env : Env) (user_email site : string)
    (manager : ConnectionManager) (scrape_mode : string) (limit : Z)
    (client_id : option string) (keywords : option (list Py.value))
    (meta : bool) (w : World) :
  site <> ""%string ->
  send_personal_json_raises manager = None ->
  let pid := ObjectId env (size (projects w)) in
  let cid := client_id_of client_id pid in
  let r := add_project_with_scraping env user_email site (Some manager)
             scrape_mode limit client_id keywords meta w in
  (exists resp, r.1 = inr resp
     /\ r_project_id resp = pid /\ r_client_id resp = cid
     /\ doc_processing_status <$> projects r.2 !! pid
        = Some (r_processing_status resp)
     /\ extraction_status (r_processing_status resp) = STATUS_RUNNING)
  /\ (fun p => (url p, sitemap_pages p, scraped_pages p))
       <$> projects r.2 !! pid
     = Some (site, [site], [])
  /\ entry_core <$> active_extractions r.2 !! cid
     = Some (pid, STATUS_RUNNING, false)
  /\ is_Some (extraction_stats r.2 !! cid)
  /\ message_queues r.2 !! cid = Some []
  /\ thread_pool r.2
     = thread_pool w
       ++ [{| j_url := site; j_project_id := pid; j_client_id := cid;
              j_user_email := user_email;
              j_scrape_mode := validate_scrape_mode scrape_mode;
              j_pages_limit := effective_pages_limit scrape_mode limit;
              j_search_keywords := keywords; j_include_meta := meta |}].
Proof.
  intros Hurl Hsend. cbn zeta.
  unfold add_project_with_scraping.
  rewrite bool_decide_eq_false_2 by exact Hurl.
  rewrite Hsend. fold (client_id_of client_id (ObjectId env (size (projects w)))).
  world_cbn.
  split; [ eexists; split; [reflexivity | ] | ].
  - cbn [r_project_id r_client_id r_processing_status].
    rewrite lookup_insert_eq. repeat split.
  - rewrite !lookup_insert_eq. repeat split. eexists. reflexivity.
Qed.

Lemma submission_registers_and_queues_witness :
  thread_pool
    (Demo.submitted (Demo.env_of (inl ["a"%string]) Demo.fetch_ab Demo.never) None)
  = [Demo.job None].
Proof.
  exact (proj2 (proj2 (proj2 (proj2 (proj2
           (submission_registers_and_queues
              (Demo.env_of (inl ["a"%string]) Demo.fetch_ab Demo.never)
              "u@example.com" "https://example.com" Demo.manager "limited" 5
              (Some "c1"%string) None true Demo.world0
              ltac:(discriminate) ltac:(reflexivity))))))).
Defined.

(** X11. When the first send to the subscriber raises, the submission is
    answered with status 500 and no job reaches the pool, but what was done
    before stays: the project is stored as [running], and the client stays
    registered as running with statistics and an empty queue. *)
Theorem failed_send_leaves_job_registered (env : Env) (user_email site : string)
    (manager : ConnectionManager) (scrape_mode : string) (limit : Z)
    (client_id : option string) (keywords : option (list Py.value))
    (meta : bool) (w : World) (e : string) :
  site <> ""%string ->
  send_personal_json_raises manager = Some e ->
  let pid := ObjectId env (size (projects w)) in
  let cid := client_id_of client_id pid in
  let r := add_project_with_scraping env user_email site (Some manager)
             scrape_mode limit client_id keywords meta w in
  (exists exn, r.1 = inl exn /\ status_code exn = 500)
  /\ thread_pool r.2 = thread_pool w
  /\ ws_sent r.2 = ws_sent w
  /\ (fun p => extraction_status (doc_processing_status p))
       <$> projects r.2 !! pid
     = Some STATUS_RUNNING
  /\ entry_core <$> active_extractions r.2 !! cid
     = Some (pid, STATUS_RUNNING, false)
  /\ is_Some (extraction_stats r.2 !! cid)
  /\ message_queues r.2 !! cid = Some [].
Proof.
  intros Hurl Hsend. cbn zeta.
  unfold add_project_with_scraping.
  rewrite bool_decide_eq_false_2 by exact Hurl.
  rewrite Hsend. fold (client_id_of client_id (ObjectId env (size (projects w)))).
  world_cbn.
  split; [ eexists; split; reflexivity | ].
  rewrite !lookup_insert_eq. repeat split. eexists. reflexivity.
Qed.

Lemma failed_send_leaves_job_registered_witness :
  entry_core
    <$> active_extractions
          (add_project_with_scraping
             (Demo.env_of (inl ["a"%string]) Demo.fetch_ab Demo.never)
             "u@example.com" "https://example.com"
             (Some {| send_personal_json_raises := Some "closed"%string |})
             "limited" 5 (Some "c1"%string) None true Demo.world0).2
          !! "c1"%string
  = Some ("id0"%string, STATUS_RUNNING, false).
Proof.
  exact (proj1 (proj2 (proj2 (proj2 (proj2
           (failed_send_leaves_job_registered
              (Demo.env_of (inl ["a"%string]) Demo.fetch_ab Demo.never)
              "u@example.com" "https://example.com"
              {| send_personal_json_raises := Some "closed"%string |}
              "limited" 5 (Some "c1"%string) None true Demo.world0 "closed"
              ltac:(discriminate) ltac:(reflexivity))))))).
Defined.

(** ** The consumer task *)

Lemma consume_drain (manager : ConnectionManager) (client_id : string)
    (q : list Message) :
  forall (w : World) (turns : nat),
    message_queues w !! client_id = Some q ->
    match active_extractions w !! client_id with
    | None => true
    | Some e => is_terminal (status e)
    end = true ->
    (length q < turns)%nat ->
    let r := consume_messages turns manager client_id w in
    r.1.1 = match send_personal_json_raises manager with
            | None => q
            | Some _ => []
            end
    /\ r.1.2 = true
    /\ message_queues r.2 = delete client_id (message_queues w)
    /\ active_extractions r.2 = delete client_id (active_extractions w).
Proof.
  induction q as [ | m rest IH]; intros w turns Hq Hover Hlen;
    (destruct turns as [ | n]; [cbn in Hlen; lia | ]);
    cbn [consume_messages]; unfold consume_turn; rewrite Hq.
  - rewrite Hover. world_cbn.
    destruct (send_personal_json_raises manager); repeat split.
  - assert (Hq' : message_queues (W.on_queues <[client_id := rest]> w)
                    !! client_id = Some rest).
    { world_cbn. apply lookup_insert_eq. }
    specialize (IH (W.on_queues <[client_id := rest]> w) n Hq' Hover
                  ltac:(cbn in Hlen; lia)).
    cbn zeta in IH. destruct IH as (H1 & H2 & H3 & H4).
    revert H3. world_cbn. rewrite delete_insert_eq. intros H3.
    destruct (send_personal_json_raises manager); cbn [fst snd];
      rewrite ?H1; repeat split; assumption.
Qed.

(** X12. Once the job is over (the client's registry state is terminal, or
    the client is not registered) and every send succeeds, the consumer
    forwards the queued messages in the order they were queued, then stops,
    deleting the client's queue and registry entry and nothing else. *)
Theorem consumer_forwards_in_order_then_cleans_up (manager : ConnectionManager)
    (client_id : string) (q : list Message) (w : World) (turns : nat) :
  send_personal_json_raises manager = None ->
  message_queues w !! client_id = Some q ->
  match active_extractions w !! client_id with
  | None => true
  | Some e => is_terminal (status e)
  end = true ->
  (length q < turns)%nat ->
  let r := consume_messages turns manager client_id w in
  r.1.1 = q
  /\ r.1.2 = true
  /\ message_queues r.2 = delete client_id (message_queues w)
  /\ active_extractions r.2 = delete client_id (active_extractions w).
Proof.
  intros Hsend Hq Hover Hlen.
  pose proof (consume_drain manager client_id q w turns Hq Hover Hlen) as H.
  rewrite Hsend in H. exact H.
Qed.

(** X13. When the sends raise, the consumer still empties the queue: every
    message is taken off before its send is attempted, none reaches the
    subscriber, and the consumer stops and cleans up as if all had been
    delivered. *)
Theorem consumer_loses_messages_when_send_raises (manager : ConnectionManager)
    (client_id : string) (q : list Message) (w : World) (turns : nat)
    (e : string) :
  send_personal_json_raises manager = Some e ->
  message_queues w !! client_id = Some q ->
  match active_extractions w !! client_id with
  | None => true
  | Some e => is_terminal (status e)
  end = true ->
  (length q < turns)%nat ->
  let r := consume_messages turns manager client_id w in
  r.1.1 = []
  /\ r.1.2 = true
  /\ message_queues r.2 !! client_id = None.
Proof.
  intros Hsend Hq Hover Hlen.
  pose proof (consume_drain manager client_id q w turns Hq Hover Hlen) as H.
  rewrite Hsend in H. cbn zeta in *. destruct H as (H1 & H2 & H3 & _).
  split; [exact H1 | ]. split; [exact H2 | ].
  rewrite H3. apply lookup_delete_eq.
Qed.

(** X14. While the client's registry state is not terminal the consumer
    never stops: after any number of turns it has forwarded a prefix of the
    queue, in order, and the registry is as it was. *)
Theorem consumer_waits_while_running (manager : ConnectionManager)
    (client_id : string) (entry : RegistryEntry) (turns : nat) :
  forall (q : list Message) (w : World),
    send_personal_json_raises manager = None ->
    active_extractions w !! client_id = Some entry ->
    is_terminal (status entry) = false ->
    message_queues w !! client_id = Some q ->
    let r := consume_messages turns manager client_id w in
    r.1.1 = take turns q
    /\ r.1.2 = false
    /\ active_extractions r.2 = active_extractions w
    /\ message_queues r.2 !! client_id = Some (drop turns q).
Proof.
  induction turns as [ | n IH]; intros q w Hsend He Hrun Hq;
    cbn [consume_messages].
  - rewrite Hq. rewrite bool_decide_eq_false_2 by discriminate.
    rewrite take_0, drop_0. repeat split. exact Hq.
  - unfold consume_turn. rewrite Hq. destruct q as [ | m rest].
    + rewrite He, Hrun.
      specialize (IH [] w Hsend He Hrun Hq). cbn zeta in IH.
      rewrite take_nil, drop_nil in IH. exact IH.
    + rewrite Hsend.
      assert (Hq' : message_queues (W.on_queues <[client_id := rest]> w)
                      !! client_id = Some rest).
      { world_cbn. apply lookup_insert_eq. }
      specialize (IH rest (W.on_queues <[client_id := rest]> w) Hsend He Hrun Hq').
      cbn zeta in IH. destruct IH as (H1 & H2 & H3 & H4).
      cbn [fst snd take drop]. rewrite H1. repeat split; assumption.
Qed.

Lemma consumer_forwards_in_order_then_cleans_up_witness :
  let m1 := {| msg_type := log_error; timestamp := 1%nat; message := Text "failed" |} in
  let m2 := {| msg_type := log_info; timestamp := 2%nat; message := Text "bye" |} in
  let r := consume_messages 3 Demo.manager "c1"
             (W.on_queues <["c1"%string := [m1; m2]]> Demo.world_ended) in
  r.1.1 = [m1; m2] /\ r.1.2 = true.
Proof.
  intros m1 m2.
  pose proof (consumer_forwards_in_order_then_cleans_up Demo.manager "c1"
                [m1; m2]
                (W.on_queues <["c1"%string := [m1; m2]]> Demo.world_ended) 3
                ltac:(reflexivity) ltac:(reflexivity) ltac:(reflexivity)
                ltac:(cbn; lia)) as H.
  cbn zeta in H. destruct H as (H1 & H2 & _). split; assumption.
Defined.

Lemma consumer_loses_messages_when_send_raises_witness :
  let m1 := {| msg_type := log_error; timestamp := 1%nat; message := Text "failed" |} in
  let r := consume_messages 2
             {| send_personal_json_raises := Some "closed"%string |} "c1"
             (W.on_queues <["c1"%string := [m1]]> Demo.world_ended) in
  r.1.1 = [] /\ r.1.2 = true /\ message_queues r.2 !! "c1"%string = None.
Proof.
  intros m1.
  exact (consumer_loses_messages_when_send_raises
           {| send_personal_json_raises := Some "closed"%string |} "c1" [m1]
           (W.on_queues <["c1"%string := [m1]]> Demo.world_ended) 2 "closed"
           ltac:(reflexivity) ltac:(reflexivity) ltac:(reflexivity)
           ltac:(cbn; lia)).
Defined.

Lemma consumer_waits_while_running_witness :
  let m1 := {| msg_type := log_info; timestamp := 1%nat; message := Text "started" |} in
  let entry := {| project_id := "id0"; status := STATUS_RUNNING;
                  interrupt_requested := false; last_updated := 0%nat |} in
  let r := consume_messages 5 Demo.manager "c1"
             (W.on_registry <["c1"%string := entry]>
                (W.on_queues <["c1"%string := [m1]]> Demo.world0)) in
  r.1.1 = [m1] /\ r.1.2 = false.
Proof.
  intros m1 entry.
  pose proof (consumer_waits_while_running Demo.manager "c1" entry 5 [m1]
                (W.on_registry <["c1"%string := entry]>
                   (W.on_queues <["c1"%string := [m1]]> Demo.world0))
                ltac:(reflexivity) ltac:(reflexivity) ltac:(reflexivity)
                ltac:(reflexivity)) as H.
  cbn zeta in H. destruct H as (H1 & H2 & _). split; assumption.
Defined.

(** ** What a worker touches *)

Section Effects.

Variable env : Env.
Variables client_id pid : string.

#[local] Abbreviation walk := (walks client_id pid).
#[local] Abbreviation eff := (effect client_id pid).

Lemma walks_ret {A} (a : A) : walk (mret a).
Proof. intros st. apply rtc_refl. Qed.

Lemma walks_return {A} : walk (@return_ A).
Proof. intros st. apply rtc_refl. Qed.

Lemma walks_raise {A} (e : string) : walk (@raise A e).
Proof. intros st. apply rtc_refl. Qed.

Lemma walks_get_world : walk get_world.
Proof. intros st. apply rtc_refl. Qed.

Lemma walks_get_status : walk get_status.
Proof. intros st. apply rtc_refl. Qed.

Lemma walks_bind {A B} (m : M A) (k : A -> M B) :
  walk m -> (forall a, walk (k a)) -> walk (m ≫= k).
Proof.
  intros Hm Hk st. specialize (Hm st). unfold mbind, M_bind, bind.
  destruct (m st) as [[a | | e] st']; cbn [snd] in *; [ | exact Hm | exact Hm ].
  eapply rtc_trans; [exact Hm | apply Hk].
Qed.

Lemma walks_try {A} (m : M A) (h : string -> M A) :
  walk m -> (forall e, walk (h e)) -> walk (try_ m h).
Proof.
  intros Hm Hh st. specialize (Hm st). unfold try_.
  destruct (m st) as [[a | | e] st']; cbn [snd] in *; [exact Hm | exact Hm | ].
  eapply rtc_trans; [exact Hm | apply Hh].
Qed.

Lemma walks_utcnow : walk utcnow.
Proof. intros [w f]. apply rtc_once. constructor. Qed.

Lemma walks_emit (e : Event) : (forall s, e <> EvStatus s) -> walk (emit e).
Proof. intros He [w f]. apply rtc_once. constructor. exact He. Qed.

Lemma walks_assign (g : ProcessingStatus -> ProcessingStatus) :
  update g -> walk (assign g).
Proof. intros Hg [w f]. apply rtc_once. constructor. exact Hg. Qed.

Lemma walks_put_message (t : LogType) (b : Body) :
  walk (put_message client_id t b).
Proof.
  intros [w f]. unfold put_message, mbind, M_bind, bind, get_world. cbn [fst].
  destruct (message_queues w !! client_id) as [q | ] eqn:Hq; [ | apply rtc_refl ].
  cbn [utcnow modify_world fst snd].
  eapply rtc_l; [ apply effect_tick | ].
  apply rtc_once. apply effect_put. exact Hq.
Qed.

Lemma walks_send_log (t : LogType) (text : string) :
  walk (send_log client_id t text).
Proof. apply walks_put_message. Qed.

Lemma walks_persist (doc : UpdateDoc) :
  walk (update_project_partial_sync pid doc).
Proof.
  intros [w f]. cbn.
  eapply rtc_l; [ apply effect_persist | ].
  apply rtc_once. apply effect_emit. discriminate.
Qed.

Lemma walks_store (d : ScrapedData) :
  walk (modify_world (W.on_store (fun l => l ++ [d]))).
Proof. intros [w f]. apply rtc_once. apply effect_store. Qed.

Lemma walks_poll : walk (poll_interrupt env client_id).
Proof.
  intros [w f]. unfold poll_interrupt. cbn [fst snd].
  destruct (interrupt_before_check env (checks f)).
  - unfold interrupt_extraction.
    destruct (active_extractions w !! client_id) as [e | ] eqn:He; cbn [snd].
    + eapply rtc_l; [ apply (effect_request _ _ _ _ e (clock w)), He | ].
      eapply rtc_l; [ apply effect_tick | ].
      apply rtc_once. apply effect_poll.
    + apply rtc_once. apply effect_poll.
  - apply rtc_once. apply effect_poll.
Qed.

(** A step taken from a given state. *)
Lemma rtc_step_bind {A B} (m : M A) (k : A -> M B) (st st' : St) (a : A) :
  m st = (Val a, st') ->
  rtc eff st st' ->
  rtc eff st' (k a st').2 ->
  rtc eff st ((m ≫= k) st).2.
Proof.
  intros Hm H1 H2. unfold mbind, M_bind, bind. rewrite Hm.
  eapply rtc_trans; eassumption.
Qed.

Ltac walk_tac :=
  repeat lazymatch goal with
    | |- walks _ _ (mret _) => apply walks_ret
    | |- walks _ _ return_ => apply walks_return
    | |- walks _ _ (raise _) => apply walks_raise
    | |- walks _ _ utcnow => apply walks_utcnow
    | |- walks _ _ get_world => apply walks_get_world
    | |- walks _ _ get_status => apply walks_get_status
    | |- walks _ _ (send_log _ _ _) => apply walks_send_log
    | |- walks _ _ (put_message _ _ _) => apply walks_put_message
    | |- walks _ _ (update_project_partial_sync _ _) => apply walks_persist
    | |- walks _ _ (modify_world _) => apply walks_store
    | |- walks _ _ (poll_interrupt _ _) => apply walks_poll
    | |- walks _ _ (emit _) => apply walks_emit; discriminate
    | |- walks _ _ (assign _) => apply walks_assign; constructor
    | |- walks _ _ (_ ≫= _) => apply walks_bind; [ | intros ? ]
    | |- walks _ _ (try_ _ _) => apply walks_try; [ | intros ? ]
    | |- walks _ _ (match ?x with _ => _ end) => destruct x
    end.

Ltac walk_rest :=
  lazymatch goal with
  | |- rtc _ ?s (?m ?s).2 =>
      let H := fresh in assert (H : walk m) by walk_tac; apply H
  end.

Lemma walks_handle_interruption : walk (handle_interruption client_id pid).
Proof.
  intros [w f]. unfold handle_interruption.
  eapply rtc_step_bind; [ reflexivity | apply rtc_refl | cbn beta; cbn [fst] ].
  destruct (active_extractions w !! client_id) as [e | ] eqn:He; [ | apply rtc_refl ].
  eapply rtc_step_bind; [ reflexivity | apply rtc_once, effect_tick | cbn beta; cbn [fst] ].
  eapply rtc_step_bind; [ reflexivity | | cbn beta; cbn [fst] ].
  { apply rtc_once. apply effect_set_status; [ exact He | left; reflexivity ]. }
  walk_rest.
Qed.

Lemma walks_on_unexpected_error (e : string) :
  walk (on_unexpected_error client_id pid e).
Proof.
  unfold on_unexpected_error. apply walks_bind; [ apply walks_send_log | intros _ ].
  intros [w f].
  eapply rtc_step_bind; [ reflexivity | apply rtc_refl | cbn beta; cbn [fst] ].
  destruct (active_extractions w !! client_id) as [entry | ] eqn:He.
  - eapply rtc_step_bind; [ reflexivity | | cbn beta; cbn [fst] ].
    { eapply rtc_l; [ apply effect_tick | ].
      apply rtc_once. apply effect_set_status; [ exact He | right; reflexivity ]. }
    walk_rest.
  - eapply rtc_step_bind; [ reflexivity | apply rtc_refl | cbn beta; cbn [fst] ].
    walk_rest.
Qed.

Lemma walks_log_match_details (contexts : Keywords.Contexts) (matches : list string) :
  walk (log_match_details client_id contexts matches).
Proof.
  induction matches as [ | kw rest IH]; cbn [log_match_details]; walk_tac.
  exact IH.
Qed.

Lemma walks_check_one (page_url : string) (keywords : list Py.value)
    (with_meta : bool) (total : nat) (a : Filtered) :
  walk (check_one env client_id page_url keywords with_meta total a).
Proof.
  unfold check_one, check_page_for_keywords. walk_tac.
  all: try apply walks_log_match_details.
Qed.

Lemma walks_filter_pages (keywords : list Py.value) (with_meta : bool)
    (total : nat) (pages : list string) :
  forall (i : nat) (a : Filtered),
    walk (filter_pages env client_id pid keywords with_meta total i pages a).
Proof.
  induction pages as [ | page_url rest IH]; intros i a; cbn [filter_pages].
  - apply walks_ret.
  - apply walks_bind; [ apply walks_poll | intros [ | ] ].
    + apply walks_bind; [ apply walks_send_log | intros _ ].
      apply walks_bind; [ apply walks_handle_interruption | intros _ ].
      apply walks_return.
    + apply walks_bind; [ | intros a2; apply IH ].
      apply walks_try; [ apply walks_check_one | intros e ].
      apply walks_bind; [ apply walks_send_log | intros _; apply walks_ret ].
Qed.

Lemma walks_join_keywords (keywords : list Py.value) :
  walk (join_keywords keywords).
Proof. unfold join_keywords. walk_tac. Qed.

Lemma walks_select_pages (search_keywords : option (list Py.value))
    (with_meta : bool) (limit : Z) (pages : list string) :
  walk (select_pages env client_id pid search_keywords with_meta limit pages).
Proof.
  unfold select_pages. destruct (Py.truthy search_keywords); [ | apply walks_ret ].
  apply walks_bind; [ apply walks_join_keywords | intros joined ].
  apply walks_bind; [ apply walks_send_log | intros _ ].
  apply walks_bind; [ apply walks_filter_pages | intros a ].
  walk_tac.
Qed.

Lemma walks_scrape_one (page_url : string) (a : Filtered) (total i : nat)
    (scraped : list string) :
  walk (scrape_one env client_id page_url a total i scraped).
Proof. unfold scrape_one, log_page_keywords, log_page_info. walk_tac. Qed.

Lemma walks_scrape_pages (a : Filtered) (total : nat) (pages : list string) :
  forall (i : nat) (scraped : list string),
    walk (scrape_pages env client_id pid a total i pages scraped).
Proof.
  induction pages as [ | page_url rest IH]; intros i scraped; cbn [scrape_pages].
  - apply walks_ret.
  - apply walks_bind.
    { apply walks_try; [ apply walks_scrape_one | intros e ]. walk_tac. }
    intros scraped'.
    apply walks_bind; [ apply walks_poll | intros [ | ] ].
    + apply walks_bind; [ apply walks_send_log | intros _ ].
      apply walks_bind; [ apply walks_handle_interruption | intros _ ].
      apply walks_return.
    + apply IH.
Qed.

Lemma walks_pipeline (url : string) (limit : Z)
    (search_keywords : option (list Py.value)) (with_meta : bool) :
  walk (pipeline env url pid client_id limit search_keywords with_meta).
Proof.
  unfold pipeline.
  apply walks_bind.
  { unfold log_start. apply walks_bind; [ apply walks_send_log | intros _ ].
    destruct (Py.truthy search_keywords); [ | apply walks_ret ].
    apply walks_bind; [ apply walks_join_keywords | intros joined ]. walk_tac. }
  intros _. apply walks_bind; [ unfold process_robots; walk_tac | intros _ ].
  apply walks_bind; [ unfold process_sitemap; walk_tac | intros sitemap_pages ].
  apply walks_bind; [ apply walks_select_pages | intros [pages_to_process a] ].
  apply walks_bind; [ apply walks_send_log | intros _ ].
  apply walks_bind; [ apply walks_scrape_pages | intros scraped ].
  unfold complete. walk_tac.
Qed.

End Effects.

(** Every run of the worker is a sequence of effects, from the state in
    which the pool hands it the job. *)
Lemma run_extraction_thread_effects (env : Env) (j : Job) (w : World) :
  let s0 := initial_status (clock w) (j_scrape_mode j) (j_pages_limit j)
              (j_search_keywords j) (j_include_meta j) None in
  rtc (effect (j_client_id j) (j_project_id j))
    (w, {| processing_status := s0; checks := 0; trace := [EvStatus s0] |})
    (run_extraction_thread env j w).
Proof.
  cbn zeta. unfold run_extraction_thread.
  eapply rtc_l; [ apply effect_tick | ].
  match goal with
  | |- context [try_ ?m ?h ?st0] =>
      assert (H : rtc (effect (j_client_id j) (j_project_id j)) st0 (try_ m h st0).2)
  end.
  { apply walks_try; [ apply walks_pipeline | intros e; apply walks_on_unexpected_error ]. }
  eapply rtc_trans; [ exact H | ].
  apply rtc_once. unfold clean_up, modify_world. cbn [fst snd].
  match goal with |- effect _ _ ?s _ => destruct s as [w' f'] end.
  apply effect_forget_stats.
Qed.


Section EffectInvariants.

Variables client_id pid : string.

#[local] Abbreviation eff := (effect client_id pid).

Lemma effect_invariant (R : St -> St -> Prop) :
  (forall st, R st st) ->
  (forall st y z, R st y -> eff y z -> R st z) ->
  forall st st', rtc eff st st' -> R st st'.
Proof.
  intros Hr Hs st st' H. revert st' H.
  apply rtc_ind_r; [ apply Hr | intros y z _ Hyz IH; eapply Hs; eassumption ].
Qed.

Lemma effects_elsewhere (st st' : St) :
  rtc eff st st' -> elsewhere client_id pid st.1 st'.1.
Proof.
  revert st st'. apply effect_invariant.
  - repeat split.
  - intros st y z IH Hyz. destruct IH as (H1 & H2 & H3 & H4 & H5).
    inversion Hyz; subst; unfold elsewhere; cbn [fst] in *; world_cbn;
      repeat split; try assumption; intros;
      rewrite ?lookup_insert_ne, ?lookup_alter_ne, ?lookup_delete_ne by congruence;
      first [ apply H5; assumption
            | edestruct H4 as (? & ? & ?); [ eassumption | assumption ] ].
Qed.

Lemma effects_append (st st' : St) :
  rtc eff st st' ->
  (clock st.1 <= clock st'.1)%nat
  /\ scraped_store st.1 `prefix_of` scraped_store st'.1
  /\ exists more,
       message_queues st'.1 !! client_id
       = (fun q => q ++ more) <$> message_queues st.1 !! client_id.
Proof.
  revert st st'. apply effect_invariant.
  - intros st. split; [lia | ]. split; [reflexivity | ]. exists [].
    destruct (message_queues st.1 !! client_id); cbn; [ | reflexivity ].
    rewrite app_nil_r. reflexivity.
  - intros st y z (H1 & H2 & more & H3) Hyz.
    inversion Hyz; subst; cbn [fst] in *; world_cbn;
      try (split; [ first [exact H1 | lia] | split; [exact H2 | exists more; exact H3] ]).
    + split; [exact H1 | ]. split; [exact H2 | ]. exists (more ++ [m]).
      rewrite lookup_insert_eq. rewrite H in H3.
      destruct (message_queues st.1 !! client_id) as [q0 | ]; cbn in *;
        [ | discriminate ].
      injection H3 as ->. rewrite app_assoc. reflexivity.
    + split; [exact H1 | ]. split; [ | exists more; exact H3 ].
      etransitivity; [ exact H2 | ]. apply prefix_app_r. reflexivity.
Qed.

Lemma effects_registration (st st' : St) :
  rtc eff st st' ->
  project_id <$> active_extractions st'.1 !! client_id
  = project_id <$> active_extractions st.1 !! client_id
  /\ (status <$> active_extractions st'.1 !! client_id
      = status <$> active_extractions st.1 !! client_id
      \/ status <$> active_extractions st'.1 !! client_id = Some STATUS_INTERRUPTED
      \/ status <$> active_extractions st'.1 !! client_id = Some STATUS_ERROR)
  /\ identity <$> projects st'.1 !! pid = identity <$> projects st.1 !! pid.
Proof.
  revert st st'. apply effect_invariant.
  - intros st. split; [reflexivity | ]. split; [left; reflexivity | reflexivity].
  - intros st y z (H1 & H2 & H3) Hyz.
    inversion Hyz; subst; cbn [fst] in *; world_cbn;
      try (split; [exact H1 | split; [exact H2 | exact H3] ]).
    + split; [exact H1 | ]. split; [exact H2 | ].
      rewrite lookup_alter_eq, <- H3.
      destruct (projects w !! pid) as [p | ]; [ | reflexivity ].
      destruct doc; reflexivity.
    + rewrite lookup_insert_eq. rewrite H in H1, H2. cbn in *.
      split; [exact H1 | ]. split; [exact H2 | exact H3].
    + rewrite lookup_insert_eq. rewrite H in H1. cbn in *.
      split; [exact H1 | ]. split; [ | exact H3 ].
      destruct H0 as [-> | ->]; [ right; left | right; right ]; reflexivity.
Qed.

Lemma update_keeps (g : ProcessingStatus -> ProcessingStatus) (s : ProcessingStatus) :
  update g -> settings (g s) = settings s /\ errors s `prefix_of` errors (g s).
Proof.
  intros []; (split; [reflexivity | ]); cbn;
    first [ reflexivity | apply prefix_app_r; reflexivity ].
Qed.

(** The statuses a frame has had, against the one it has now. *)
Lemma effects_status (st st' : St) :
  rtc eff st st' ->
  Forall (fun s => settings s = settings (processing_status st.2)
                   /\ errors s `prefix_of` errors (processing_status st.2))
    (snapshots (trace st.2)) ->
  Forall (fun s => settings s = settings (processing_status st.2)
                   /\ errors s `prefix_of` errors (processing_status st'.2))
    (snapshots (trace st'.2))
  /\ settings (processing_status st'.2) = settings (processing_status st.2)
  /\ errors (processing_status st.2) `prefix_of` errors (processing_status st'.2).
Proof.
  revert st st'.
  apply (effect_invariant
           (fun st st' =>
              Forall (fun s => settings s = settings (processing_status st.2)
                               /\ errors s `prefix_of` errors (processing_status st.2))
                (snapshots (trace st.2)) ->
              Forall (fun s => settings s = settings (processing_status st.2)
                               /\ errors s `prefix_of` errors (processing_status st'.2))
                (snapshots (trace st'.2))
              /\ settings (processing_status st'.2) = settings (processing_status st.2)
              /\ errors (processing_status st.2)
                 `prefix_of` errors (processing_status st'.2))).
  - intros st H. split; [exact H | ]. split; reflexivity.
  - intros st y z IH Hyz H0. destruct (IH H0) as (H1 & H2 & H3).
    inversion Hyz; subst; cbn [snd] in *;
      try (split; [exact H1 | split; [exact H2 | exact H3] ]).
    + cbn [push trace processing_status].
      rewrite snapshots_push_other by assumption.
      split; [exact H1 | split; [exact H2 | exact H3] ].
    + destruct (update_keeps g (processing_status f) H) as [K1 K2].
      cbn [store_status trace processing_status]. rewrite snapshots_push.
      split; [ | split ].
      * apply Forall_app. split.
        -- eapply Forall_impl; [exact H1 | ]. intros s [E1 E2].
           split; [exact E1 | ]. etransitivity; eassumption.
        -- constructor; [ | constructor ]. split; [ congruence | reflexivity ].
      * congruence.
      * etransitivity; eassumption.
Qed.

End EffectInvariants.

(** X15. A worker leaves other jobs alone: users, the thread pool and the
    messages sent directly over the socket are untouched, and so are the
    queue, registry entry and statistics of every other client and every
    other stored project. *)
Theorem worker_leaves_other_jobs_alone (env : Env) (j : Job) (w : World) :
  let w' := (run_extraction_thread env j w).1 in
  users w' = users w
  /\ thread_pool w' = thread_pool w
  /\ ws_sent w' = ws_sent w
  /\ (forall k, k <> j_client_id j ->
        message_queues w' !! k = message_queues w !! k
        /\ active_extractions w' !! k = active_extractions w !! k
        /\ extraction_stats w' !! k = extraction_stats w !! k)
  /\ (forall k, k <> j_project_id j -> projects w' !! k = projects w !! k).
Proof.
  exact (effects_elsewhere _ _ _ _ (run_extraction_thread_effects env j w)).
Qed.

(** X16. A worker only adds: time does not go back, pages already in the
    page store stay in place before the new ones, and the client's queue,
    when there is one, keeps its messages in order before the new ones; a
    client without a queue gets none. *)
Theorem worker_only_appends (env : Env) (j : Job) (w : World) :
  let w' := (run_extraction_thread env j w).1 in
  (clock w <= clock w')%nat
  /\ scraped_store w `prefix_of` scraped_store w'
  /\ exists more,
       message_queues w' !! j_client_id j
       = (fun q => q ++ more) <$> message_queues w !! j_client_id j.
Proof.
  exact (effects_append _ _ _ _ (run_extraction_thread_effects env j w)).
Qed.

(** X17. A worker neither registers nor unregisters its client and never
    marks it completed: the registry entry, if any, keeps its project id,
    and its state is what it was, [interrupted] or [error].  The stored
    project keeps its owner, URL, title and sitemap pages, and none is
    created; the client's statistics are gone when the worker ends. *)
Theorem worker_keeps_registration (env : Env) (j : Job) (w : World) :
  let w' := (run_extraction_thread env j w).1 in
  project_id <$> active_extractions w' !! j_client_id j
  = project_id <$> active_extractions w !! j_client_id j
  /\ (status <$> active_extractions w' !! j_client_id j
      = status <$> active_extractions w !! j_client_id j
      \/ status <$> active_extractions w' !! j_client_id j = Some STATUS_INTERRUPTED
      \/ status <$> active_extractions w' !! j_client_id j = Some STATUS_ERROR)
  /\ identity <$> projects w' !! j_project_id j
     = identity <$> projects w !! j_project_id j
  /\ extraction_stats w' !! j_client_id j = None.
Proof.
  cbn zeta.
  destruct (effects_registration _ _ _ _ (run_extraction_thread_effects env j w))
    as (H1 & H2 & H3).
  split; [exact H1 | ]. split; [exact H2 | ]. split; [exact H3 | ].
  unfold run_extraction_thread, clean_up, modify_world. cbn [fst snd].
  world_cbn. apply lookup_delete_eq.
Qed.

(** X18. Errors accumulate and settings stay: every value the status has
    had during the run carries the job's mode, limit, meta flag and start
    time, and its error list is an initial part of the final one. *)
Theorem errors_accumulate_settings_stay (env : Env) (j : Job) (w : World) :
  let f := (run_extraction_thread env j w).2 in
  let job_settings :=
    (j_scrape_mode j, j_pages_limit j, j_include_meta j, clock w) in
  settings (processing_status f) = job_settings
  /\ Forall (fun s => settings s = job_settings
                      /\ errors s `prefix_of` errors (processing_status f))
       (snapshots (trace f)).
Proof.
  cbn zeta.
  destruct (effects_status _ _ _ _ (run_extraction_thread_effects env j w))
    as (H1 & H2 & H3).
  { cbn. constructor; [ | constructor ]. split; reflexivity. }
  split; [exact H2 | exact H1].
Qed.

(** ** The registry against the job's final state *)

Section Outcome.

Variable env : Env.
Variables client_id pid : string.
Variable reg0 : gmap string RegistryEntry.

#[local] Abbreviation ended_as st :=
  (fun f : Frame => extraction_status (processing_status f) = st).
#[local] Abbreviation RUN0 := (inv (ended_as STATUS_RUNNING) (fun reg => reg = reg0)).
#[local] Abbreviation DONE := (inv (ended_as STATUS_COMPLETED) (fun reg => reg = reg0)).
#[local] Abbreviation OFF :=
  (inv (ended_as STATUS_INTERRUPTED)
     (fun reg => status <$> reg !! client_id = Some STATUS_INTERRUPTED)).
#[local] Abbreviation ERR :=
  (inv (ended_as STATUS_ERROR)
     (fun reg => status <$> reg !! client_id
                 = (fun _ => STATUS_ERROR) <$> reg0 !! client_id)).
#[local] Abbreviation keeps m := (triple RUN0 m (fun _ => RUN0) OFF RUN0).

Lemma keeps_ret {A} (a : A) : keeps (mret a).
Proof. apply triple_ret. auto. Qed.

Lemma keeps_raise {A} (e : string) : keeps (@raise A e).
Proof. apply triple_raise. auto. Qed.

Lemma keeps_bind {A B} (m : M A) (k : A -> M B) (Q : B -> St -> Prop) :
  keeps m -> (forall a, triple RUN0 (k a) Q OFF RUN0) ->
  triple RUN0 (m ≫= k) Q OFF RUN0.
Proof. intros Hm Hk. eapply triple_bind; [ exact Hm | exact Hk ]. Qed.

Lemma keeps_try {A} (m : M A) (h : string -> M A) :
  keeps m -> (forall e, keeps (h e)) -> keeps (try_ m h).
Proof. intros Hm Hh. eapply triple_try; [ exact Hm | exact Hh ]. Qed.

Lemma keeps_calm {A} (m : M A) : calm m -> keeps m.
Proof. intros Hm. apply triple_calm_inv, Hm. Qed.

Lemma keeps_emit (e : Event) : keeps (emit e).
Proof. apply triple_emit_inv. intros f Hf. exact Hf. Qed.

Lemma keeps_assign (g : ProcessingStatus -> ProcessingStatus) :
  (forall s, extraction_status (g s) = extraction_status s) -> keeps (assign g).
Proof.
  intros Hg. apply triple_assign_inv. intros f Hf.
  cbn [store_status processing_status]. rewrite Hg. exact Hf.
Qed.

Lemma keeps_persist (doc : UpdateDoc) :
  keeps (update_project_partial_sync pid doc).
Proof. apply triple_persist_inv. intros f Hf. exact Hf. Qed.

Lemma keeps_store (d : ScrapedData) :
  keeps (modify_world (W.on_store (fun l => l ++ [d]))).
Proof. apply triple_modify_world_inv. intros w H. exact H. Qed.

(** A poll that answers [true] has found the client flagged in the
    registry; one that answers [false] has left the registry alone. *)
Lemma outcome_poll R E :
  triple RUN0 (poll_interrupt env client_id)
    (fun stop => inv (ended_as STATUS_RUNNING)
                   (fun reg => if stop : bool then flag client_id reg = true
                               else reg = reg0)) R E.
Proof.
  intros [w f] [H1 H2]. unfold poll_interrupt. cbn [fst snd] in *.
  assert (Hw : forall w' : World,
             active_extractions w' = active_extractions w ->
             inv (ended_as STATUS_RUNNING)
               (fun reg => if should_interrupt client_id w' then flag client_id reg = true
                           else reg = reg0) (w', count_poll f)).
  { intros w' Hw'. split; [exact H1 | ]. cbn [fst].
    unfold should_interrupt, flag. rewrite Hw'.
    destruct (active_extractions w !! client_id) as [e | ]; [ | exact H2 ].
    destruct (interrupt_requested e); [ reflexivity | exact H2 ]. }
  destruct (interrupt_before_check env (checks f)); [ | apply Hw; reflexivity ].
  unfold interrupt_extraction.
  destruct (active_extractions w !! client_id) as [e | ] eqn:He; cbn [snd];
    [ | apply Hw; reflexivity ].
  split; [exact H1 | ]. cbn [fst]. unfold should_interrupt, flag. world_cbn.
  rewrite lookup_insert_eq. reflexivity.
Qed.

Lemma outcome_handle_interruption R E :
  triple (inv (ended_as STATUS_RUNNING) (fun reg => flag client_id reg = true))
    (handle_interruption client_id pid) (fun _ => OFF) R E.
Proof.
  unfold handle_interruption.
  bind_as triple_get_world_inv w0.
  destruct (active_extractions w0 !! client_id) as [e | ] eqn:He.
  - bind_calm.
    eapply triple_bind;
      [ eapply triple_modify_world_inv with
          (WP' := fun reg => status <$> reg !! client_id = Some STATUS_INTERRUPTED)
      | intros ? ].
    { intros w _. world_cbn. rewrite lookup_insert_eq. reflexivity. }
    bind_calm.
    eapply triple_bind;
      [ eapply triple_assign_inv with (FP' := ended_as STATUS_INTERRUPTED)
      | intros ? ].
    { intros f _. reflexivity. }
    bind_calm.
    eapply triple_bind;
      [ eapply triple_persist_inv with (FP' := ended_as STATUS_INTERRUPTED)
      | intros ? ].
    { intros f Hf. exact Hf. }
    bind_calm. eapply triple_calm_inv. calm_tac.
  - apply triple_absurd. intros st [_ [Hf Heq]]. cbn beta in Heq.
    unfold flag in Hf. rewrite Heq, He in Hf. discriminate.
Qed.

(** The two loops' common shape: poll, then stop or go on. *)
Lemma keeps_interruptible {A} (text : string) (cont : M A) (Q : A -> St -> Prop) :
  triple RUN0 cont Q OFF RUN0 ->
  triple RUN0
    (stop ← poll_interrupt env client_id;
     if stop : bool then
       send_log client_id log_warning text;;
       handle_interruption client_id pid;;
       return_
     else cont) Q OFF RUN0.
Proof.
  intros Hc. eapply triple_bind; [ apply outcome_poll | intros [ | ] ].
  - bind_calm. bind_with outcome_handle_interruption.
    apply triple_return. auto.
  - exact Hc.
Qed.

Ltac keep_tac :=
  repeat lazymatch goal with
    | |- triple _ (mret _) _ _ _ => apply keeps_ret
    | |- triple _ (raise _) _ _ _ => apply keeps_raise
    | |- triple _ utcnow _ _ _ => apply keeps_calm, calm_utcnow
    | |- triple _ get_world _ _ _ => apply keeps_calm, calm_get_world
    | |- triple _ get_status _ _ _ => apply keeps_calm, calm_get_status
    | |- triple _ (send_log _ _ _) _ _ _ => apply keeps_calm, calm_send_log
    | |- triple _ (put_message _ _ _) _ _ _ => apply keeps_calm, calm_put_message
    | |- triple _ (log_match_details _ _ _) _ _ _ =>
        apply keeps_calm, calm_log_match_details
    | |- triple _ (update_project_partial_sync _ _) _ _ _ => apply keeps_persist
    | |- triple _ (modify_world _) _ _ _ => apply keeps_store
    | |- triple _ (emit _) _ _ _ => apply keeps_emit
    | |- triple _ (assign _) _ _ _ => apply keeps_assign; intros ?; reflexivity
    | |- triple _ (poll_interrupt _ _ ≫= _) _ _ _ => apply keeps_interruptible
    | |- triple _ (_ ≫= _) _ _ _ => apply keeps_bind; [ | intros ? ]
    | |- triple _ (try_ _ _) _ _ _ => apply keeps_try; [ | intros ? ]
    | |- triple _ (match ?x with _ => _ end) _ _ _ => destruct x
    end.

Lemma keeps_filter_pages (keywords : list Py.value) (with_meta : bool)
    (total : nat) (pages : list string) :
  forall (i : nat) (a : Filtered),
    keeps (filter_pages env client_id pid keywords with_meta total i pages a).
Proof.
  induction pages as [ | page_url rest IH]; intros i a; cbn [filter_pages].
  - apply keeps_ret.
  - apply keeps_interruptible.
    apply keeps_bind; [ | intros a2; apply IH ].
    unfold check_one, check_page_for_keywords. keep_tac.
Qed.

Lemma keeps_select_pages (search_keywords : option (list Py.value))
    (with_meta : bool) (limit : Z) (pages : list string) :
  keeps (select_pages env client_id pid search_keywords with_meta limit pages).
Proof.
  unfold select_pages, join_keywords.
  destruct (Py.truthy search_keywords); [ | apply keeps_ret ].
  apply keeps_bind; [ keep_tac | intros joined ].
  apply keeps_bind; [ keep_tac | intros _ ].
  apply keeps_bind; [ apply keeps_filter_pages | intros a ].
  keep_tac.
Qed.

Lemma keeps_scrape_pages (a : Filtered) (total : nat) (pages : list string) :
  forall (i : nat) (scraped : list string),
    keeps (scrape_pages env client_id pid a total i pages scraped).
Proof.
  induction pages as [ | page_url rest IH]; intros i scraped; cbn [scrape_pages].
  - apply keeps_ret.
  - apply keeps_bind; [ | intros scraped'; apply keeps_interruptible, IH ].
    unfold scrape_one, log_page_keywords, log_page_info. keep_tac.
Qed.

Lemma outcome_complete (search_keywords : option (list Py.value)) (a : Filtered)
    (scraped : list string) R E :
  triple RUN0 (complete client_id pid search_keywords a scraped)
    (fun _ => DONE) R E.
Proof.
  unfold complete. bind_calm.
  eapply triple_bind;
    [ eapply triple_assign_inv with (FP' := ended_as STATUS_COMPLETED) | intros ? ].
  { intros f _. reflexivity. }
  bind_calm.
  eapply triple_bind;
    [ eapply triple_persist_inv with (FP' := ended_as STATUS_COMPLETED) | intros ? ].
  { intros f Hf. exact Hf. }
  eapply triple_bind;
    [ eapply triple_persist_inv with (FP' := ended_as STATUS_COMPLETED) | intros ? ].
  { intros f Hf. exact Hf. }
  bind_calm. eapply triple_calm_inv. calm_tac.
Qed.

Lemma outcome_pipeline (url : string) (limit : Z)
    (search_keywords : option (list Py.value)) (with_meta : bool) :
  triple RUN0 (pipeline env url pid client_id limit search_keywords with_meta)
    (fun _ => DONE) OFF RUN0.
Proof.
  unfold pipeline.
  apply keeps_bind; [ unfold log_start, join_keywords; keep_tac | intros _ ].
  apply keeps_bind; [ unfold process_robots; keep_tac | intros _ ].
  apply keeps_bind; [ unfold process_sitemap; keep_tac | intros sitemap_pages ].
  apply keeps_bind; [ apply keeps_select_pages | intros [pages_to_process a] ].
  apply keeps_bind; [ keep_tac | intros _ ].
  apply keeps_bind; [ apply keeps_scrape_pages | intros scraped ].
  apply outcome_complete.
Qed.

Lemma outcome_on_unexpected_error (e : string) R E :
  triple RUN0 (on_unexpected_error client_id pid e) (fun _ => ERR) R E.
Proof.
  unfold on_unexpected_error. bind_calm.
  bind_as triple_get_world_inv w0.
  eapply triple_bind with
    (Q' := fun _ => inv (ended_as STATUS_RUNNING)
                      (fun reg => status <$> reg !! client_id
                                  = (fun _ => STATUS_ERROR) <$> reg0 !! client_id)).
  { destruct (active_extractions w0 !! client_id) as [entry | ] eqn:He.
    - bind_calm. eapply triple_modify_world_inv.
      intros w [H1 H2]. world_cbn. rewrite lookup_insert_eq.
      rewrite <- H1, H2, He. reflexivity.
    - apply triple_ret. intros st [H [H1 H2]]. split; [exact H | ].
      cbn beta in *. rewrite <- H1, H2, He. reflexivity. }
  intros ?. bind_calm.
  eapply triple_bind;
    [ eapply triple_assign_inv with (FP' := ended_as STATUS_ERROR) | intros ? ].
  { intros f _. reflexivity. }
  bind_calm.
  eapply triple_persist_inv with (FP' := ended_as STATUS_ERROR).
  intros f Hf. exact Hf.
Qed.

End Outcome.

(** How a run ends, in the frame and in the registry. *)
Lemma run_outcome (env : Env) (j : Job) (w : World) :
  let st' := run_extraction_thread env j w in
  (extraction_status (processing_status st'.2) = STATUS_COMPLETED
   /\ active_extractions st'.1 = active_extractions w)
  \/ (extraction_status (processing_status st'.2) = STATUS_INTERRUPTED
      /\ status <$> active_extractions st'.1 !! j_client_id j
         = Some STATUS_INTERRUPTED)
  \/ (extraction_status (processing_status st'.2) = STATUS_ERROR
      /\ status <$> active_extractions st'.1 !! j_client_id j
         = (fun _ => STATUS_ERROR) <$> active_extractions w !! j_client_id j).
Proof.
  cbn zeta.
  set (POST := fun st' : St =>
    (extraction_status (processing_status st'.2) = STATUS_COMPLETED
     /\ active_extractions st'.1 = active_extractions w)
    \/ (extraction_status (processing_status st'.2) = STATUS_INTERRUPTED
        /\ status <$> active_extractions st'.1 !! j_client_id j
           = Some STATUS_INTERRUPTED)
    \/ (extraction_status (processing_status st'.2) = STATUS_ERROR
        /\ status <$> active_extractions st'.1 !! j_client_id j
           = (fun _ => STATUS_ERROR) <$> active_extractions w !! j_client_id j)).
  change (POST (run_extraction_thread env j w)).
  assert (Hp : forall url limit kws meta,
             triple (inv (fun f => extraction_status (processing_status f)
                                   = STATUS_RUNNING)
                       (fun reg => reg = active_extractions w))
               (pipeline env url (j_project_id j) (j_client_id j) limit kws meta)
               (fun _ => POST) POST
               (inv (fun f => extraction_status (processing_status f)
                              = STATUS_RUNNING)
                  (fun reg => reg = active_extractions w))).
  { intros. eapply triple_weaken; [ apply outcome_pipeline | .. ].
    - intros st H. exact H.
    - intros ? st H. left. exact H.
    - intros st H. right. left. exact H.
    - intros st H. exact H. }
  assert (Hh : forall e,
             triple (inv (fun f => extraction_status (processing_status f)
                                   = STATUS_RUNNING)
                       (fun reg => reg = active_extractions w))
               (on_unexpected_error (j_client_id j) (j_project_id j) e)
               (fun _ => POST) POST POST).
  { intros e. eapply triple_weaken;
      [ apply (outcome_on_unexpected_error (j_client_id j) (j_project_id j)
                 (active_extractions w) e POST POST) | .. ].
    - intros st H. exact H.
    - intros ? st H. right. right. exact H.
    - intros st H. exact H.
    - intros st H. exact H. }
  unfold run_extraction_thread, clean_up, modify_world. cbn [fst snd].
  match goal with
  | |- context [try_ ?m ?h ?st0] =>
      pose proof (triple_try m h _ _ _ _ _ (Hp _ _ _ _) Hh st0) as H;
      assert (H0 : inv (fun f => extraction_status (processing_status f)
                                 = STATUS_RUNNING)
                     (fun reg => reg = active_extractions w) st0);
      [ split; reflexivity | ];
      specialize (H H0); destruct (try_ m h st0) as [[[] | | e] [w' f']]
  end; exact H.
Qed.

(** X19. When a worker ends, the registry agrees with the job's final state
    unless the job completed: an interrupted job's client is registered as
    [interrupted], a failed job's client (if registered) as [error], but
    after a completed job the registry is exactly what it was before the
    run, so that a client registered as [running] stays so. *)
Theorem registry_follows_final_state (env : Env) (j : Job) (w : World) :
  let st' := run_extraction_thread env j w in
  match extraction_status (processing_status st'.2) with
  | STATUS_COMPLETED => active_extractions st'.1 = active_extractions w
  | STATUS_INTERRUPTED =>
      status <$> active_extractions st'.1 !! j_client_id j = Some STATUS_INTERRUPTED
  | STATUS_ERROR =>
      status <$> active_extractions st'.1 !! j_client_id j
      = (fun _ => STATUS_ERROR) <$> active_extractions w !! j_client_id j
  | STATUS_RUNNING => False
  end.
Proof.
  cbn zeta. destruct (run_outcome env j w) as [[-> H] | [[-> H] | [-> H]]]; exact H.
Qed.

(** As long as the client is registered with a state that is not terminal,
    the consumer goes on, whatever its sends do. *)
Lemma consume_running (manager : ConnectionManager) (client_id : string)
    (entry : RegistryEntry) (turns : nat) :
  forall w : World,
    active_extractions w !! client_id = Some entry ->
    is_terminal (status entry) = false ->
    is_Some (message_queues w !! client_id) ->
    let r := consume_messages turns manager client_id w in
    r.1.2 = false
    /\ active_extractions r.2 = active_extractions w
    /\ is_Some (message_queues r.2 !! client_id).
Proof.
  induction turns as [ | n IH]; intros w He Hrun [q Hq]; cbn [consume_messages].
  - rewrite Hq. rewrite bool_decide_eq_false_2 by discriminate.
    cbn [fst snd]. rewrite Hq. eauto.
  - unfold consume_turn. rewrite Hq. destruct q as [ | m rest].
    + rewrite He, Hrun. apply IH; eauto.
    + assert (Hq' : is_Some (message_queues (W.on_queues <[client_id := rest]> w)
                               !! client_id)).
      { world_cbn. rewrite lookup_insert_eq. eauto. }
      specialize (IH (W.on_queues <[client_id := rest]> w) He Hrun Hq').
      cbn zeta in IH. destruct IH as (H1 & H2 & H3).
      destruct (send_personal_json_raises manager); cbn [fst snd];
        repeat split; assumption.
Qed.

(** X20. After a job that completed, the consumer of its client never
    stops: the client is still registered as it was when the worker
    started, so with a state that is not terminal, and the consumer keeps
    polling an empty queue; the registry entry is never removed. *)
Theorem completed_job_never_releases_consumer (env : Env) (j : Job) (w : World)
    (manager : ConnectionManager) (entry : RegistryEntry) (turns : nat) :
  extraction_status (processing_status (run_extraction_thread env j w).2)
  = STATUS_COMPLETED ->
  active_extractions w !! j_client_id j = Some entry ->
  is_terminal (status entry) = false ->
  is_Some (message_queues w !! j_client_id j) ->
  let r := consume_messages turns manager (j_client_id j)
             (run_extraction_thread env j w).1 in
  r.1.2 = false
  /\ active_extractions r.2 !! j_client_id j = Some entry.
Proof.
  intros Hc He Hrun Hq. cbn zeta.
  destruct (run_outcome env j w) as [[_ H] | [[H _] | [H _]]];
    [ | rewrite Hc in H; discriminate | rewrite Hc in H; discriminate ].
  destruct (effects_append _ _ _ _ (run_extraction_thread_effects env j w))
    as (_ & _ & more & Hmore).
  cbn [fst] in Hmore.
  edestruct (consume_running manager (j_client_id j) entry turns
               (run_extraction_thread env j w).1) as (H1 & H2 & _).
  - rewrite H. exact He.
  - exact Hrun.
  - rewrite Hmore. destruct Hq as [q ->]. cbn. eauto.
  - split; [exact H1 | ]. rewrite H2, H. exact He.
Qed.

(** X21. After a job that ended interrupted or in error, the consumer
    forwards everything that is queued for the client, in order, then
    stops and removes the client's queue and registry entry. *)
Theorem stopped_job_releases_consumer (env : Env) (j : Job) (w : World)
    (manager : ConnectionManager) (q : list Message) (turns : nat) :
  extraction_status (processing_status (run_extraction_thread env j w).2)
  <> STATUS_COMPLETED ->
  send_personal_json_raises manager = None ->
  message_queues (run_extraction_thread env j w).1 !! j_client_id j = Some q ->
  (length q < turns)%nat ->
  let r := consume_messages turns manager (j_client_id j)
             (run_extraction_thread env j w).1 in
  r.1.1 = q
  /\ r.1.2 = true
  /\ message_queues r.2 !! j_client_id j = None
  /\ active_extractions r.2 !! j_client_id j = None.
Proof.
  intros Hc Hsend Hq Hlen. cbn zeta.
  assert (Hover : match active_extractions (run_extraction_thread env j w).1
                        !! j_client_id j with
                  | None => true
                  | Some e => is_terminal (status e)
                  end = true).
  { destruct (run_outcome env j w) as [[H _] | [[_ H] | [_ H]]];
      [ destruct (Hc H) | | ];
      destruct (active_extractions (run_extraction_thread env j w).1
                  !! j_client_id j) as [e | ]; try reflexivity.
    - cbn in H. injection H as ->. reflexivity.
    - destruct (active_extractions w !! j_client_id j); cbn in H;
        [ injection H as ->; reflexivity | discriminate ]. }
  pose proof (consume_drain manager (j_client_id j) q _ turns Hq Hover Hlen) as H.
  cbn zeta in H. rewrite Hsend in H. destruct H as (H1 & H2 & H3 & H4).
  split; [exact H1 | ]. split; [exact H2 | ].
  rewrite H3, H4. split; apply lookup_delete_eq.
Qed.

(** X22. When the first send of a submission raises, no worker is started
    but the consumer already is, and it never stops: the client stays
    registered as running with an empty queue, and nothing is left that
    would change that. *)
Theorem failed_send_never_releases_consumer (env : Env) (user_email site : string)
    (manager : ConnectionManager) (scrape_mode : string) (limit : Z)
    (client_id : option string) (keywords : option (list Py.value))
    (meta : bool) (w : World) (e : string) (turns : nat) :
  site <> ""%string ->
  send_personal_json_raises manager = Some e ->
  let pid := ObjectId env (size (projects w)) in
  let cid := client_id_of client_id pid in
  let w' := (add_project_with_scraping env user_email site (Some manager)
               scrape_mode limit client_id keywords meta w).2 in
  let r := consume_messages turns manager cid w' in
  thread_pool w' = thread_pool w
  /\ r.1.1 = []
  /\ r.1.2 = false
  /\ entry_core <$> active_extractions r.2 !! cid = Some (pid, STATUS_RUNNING, false).
Proof.
  intros Hurl Hsend. cbn zeta.
  unfold add_project_with_scraping.
  rewrite bool_decide_eq_false_2 by exact Hurl.
  rewrite Hsend. fold (client_id_of client_id (ObjectId env (size (projects w)))).
  cbn [snd]. split; [reflexivity | ].
  match goal with
  | |- context [consume_messages turns manager ?c ?w1] =>
      set (cid := c); set (w1' := w1)
  end.
  assert (Hq : message_queues w1' !! cid = Some []).
  { subst w1'. world_cbn. apply lookup_insert_eq. }
  assert (He : exists entry, active_extractions w1' !! cid = Some entry
                             /\ status entry = STATUS_RUNNING
                             /\ entry_core entry
                                = (ObjectId env (size (projects w)),
                                   STATUS_RUNNING, false)).
  { subst w1'. world_cbn. rewrite lookup_insert_eq. eexists. repeat split. }
  destruct He as (entry & He & Hst & Hcore).
  assert (Hsent : forall n w2, message_queues w2 !! cid = Some [] ->
                    active_extractions w2 !! cid = Some entry ->
                    (consume_messages n manager cid w2).1.1 = []).
  { induction n as [ | n IH]; intros w2 H1 H2; cbn [consume_messages];
      [ reflexivity | ].
    unfold consume_turn. rewrite H1, H2, Hst. cbn [is_terminal].
    apply IH; assumption. }
  destruct (consume_running manager cid entry turns w1' He) as (H1 & H2 & _).
  - rewrite Hst. reflexivity.
  - rewrite Hq. eauto.
  - split; [ apply Hsent; assumption | ]. split; [exact H1 | ].
    rewrite H2, He. cbn. rewrite Hcore. reflexivity.
Qed.

Lemma completed_job_never_releases_consumer_witness :
  (consume_messages 7 Demo.manager "c1"
     (run_extraction_thread
        (Demo.env_of (inl ["a"%string]) Demo.fetch_ab Demo.never)
        (Demo.job None)
        (Demo.submitted
           (Demo.env_of (inl ["a"%string]) Demo.fetch_ab Demo.never) None)).1).1.2
  = false.
Proof.
  refine (proj1 (completed_job_never_releases_consumer
                   (Demo.env_of (inl ["a"%string]) Demo.fetch_ab Demo.never)
                   (Demo.job None)
                   (Demo.submitted
                      (Demo.env_of (inl ["a"%string]) Demo.fetch_ab Demo.never)
                      None)
                   Demo.manager _ 7 _ _ _ _)).
  - vm_compute. reflexivity.
  - vm_compute. reflexivity.
  - reflexivity.
  - vm_compute. eexists. reflexivity.
Defined.

Lemma stopped_job_releases_consumer_witness :
  (consume_messages 40 Demo.manager "c1"
     (run_extraction_thread
        (Demo.env_of (inl ["a"; "b"]%string) Demo.fetch_ab Demo.never)
        (Demo.job None)
        (Demo.flagged
           (Demo.env_of (inl ["a"; "b"]%string) Demo.fetch_ab Demo.never)
           None)).1).1.2
  = true.
Proof.
  refine (proj1 (proj2 (stopped_job_releases_consumer
                   (Demo.env_of (inl ["a"; "b"]%string) Demo.fetch_ab Demo.never)
                   (Demo.job None)
                   (Demo.flagged
                      (Demo.env_of (inl ["a"; "b"]%string) Demo.fetch_ab Demo.never)
                      None)
                   Demo.manager _ 40 _ _ _ _))).
  - vm_compute. discriminate.
  - reflexivity.
  - vm_compute. reflexivity.
  - vm_compute. lia.
Defined.

Lemma failed_send_never_releases_consumer_witness :
  (consume_messages 9 {| send_personal_json_raises := Some "closed"%string |} "c1"
     (add_project_with_scraping
        (Demo.env_of (inl ["a"%string]) Demo.fetch_ab Demo.never)
        "u@example.com" "https://example.com"
        (Some {| send_personal_json_raises := Some "closed"%string |})
        "limited" 5 (Some "c1"%string) None true Demo.world0).2).1.2
  = false.
Proof.
  exact (proj1 (proj2 (proj2
           (failed_send_never_releases_consumer
              (Demo.env_of (inl ["a"%string]) Demo.fetch_ab Demo.never)
              "u@example.com" "https://example.com"
              {| send_personal_json_raises := Some "closed"%string |}
              "limited" 5 (Some "c1"%string) None true Demo.world0 "closed" 9
              ltac:(discriminate) ltac:(reflexivity))))).
Defined.

(** ** Whole runs *)

Lemma chatty_ret {A} (a : A) : chatty (mret a).
Proof. intros w f. exists a, w. split; reflexivity. Qed.

Lemma chatty_bind {A B} (m : M A) (k : A -> M B) :
  chatty m -> (forall a, chatty (k a)) -> chatty (m ≫= k).
Proof.
  intros Hm Hk w f. destruct (Hm w f) as (a & w1 & E1 & R1).
  destruct (Hk a w1 f) as (b & w2 & E2 & R2).
  exists b, w2. unfold mbind, M_bind, bind. rewrite E1, E2.
  split; [reflexivity | congruence].
Qed.

Lemma chatty_utcnow : chatty utcnow.
Proof. intros w f. eexists _, _. split; reflexivity. Qed.

Lemma chatty_get_status : chatty get_status.
Proof. intros w f. eexists _, _. split; reflexivity. Qed.

Lemma chatty_put_message (client_id : string) (t : LogType) (b : Body) :
  chatty (put_message client_id t b).
Proof.
  intros w f. unfold put_message, mbind, M_bind, bind, get_world. cbn [fst].
  destruct (message_queues w !! client_id); eexists _, _; split; reflexivity.
Qed.

Lemma chatty_send_log (client_id : string) (t : LogType) (text : string) :
  chatty (send_log client_id t text).
Proof. apply chatty_put_message. Qed.

Ltac chatty_tac :=
  repeat lazymatch goal with
    | |- chatty (mret _) => apply chatty_ret
    | |- chatty utcnow => apply chatty_utcnow
    | |- chatty (send_log _ _ _) => apply chatty_send_log
    | |- chatty (put_message _ _ _) => apply chatty_put_message
    | |- chatty (_ ≫= _) => apply chatty_bind; [ | intros ? ]
    | |- chatty (match ?x with _ => _ end) => destruct x
    end.

Lemma chatty_log_page_info (env : Env) (client_id : string) (d : ScrapedData) :
  chatty (log_page_info env client_id d).
Proof. unfold log_page_info. chatty_tac. Qed.

Lemma chatty_log_page_keywords (client_id page_url : string) (a : Filtered) :
  chatty (log_page_keywords client_id page_url a).
Proof. unfold log_page_keywords. chatty_tac. Qed.

Lemma chatty_log_match_details (client_id : string) (contexts : Keywords.Contexts)
    (matches : list string) :
  chatty (log_match_details client_id contexts matches).
Proof.
  induction matches as [ | kw rest IH]; cbn [log_match_details].
  - apply chatty_ret.
  - apply chatty_bind; [ apply chatty_send_log | intros _; exact IH ].
Qed.

Lemma triple_chatty {A} (m : M A) FP CP R E :
  chatty m -> triple (cinv FP CP) m (fun _ => cinv FP CP) R E.
Proof.
  intros Hm [w f] [HF HC]. destruct (Hm w f) as (a & w' & -> & Hc).
  split; [exact HF | ]. cbn [fst]. rewrite Hc. exact HC.
Qed.

Lemma cinv_emit (e : Event) (FP FP' : Frame -> Prop) CP R E :
  (forall f, FP f -> FP' (push e f)) ->
  triple (cinv FP CP) (emit e) (fun _ => cinv FP' CP) R E.
Proof. intros H [w f] [HF HC]. split; [apply H, HF | exact HC]. Qed.

Lemma cinv_assign (g : ProcessingStatus -> ProcessingStatus)
    (FP FP' : Frame -> Prop) CP R E :
  (forall f, FP f -> FP' (store_status (g (processing_status f)) f)) ->
  triple (cinv FP CP) (assign g) (fun _ => cinv FP' CP) R E.
Proof. intros H [w f] [HF HC]. split; [apply H, HF | exact HC]. Qed.

Lemma cinv_get_status (FP : Frame -> Prop) CP R E :
  triple (cinv FP CP) get_status
    (fun s => cinv (fun f => FP f /\ processing_status f = s) CP) R E.
Proof. intros [w f] [HF HC]. repeat split; assumption. Qed.

Lemma cinv_persist (pid : string) (doc : UpdateDoc) (FP FP' : Frame -> Prop)
    (CP CP' : _ -> Prop) R E :
  (forall f, FP f -> FP' (push (EvPersist pid doc) f)) ->
  (forall c, CP c -> CP' (alter (apply_doc doc) pid c.1.1, c.1.2, c.2)) ->
  triple (cinv FP CP) (update_project_partial_sync pid doc)
    (fun _ => cinv FP' CP') R E.
Proof.
  intros H1 H2 [w f] [HF HC]. split; [apply H1, HF | exact (H2 _ HC)].
Qed.

Lemma cinv_store (d : ScrapedData) (FP : Frame -> Prop) (CP CP' : _ -> Prop) R E :
  (forall c, CP c -> CP' (c.1.1, c.1.2 ++ [d], c.2)) ->
  triple (cinv FP CP) (modify_world (W.on_store (fun l => l ++ [d])))
    (fun _ => cinv FP CP') R E.
Proof. intros H [w f] [HF HC]. split; [exact HF | exact (H _ HC)]. Qed.

Lemma cinv_registry (g : gmap string RegistryEntry -> gmap string RegistryEntry)
    (FP : Frame -> Prop) (CP CP' : _ -> Prop) R E :
  (forall c, CP c -> CP' (c.1.1, c.1.2, g c.2)) ->
  triple (cinv FP CP) (modify_world (W.on_registry g)) (fun _ => cinv FP CP') R E.
Proof. intros H [w f] [HF HC]. split; [exact HF | exact (H _ HC)]. Qed.

(** The world read by [get_world] is the one of the state. *)
Lemma triple_get_world_at {A} (k : World -> M A) (P : St -> Prop)
    (Q : A -> St -> Prop) R E :
  (forall w0, triple (fun st => P st /\ st.1 = w0) (k w0) Q R E) ->
  triple P (get_world ≫= k) Q R E.
Proof.
  intros H [w f] HP. unfold mbind, M_bind, bind, get_world. cbn [fst].
  apply (H w (w, f)). split; [exact HP | reflexivity].
Qed.

(** A pure fact of the precondition, or of its frame. *)
Lemma triple_pure_l {A} (phi : Prop) (m : M A) (P : St -> Prop)
    (Q : A -> St -> Prop) R E :
  (phi -> triple P m Q R E) -> triple (fun st => P st /\ phi) m Q R E.
Proof. intros H st [HP Hphi]. apply H; assumption. Qed.

Lemma cinv_pure {A} (phi : Prop) (m : M A) (FP : Frame -> Prop) CP
    (Q : A -> St -> Prop) R E :
  (forall f, FP f -> phi) ->
  (phi -> triple (cinv FP CP) m Q R E) ->
  triple (cinv FP CP) m Q R E.
Proof. intros H1 H2 st H. apply H2; [ apply (H1 _ (proj1 H)) | exact H ]. Qed.

Section Run.

Variable env : Env.
Variables client_id pid : string.
Variable P0 : gmap string Project.
Variable S0 : list ScrapedData.
Variable reg0 : gmap string RegistryEntry.
Hypothesis unflagged : flag client_id reg0 = false.

(** The frame of a worker that goes on: [c] polls so far, the pages
    [checked] fetched by the keyword check and the pages [done] handed to
    the scraper. *)
#[local] Abbreviation F c checked done :=
  (fun f : Frame =>
     extraction_status (processing_status f) = STATUS_RUNNING
     /\ pages_scraped (processing_status f) = 0%nat
     /\ checks f = c
     /\ checked_urls (trace f) = checked
     /\ scraped_urls (trace f) = done).
(** The core meanwhile: the project's list of scraped pages and the
    registry are as at the start, the page store has grown by the data of
    the pages [done]. *)
#[local] Abbreviation C a done :=
  (fun c : gmap string Project * list ScrapedData * gmap string RegistryEntry =>
     scraped_pages <$> c.1.1 !! pid = scraped_pages <$> P0 !! pid
     /\ c.1.2 = S0 ++ omap (stored_page env a) done
     /\ c.2 = reg0).
#[local] Abbreviation PL a c checked done := (cinv (F c checked done) (C a done)).
#[local] Abbreviation NEVER := (fun _ : St => False).

Lemma F_push (c : nat) (checked done : list string) (e : Event) (f : Frame) :
  (forall u, e <> EvScrape u) -> (forall u, e <> EvCheck u) ->
  F c checked done f -> F c checked done (push e f).
Proof.
  intros He1 He2 (H1 & H2 & H3 & H4 & H5).
  split; [exact H1 | ]. split; [exact H2 | ]. split; [exact H3 | ].
  cbn [push trace]. rewrite checked_urls_push, scraped_urls_push, H4, H5.
  destruct e; rewrite ?app_nil_r; try (split; reflexivity).
  - destruct (He2 page_url eq_refl).
  - destruct (He1 page_url eq_refl).
Qed.

Lemma F_store (c : nat) (checked done : list string)
    (g : ProcessingStatus -> ProcessingStatus) (f : Frame) :
  (forall s, extraction_status (g s) = extraction_status s) ->
  (forall s, pages_scraped (g s) = pages_scraped s) ->
  F c checked done f -> F c checked done (store_status (g (processing_status f)) f).
Proof.
  intros Hg1 Hg2 (H1 & H2 & H3 & H4 & H5).
  cbn [store_status processing_status checks trace].
  rewrite Hg1, Hg2, checked_urls_push, scraped_urls_push, H4, H5, !app_nil_r.
  repeat split; assumption.
Qed.

Lemma F_scrape (c : nat) (checked done : list string) (u : string) (f : Frame) :
  F c checked done f -> F c checked (done ++ [u]) (push (EvScrape u) f).
Proof.
  intros (H1 & H2 & H3 & H4 & H5).
  cbn [push processing_status checks trace].
  rewrite checked_urls_push, scraped_urls_push, H4, H5, app_nil_r.
  repeat split; assumption.
Qed.

Lemma F_check (c : nat) (checked done : list string) (u : string) (f : Frame) :
  F c checked done f -> F c (checked ++ [u]) done (push (EvCheck u) f).
Proof.
  intros (H1 & H2 & H3 & H4 & H5).
  cbn [push processing_status checks trace].
  rewrite checked_urls_push, scraped_urls_push, H4, H5, app_nil_r.
  repeat split; assumption.
Qed.

(** A poll before which no request arrives. *)
Lemma quiet_poll a (c : nat) (checked done : list string) R E :
  interrupt_before_check env c = false ->
  triple (PL a c checked done) (poll_interrupt env client_id)
    (fun stop st => PL a (S c) checked done st /\ stop = false) R E.
Proof.
  intros Hq [w f] [(H1 & H2 & H3 & H4 & H5) (H6 & H7 & H8)].
  unfold poll_interrupt. cbn [fst snd core] in *.
  rewrite H3, Hq. split.
  - split; [ | repeat split; assumption ].
    cbn [snd count_poll processing_status checks trace].
    rewrite H3. repeat split; assumption.
  - unfold should_interrupt. fold (flag client_id (active_extractions w)).
    rewrite H8. exact unflagged.
Qed.

Lemma C_skip a (done : list string) (u : string) c :
  stored_page env a u = None -> C a done c -> C a (done ++ [u]) c.
Proof.
  intros Hu (H1 & H2 & H3). split; [exact H1 | ]. split; [ | exact H3 ].
  rewrite omap_app. cbn [omap list_omap]. rewrite Hu, app_nil_r. exact H2.
Qed.

Lemma C_add a (done : list string) (u : string) (d : ScrapedData) c :
  stored_page env a u = Some d -> C a done c ->
  C a (done ++ [u]) (c.1.1, c.1.2 ++ [d], c.2).
Proof.
  intros Hu (H1 & H2 & H3). split; [exact H1 | ]. split; [ | exact H3 ].
  cbn [fst snd]. rewrite omap_app. cbn [omap list_omap].
  rewrite Hu, H2, <- app_assoc. reflexivity.
Qed.

Ltac scrape_start a c checked done u :=
  eapply triple_bind; [ apply triple_chatty, chatty_send_log | intros ? ];
  eapply triple_bind; [ apply triple_chatty, chatty_log_page_keywords | intros ? ];
  eapply triple_bind;
    [ apply cinv_emit with (FP' := F c checked (done ++ [u])); apply F_scrape
    | intros ? ].

(** The [try] around the scrape of one page, with its handler: the page is
    handed to the scraper, and counts as scraped when its data is stored. *)
Lemma run_try_scrape a (c : nat) (checked done scraped : list string)
    (u : string) (total i : nat) R E :
  triple (PL a c checked done)
    (try_ (scrape_one env client_id u a total i scraped)
       (fun e =>
          let error_msg := "Error scraping " +:+ u +:+ ": " +:+ e in
          send_log client_id log_error error_msg;;
          assign (Upd.add_error error_msg);;
          mret scraped))
    (fun s' st =>
       PL a c checked (done ++ [u]) st
       /\ s' = scraped ++ match stored_page env a u with
                          | Some _ => [u]
                          | None => []
                          end) R E.
Proof.
  assert (Hfail : stored_page env a u = None ->
             forall e,
               triple (cinv (F c checked (done ++ [u])) (C a done))
                 (let error_msg := "Error scraping " +:+ u +:+ ": " +:+ e in
                  send_log client_id log_error error_msg;;
                  assign (Upd.add_error error_msg);;
                  mret scraped)
                 (fun s' st => PL a c checked (done ++ [u]) st
                               /\ s' = scraped ++ []) R E).
  { intros Hu e. cbn zeta.
    eapply triple_bind; [ apply triple_chatty, chatty_send_log | intros ? ].
    eapply triple_bind;
      [ apply cinv_assign with (FP' := F c checked (done ++ [u])) | intros ? ].
    { intros f Hf. apply F_store; [ reflexivity | reflexivity | exact Hf ]. }
    apply triple_ret. intros st [H1 H2]. split; [ | symmetry; apply app_nil_r ].
    split; [exact H1 | ]. apply C_skip; assumption. }
  unfold scrape_one.
  destruct (scrape_website env u) as [d | e0] eqn:Hs;
    [ destruct (store_in_mongodb env (merge_meta u a d)) as [e1 | ] eqn:Hm | ].
  - assert (Hu : stored_page env a u = None).
    { unfold stored_page. rewrite Hs, Hm. reflexivity. }
    rewrite Hu.
    eapply triple_try with (E' := cinv (F c checked (done ++ [u])) (C a done));
      [ | apply Hfail, Hu ].
    scrape_start a c checked done u.
    eapply triple_bind;
      [ apply cinv_emit with (FP' := F c checked (done ++ [u])) | intros ? ].
    { intros f Hf. apply F_push; [ discriminate | discriminate | exact Hf ]. }
    apply triple_raise. auto.
  - assert (Hu : stored_page env a u = Some (merge_meta u a d)).
    { unfold stored_page. rewrite Hs, Hm. reflexivity. }
    rewrite Hu.
    eapply triple_try with (E' := NEVER);
      [ | intros e; apply triple_absurd; auto ].
    scrape_start a c checked done u.
    eapply triple_bind;
      [ apply cinv_emit with (FP' := F c checked (done ++ [u])) | intros ? ].
    { intros f Hf. apply F_push; [ discriminate | discriminate | exact Hf ]. }
    eapply triple_bind;
      [ apply cinv_store with (CP' := C a (done ++ [u])) | intros ? ].
    { intros c0 Hc. apply C_add; assumption. }
    eapply triple_bind; [ apply triple_chatty, chatty_send_log | intros ? ].
    eapply triple_bind; [ apply triple_chatty, chatty_log_page_info | intros ? ].
    apply triple_ret. intros st H. split; [exact H | reflexivity].
  - assert (Hu : stored_page env a u = None).
    { unfold stored_page. rewrite Hs. reflexivity. }
    rewrite Hu.
    eapply triple_try with (E' := cinv (F c checked (done ++ [u])) (C a done));
      [ | apply Hfail, Hu ].
    scrape_start a c checked done u.
    apply triple_raise. auto.
Qed.

Lemma stored_pages_cons a (u : string) (rest : list string) :
  stored_pages env a (u :: rest)
  = match stored_page env a u with Some _ => [u] | None => [] end
    ++ stored_pages env a rest.
Proof.
  unfold stored_pages. rewrite filter_cons.
  destruct (stored_page env a u); cbn.
  - rewrite decide_True by eauto. reflexivity.
  - rewrite decide_False by (intros [? ?]; discriminate). reflexivity.
Qed.

(** Without a request the fetch loop hands every page to the scraper, in
    order, polling once after each. *)
Lemma run_scrape_pages a (checked : list string) (total : nat)
    (pages : list string) :
  forall (c i : nat) (scraped done : list string),
    (forall n, (c <= n < c + length pages)%nat ->
       interrupt_before_check env n = false) ->
    triple (PL a c checked done)
      (scrape_pages env client_id pid a total i pages scraped)
      (fun s' st => PL a (c + length pages)%nat checked (done ++ pages) st
                    /\ s' = scraped ++ stored_pages env a pages)
      NEVER NEVER.
Proof.
  induction pages as [ | u rest IH]; intros c i scraped done Hq;
    cbn [scrape_pages length].
  - apply triple_ret. intros st H.
    rewrite !app_nil_r, Nat.add_0_r. split; [exact H | reflexivity].
  - eapply triple_bind; [ apply run_try_scrape | intros s1 ].
    apply (triple_pure_l (s1 = scraped ++ match stored_page env a u with
                                          | Some _ => [u]
                                          | None => []
                                          end)).
    intros ->.
    eapply triple_bind;
      [ apply quiet_poll; apply Hq; cbn [length]; lia | intros stop ].
    apply (triple_pure_l (stop = false)). intros ->.
    eapply triple_post; [ | apply IH; intros n Hn; apply Hq; cbn [length]; lia ].
    intros s' st [H ->]. rewrite <- app_assoc in H.
    replace (c + S (length rest))%nat with (S c + length rest)%nat by lia.
    split; [exact H | ].
    rewrite stored_pages_cons, app_assoc. reflexivity.
Qed.

(** The state a completed job is left in. *)
#[local] Abbreviation DONE a checked done scraped :=
  (cinv (fun f : Frame =>
           extraction_status (processing_status f) = STATUS_COMPLETED
           /\ pages_scraped (processing_status f) = length scraped
           /\ checked_urls (trace f) = checked
           /\ scraped_urls (trace f) = done)
        (fun c : gmap string Project * list ScrapedData * gmap string RegistryEntry =>
           result_of <$> c.1.1 !! pid
           = (fun _ => (scraped%list, STATUS_COMPLETED, length scraped)) <$> P0 !! pid
           /\ c.1.2 = S0 ++ omap (stored_page env a) done
           /\ c.2 = reg0)).

Lemma run_complete a (search_keywords : option (list Py.value)) (c : nat)
    (checked done scraped : list string) R E :
  triple (PL a c checked done) (complete client_id pid search_keywords a scraped)
    (fun _ => DONE a checked done scraped) R E.
Proof.
  unfold complete.
  eapply triple_bind; [ apply triple_chatty, chatty_utcnow | intros ended ].
  eapply triple_bind;
    [ apply cinv_assign with
        (FP' := fun f => extraction_status (processing_status f) = STATUS_COMPLETED
                         /\ pages_scraped (processing_status f) = length scraped
                         /\ checked_urls (trace f) = checked
                         /\ scraped_urls (trace f) = done)
    | intros ? ].
  { intros f (H1 & H2 & H3 & H4 & H5).
    split; [reflexivity | ]. split; [reflexivity | ].
    cbn [store_status trace].
    rewrite checked_urls_push, scraped_urls_push, H4, H5, !app_nil_r.
    split; reflexivity. }
  eapply triple_bind; [ apply triple_chatty, chatty_get_status | intros s ].
  eapply triple_bind.
  { apply cinv_persist with
      (FP' := fun f => extraction_status (processing_status f) = STATUS_COMPLETED
                       /\ pages_scraped (processing_status f) = length scraped
                       /\ checked_urls (trace f) = checked
                       /\ scraped_urls (trace f) = done)
      (CP' := fun c => result_of <$> c.1.1 !! pid
                       = (fun _ => (scraped, STATUS_COMPLETED, length scraped))
                           <$> P0 !! pid
                       /\ c.1.2 = S0 ++ omap (stored_page env a) done
                       /\ c.2 = reg0).
    - intros f (H1 & H2 & H3 & H4). split; [exact H1 | ]. split; [exact H2 | ].
      cbn [push trace].
      rewrite checked_urls_push, scraped_urls_push, H3, H4, !app_nil_r.
      split; reflexivity.
    - intros c0 (H1 & H2 & H3). cbn [fst snd].
      split; [ | split; assumption ].
      rewrite lookup_alter_eq.
      destruct (c0.1.1 !! pid), (P0 !! pid); cbn in *;
        first [ reflexivity | discriminate ]. }
  intros ?. eapply triple_bind.
  { apply cinv_persist with
      (FP' := fun f => extraction_status (processing_status f) = STATUS_COMPLETED
                       /\ pages_scraped (processing_status f) = length scraped
                       /\ checked_urls (trace f) = checked
                       /\ scraped_urls (trace f) = done)
      (CP' := fun c => result_of <$> c.1.1 !! pid
                       = (fun _ => (scraped, STATUS_COMPLETED, length scraped))
                           <$> P0 !! pid
                       /\ c.1.2 = S0 ++ omap (stored_page env a) done
                       /\ c.2 = reg0).
    - intros f (H1 & H2 & H3 & H4). split; [exact H1 | ]. split; [exact H2 | ].
      cbn [push trace].
      rewrite checked_urls_push, scraped_urls_push, H3, H4, !app_nil_r.
      split; reflexivity.
    - intros c0 (H1 & H2 & H3). cbn [fst snd].
      split; [ | split; assumption ].
      rewrite lookup_alter_eq, <- H1. destruct (c0.1.1 !! pid); reflexivity. }
  intros ?.
  eapply triple_bind; [ apply triple_chatty, chatty_send_log | intros ? ].
  apply triple_chatty, chatty_put_message.
Qed.

Lemma run_process_robots a (url : string) R E :
  triple (PL a 0%nat [] []) (process_robots env url client_id)
    (fun _ => PL a 0%nat [] []) R E.
Proof.
  unfold process_robots.
  eapply triple_bind; [ apply triple_chatty, chatty_send_log | intros ? ].
  eapply triple_bind; [ apply cinv_emit with (FP' := F 0%nat [] []) | intros ? ].
  { intros f Hf. apply F_push; [ discriminate | discriminate | exact Hf ]. }
  destruct (Robots env url) as [[ | ] | e];
    (eapply triple_bind; [ apply cinv_assign with (FP' := F 0%nat [] []) | intros ? ];
     [ intros f Hf; apply F_store; [ reflexivity | reflexivity | exact Hf ]
     | apply triple_chatty, chatty_send_log ]).
Qed.

Lemma run_process_sitemap a (url : string) R E :
  triple (PL a 0%nat [] []) (process_sitemap env url client_id)
    (fun pages st => PL a 0%nat [] [] st /\ pages = discovered env url) R E.
Proof.
  unfold process_sitemap, discovered.
  eapply triple_bind; [ apply triple_chatty, chatty_send_log | intros ? ].
  eapply triple_bind; [ apply cinv_emit with (FP' := F 0%nat [] []) | intros ? ].
  { intros f Hf. apply F_push; [ discriminate | discriminate | exact Hf ]. }
  destruct (Sitemap env url) as [[ | p ps] | e];
    (eapply triple_bind; [ apply cinv_assign with (FP' := F 0%nat [] []) | intros ? ];
     [ intros f Hf; apply F_store; [ reflexivity | reflexivity | exact Hf ]
     | eapply triple_bind; [ apply triple_chatty, chatty_send_log | intros ? ];
       apply triple_ret; intros st H; split; [ exact H | reflexivity ] ]).
Qed.

(** A run without keywords and without a request. *)
Lemma plain_pipeline (url : string) (limit : Z)
    (search_keywords : option (list Py.value)) (with_meta : bool) :
  Py.truthy search_keywords = false ->
  (forall n, interrupt_before_check env n = false) ->
  triple (PL no_filter 0%nat [] [])
    (pipeline env url pid client_id limit search_keywords with_meta)
    (fun _ => DONE no_filter [] (Py.slice_to (discovered env url) limit)
                (stored_pages env no_filter
                   (Py.slice_to (discovered env url) limit)))
    NEVER NEVER.
Proof.
  intros Ht Hq. unfold pipeline, log_start, select_pages. rewrite Ht.
  eapply triple_bind with (Q' := fun _ => PL no_filter 0%nat [] []).
  { eapply triple_bind; [ apply triple_chatty, chatty_send_log | intros ? ].
    apply triple_ret. intros st H. exact H. }
  intros ?. eapply triple_bind; [ apply run_process_robots | intros ? ].
  eapply triple_bind; [ apply run_process_sitemap | intros pages ].
  apply (triple_pure_l (pages = discovered env url)). intros ->.
  eapply triple_bind with
    (Q' := fun sel st =>
             PL no_filter 0%nat [] [] st
             /\ sel = (Py.slice_to (discovered env url) limit, no_filter));
    [ apply triple_ret; intros st H; split; [exact H | reflexivity] | intros sel ].
  apply (triple_pure_l
           (sel = (Py.slice_to (discovered env url) limit, no_filter))).
  intros ->.
  eapply triple_bind; [ apply triple_chatty, chatty_send_log | intros ? ].
  eapply triple_bind;
    [ apply run_scrape_pages; intros n _; apply Hq | intros scraped ].
  cbn [app].
  apply (triple_pure_l
           (scraped = [] ++ stored_pages env no_filter
                               (Py.slice_to (discovered env url) limit))).
  cbn [app]. intros ->. apply run_complete.
Qed.

(** One page of the keyword filter. *)
Lemma run_check_one a0 (c : nat) (checked : list string) (u : string)
    (keywords : list Py.value) (with_meta : bool) (total : nat) (a : Filtered)
    R E :
  triple (PL a0 c checked [])
    (check_one env client_id u keywords with_meta total (count_checked a))
    (fun a2 st => PL a0 c (checked ++ [u]) [] st
                  /\ a2 = filter_step env keywords with_meta a u) R E.
Proof.
  unfold check_one, check_page_for_keywords, filter_step.
  eapply triple_bind; [ apply triple_chatty, chatty_send_log | intros ? ].
  eapply triple_bind with
    (Q' := fun r st => PL a0 c (checked ++ [u]) [] st
                       /\ r = keyword_check env u keywords with_meta).
  { eapply triple_bind;
      [ apply cinv_emit with (FP' := F c (checked ++ [u]) []); apply F_check
      | intros ? ].
    apply triple_ret. intros st H. split; [exact H | reflexivity]. }
  intros r. apply (triple_pure_l (r = keyword_check env u keywords with_meta)).
  intros ->.
  destruct (keyword_check env u keywords with_meta)
    as [[[contains matches] meta] contexts].
  destruct contains.
  - eapply triple_bind; [ apply triple_chatty, chatty_send_log | intros ? ].
    eapply triple_bind; [ apply triple_chatty, chatty_log_match_details | intros ? ].
    apply triple_ret. intros st H. split; [exact H | reflexivity].
  - eapply triple_bind; [ apply triple_chatty, chatty_send_log | intros ? ].
    apply triple_ret. intros st H. split; [exact H | reflexivity].
Qed.

(** Without a request the filter checks every candidate page, in order,
    polling once before each. *)
Lemma run_filter_pages a0 (keywords : list Py.value) (with_meta : bool)
    (total : nat) (pages : list string) :
  forall (c i : nat) (checked : list string) (a : Filtered),
    (forall n, (c <= n < c + length pages)%nat ->
       interrupt_before_check env n = false) ->
    triple (PL a0 c checked [])
      (filter_pages env client_id pid keywords with_meta total i pages a)
      (fun a' st => PL a0 (c + length pages)%nat (checked ++ pages) [] st
                    /\ a' = foldl (filter_step env keywords with_meta) a pages)
      NEVER NEVER.
Proof.
  induction pages as [ | u rest IH]; intros c i checked a Hq;
    cbn [filter_pages length foldl].
  - apply triple_ret. intros st H.
    rewrite app_nil_r, Nat.add_0_r. split; [exact H | reflexivity].
  - eapply triple_bind;
      [ apply quiet_poll; apply Hq; cbn [length]; lia | intros stop ].
    apply (triple_pure_l (stop = false)). intros ->. cbn zeta.
    eapply triple_bind.
    { eapply triple_try with (E' := NEVER);
        [ apply run_check_one | intros e; apply triple_absurd; auto ]. }
    intros a2.
    apply (triple_pure_l (a2 = filter_step env keywords with_meta a u)).
    intros ->.
    eapply triple_post; [ | apply IH; intros n Hn; apply Hq; cbn [length]; lia ].
    intros a' st [H ->]. rewrite <- app_assoc in H.
    replace (c + S (length rest))%nat with (S c + length rest)%nat by lia.
    split; [exact H | reflexivity].
Qed.

Lemma filter_step_fields (keywords : list Py.value) (with_meta : bool)
    (a : Filtered) (u : string) :
  filtered_pages (filter_step env keywords with_meta a u)
  = filtered_pages a
    ++ (if contains_keywords (keyword_check env u keywords with_meta)
        then [u] else [])
  /\ l_pages_with_keywords (filter_step env keywords with_meta a u)
     = (l_pages_with_keywords a
        + (if contains_keywords (keyword_check env u keywords with_meta)
           then 1 else 0))%nat.
Proof.
  unfold filter_step, contains_keywords.
  destruct (keyword_check env u keywords with_meta)
    as [[[contains matches] meta] contexts].
  destruct contains; cbn; rewrite ?app_nil_r; split; first [reflexivity | lia].
Qed.

Lemma filter_fold_fields (keywords : list Py.value) (with_meta : bool)
    (pages : list string) :
  forall a : Filtered,
    filtered_pages (foldl (filter_step env keywords with_meta) a pages)
    = filtered_pages a ++ hits env keywords with_meta pages
    /\ l_pages_with_keywords (foldl (filter_step env keywords with_meta) a pages)
       = (l_pages_with_keywords a
          + length (hits env keywords with_meta pages))%nat.
Proof.
  induction pages as [ | u rest IH]; intros a; cbn [foldl].
  - cbn. rewrite app_nil_r. split; [reflexivity | lia].
  - destruct (IH (filter_step env keywords with_meta a u)) as [H1 H2].
    destruct (filter_step_fields keywords with_meta a u) as [E1 E2].
    rewrite H1, H2, E1, E2. unfold hits. rewrite filter_cons.
    destruct (contains_keywords (keyword_check env u keywords with_meta)).
    + rewrite decide_True by reflexivity. cbn [length].
      rewrite <- app_assoc. split; [reflexivity | lia].
    + rewrite decide_False by discriminate.
      rewrite app_nil_r. split; [reflexivity | lia].
Qed.

(** The keyword filter as a whole (lines 440-524). *)
Lemma run_select_pages (search_keywords : option (list Py.value))
    (with_meta : bool) (limit : Z) (pages : list string) :
  Py.truthy search_keywords = true ->
  is_Some (Py.all_str (Py.or_nil search_keywords)) ->
  (forall n, interrupt_before_check env n = false) ->
  triple (PL no_filter 0%nat [] [])
    (select_pages env client_id pid search_keywords with_meta limit pages)
    (fun sel st =>
       PL no_filter (length (Py.slice_to pages limit))
         (Py.slice_to pages limit) [] st
       /\ sel = (match hits env (Py.or_nil search_keywords) with_meta
                         (Py.slice_to pages limit) with
                 | [] => Py.slice_to pages
                           (Z.min limit (Z.of_nat (length pages)))
                 | l => l
                 end,
                 foldl (filter_step env (Py.or_nil search_keywords) with_meta)
                   no_filter (Py.slice_to pages limit)))
    NEVER NEVER.
Proof.
  intros Ht [ks Hk] Hq. unfold select_pages, join_keywords. rewrite Ht, Hk.
  eapply triple_bind with (Q' := fun _ => PL no_filter 0%nat [] []);
    [ apply triple_ret; auto | intros ? ].
  eapply triple_bind; [ apply triple_chatty, chatty_send_log | intros ? ].
  eapply triple_bind; [ apply run_filter_pages; intros n _; apply Hq | intros a' ].
  cbn [app Nat.add].
  apply (triple_pure_l
           (a' = foldl (filter_step env (Py.or_nil search_keywords) with_meta)
                   no_filter (Py.slice_to pages limit))).
  intros Ha'.
  destruct (filter_fold_fields (Py.or_nil search_keywords) with_meta
              (Py.slice_to pages limit) no_filter) as [E1 E2].
  rewrite <- Ha' in E1, E2. cbn [no_filter filtered_pages l_pages_with_keywords app
                                 Nat.add] in E1, E2.
  eapply triple_bind with
    (Q' := fun _ => PL no_filter (length (Py.slice_to pages limit))
                      (Py.slice_to pages limit) []).
  { case_bool_decide.
    - apply triple_chatty, chatty_send_log.
    - eapply triple_bind; [ apply triple_chatty, chatty_send_log | intros ? ].
      eapply triple_bind;
        [ apply cinv_assign with
            (FP' := F (length (Py.slice_to pages limit))
                      (Py.slice_to pages limit) [])
        | intros ? ].
      { intros f Hf. apply F_store; [ reflexivity | reflexivity | exact Hf ]. }
      apply cinv_persist.
      + intros f Hf. apply F_push; [ discriminate | discriminate | exact Hf ].
      + intros c0 (H1 & H2 & H3). cbn [fst snd].
        split; [ | split; assumption ].
        rewrite lookup_alter_eq, <- H1. destruct (c0.1.1 !! pid); reflexivity. }
  intros ?.
  eapply triple_bind;
    [ apply cinv_assign with
        (FP' := F (length (Py.slice_to pages limit)) (Py.slice_to pages limit) [])
    | intros ? ].
  { intros f Hf. apply F_store; [ reflexivity | reflexivity | exact Hf ]. }
  rewrite E1, <- Ha'.
  destruct (hits env (Py.or_nil search_keywords) with_meta (Py.slice_to pages limit));
    (eapply triple_bind; [ apply triple_chatty, chatty_send_log | intros ? ];
     apply triple_ret; intros st H; split; [ exact H | reflexivity ]).
Qed.

(** A run with keywords and without a request. *)
Lemma keyed_pipeline (url : string) (limit : Z)
    (search_keywords : option (list Py.value)) (with_meta : bool) :
  Py.truthy search_keywords = true ->
  is_Some (Py.all_str (Py.or_nil search_keywords)) ->
  (forall n, interrupt_before_check env n = false) ->
  triple (PL no_filter 0%nat [] [])
    (pipeline env url pid client_id limit search_keywords with_meta)
    (fun _ =>
       DONE (foldl (filter_step env (Py.or_nil search_keywords) with_meta)
               no_filter (Py.slice_to (discovered env url) limit))
         (Py.slice_to (discovered env url) limit)
         (match hits env (Py.or_nil search_keywords) with_meta
                  (Py.slice_to (discovered env url) limit) with
          | [] => Py.slice_to (discovered env url)
                    (Z.min limit (Z.of_nat (length (discovered env url))))
          | l => l
          end)
         (stored_pages env
            (foldl (filter_step env (Py.or_nil search_keywords) with_meta)
               no_filter (Py.slice_to (discovered env url) limit))
            (match hits env (Py.or_nil search_keywords) with_meta
                     (Py.slice_to (discovered env url) limit) with
             | [] => Py.slice_to (discovered env url)
                       (Z.min limit (Z.of_nat (length (discovered env url))))
             | l => l
             end)))
    NEVER NEVER.
Proof.
  intros Ht Hk Hq. unfold pipeline.
  eapply triple_bind with (Q' := fun _ => PL no_filter 0%nat [] []).
  { unfold log_start, join_keywords. rewrite Ht. destruct Hk as [ks ->].
    eapply triple_bind; [ apply triple_chatty, chatty_send_log | intros ? ].
    eapply triple_bind with (Q' := fun _ => PL no_filter 0%nat [] []);
      [ apply triple_ret; auto | intros ? ].
    eapply triple_bind; [ apply triple_chatty, chatty_send_log | intros ? ].
    destruct with_meta;
      [ apply triple_chatty, chatty_send_log | apply triple_ret; auto ]. }
  intros ?. eapply triple_bind; [ apply run_process_robots | intros ? ].
  eapply triple_bind; [ apply run_process_sitemap | intros pages ].
  apply (triple_pure_l (pages = discovered env url)). intros ->.
  eapply triple_bind; [ apply run_select_pages; assumption | intros sel ].
  cbn beta.
  match goal with
  | |- triple (fun st => _ /\ sel = ?v) _ _ _ _ =>
      apply (triple_pure_l (sel = v))
  end.
  intros ->.
  eapply triple_bind; [ apply triple_chatty, chatty_send_log | intros ? ].
  eapply triple_bind.
  { eapply triple_pre; [ | apply run_scrape_pages; intros n _; apply Hq ].
    intros st H. exact H. }
  intros scraped. cbn [app].
  cbn beta.
  match goal with
  | |- triple (fun st => _ /\ scraped = ?v) _ _ _ _ =>
      apply (triple_pure_l (scraped = v))
  end.
  intros ->. apply run_complete.
Qed.

(** The state an interrupted job is left in: nothing counted as scraped,
    the project's list of scraped pages as it was. *)
#[local] Abbreviation HALT a checked urls :=
  (cinv (fun f : Frame =>
           extraction_status (processing_status f) = STATUS_INTERRUPTED
           /\ pages_scraped (processing_status f) = 0%nat
           /\ checked_urls (trace f) = checked
           /\ scraped_urls (trace f) = urls)
        (fun c : gmap string Project * list ScrapedData * gmap string RegistryEntry =>
           result_of <$> c.1.1 !! pid
           = (fun p => (scraped_pages p, STATUS_INTERRUPTED, 0%nat)) <$> P0 !! pid
           /\ c.1.2 = S0 ++ omap (stored_page env a) urls
           /\ status <$> c.2 !! client_id = Some STATUS_INTERRUPTED)).
#[local] Abbreviation C1 a done :=
  (fun c : gmap string Project * list ScrapedData * gmap string RegistryEntry =>
     scraped_pages <$> c.1.1 !! pid = scraped_pages <$> P0 !! pid
     /\ c.1.2 = S0 ++ omap (stored_page env a) done
     /\ is_Some (c.2 !! client_id)).

(** A poll at which a request for a registered client arrives. *)
Lemma loud_poll a (c : nat) (checked done : list string) R E :
  interrupt_before_check env c = true ->
  is_Some (reg0 !! client_id) ->
  triple (PL a c checked done) (poll_interrupt env client_id)
    (fun stop st => cinv (F (S c) checked done) (C1 a done) st /\ stop = true)
    R E.
Proof.
  intros Hq [e He] [w f] [(H1 & H2 & H3 & H4 & H5) (H6 & H7 & H8)].
  unfold poll_interrupt. cbn [fst snd core] in *.
  rewrite H3, Hq. unfold interrupt_extraction. rewrite H8, He. cbn [snd].
  split.
  - split.
    + cbn [snd count_poll processing_status checks trace].
      rewrite H3. repeat split; assumption.
    + cbn [fst]. unfold core. world_cbn.
      split; [exact H6 | ]. split; [exact H7 | ].
      rewrite lookup_insert_eq. eauto.
  - unfold should_interrupt. world_cbn. rewrite lookup_insert_eq. reflexivity.
Qed.

Lemma run_handle_interruption a (c : nat) (checked done : list string) R E :
  triple (cinv (F c checked done) (C1 a done))
    (handle_interruption client_id pid) (fun _ => HALT a checked done) R E.
Proof.
  unfold handle_interruption. apply triple_get_world_at. intros w0.
  destruct (active_extractions w0 !! client_id) as [e | ] eqn:He.
  2: { apply triple_absurd. intros [w f] [[_ (_ & _ & [x Hx])] Hw].
       cbn [fst snd core] in *. subst w0. congruence. }
  eapply triple_pre with (P' := cinv (F c checked done) (C1 a done));
    [ intros st [H _]; exact H | ].
  eapply triple_bind; [ apply triple_chatty, chatty_utcnow | intros now ].
  eapply triple_bind.
  { apply cinv_registry with
      (CP' := fun c0 => scraped_pages <$> c0.1.1 !! pid = scraped_pages <$> P0 !! pid
                        /\ c0.1.2 = S0 ++ omap (stored_page env a) done
                        /\ status <$> c0.2 !! client_id = Some STATUS_INTERRUPTED).
    intros c0 (H1 & H2 & _). cbn [fst snd]. split; [exact H1 | ].
    split; [exact H2 | ]. rewrite lookup_insert_eq. reflexivity. }
  intros ?.
  eapply triple_bind; [ apply triple_chatty, chatty_utcnow | intros ended ].
  eapply triple_bind;
    [ apply cinv_assign with
        (FP' := fun f => extraction_status (processing_status f) = STATUS_INTERRUPTED
                         /\ pages_scraped (processing_status f) = 0%nat
                         /\ checked_urls (trace f) = checked
                         /\ scraped_urls (trace f) = done)
    | intros ? ].
  { intros f (H1 & H2 & H3 & H4 & H5).
    split; [reflexivity | ]. split; [exact H2 | ].
    cbn [store_status trace].
    rewrite checked_urls_push, scraped_urls_push, H4, H5, !app_nil_r.
    split; reflexivity. }
  eapply triple_bind; [ apply cinv_get_status | intros s ].
  apply (cinv_pure (extraction_status s = STATUS_INTERRUPTED
                    /\ pages_scraped s = 0%nat)).
  { intros f [(H1 & H2 & _) <-]. split; assumption. }
  intros [Hs1 Hs2].
  eapply triple_bind.
  { apply cinv_persist with
      (FP' := fun f => extraction_status (processing_status f) = STATUS_INTERRUPTED
                       /\ pages_scraped (processing_status f) = 0%nat
                       /\ checked_urls (trace f) = checked
                       /\ scraped_urls (trace f) = done)
      (CP' := fun c0 => result_of <$> c0.1.1 !! pid
                        = (fun p => (scraped_pages p, STATUS_INTERRUPTED, 0%nat))
                            <$> P0 !! pid
                        /\ c0.1.2 = S0 ++ omap (stored_page env a) done
                        /\ status <$> c0.2 !! client_id = Some STATUS_INTERRUPTED).
    - intros f [(H1 & H2 & H3 & H4) _]. split; [exact H1 | ]. split; [exact H2 | ].
      cbn [push trace].
      rewrite checked_urls_push, scraped_urls_push, H3, H4, !app_nil_r.
      split; reflexivity.
    - intros c0 (H1 & H2 & H3). cbn [fst snd].
      split; [ | split; assumption ].
      rewrite lookup_alter_eq.
      destruct (c0.1.1 !! pid) as [p | ], (P0 !! pid) as [p0 | ]; cbn in *;
        try discriminate; [ | reflexivity ].
      injection H1 as H1. unfold result_of. cbn. rewrite Hs1, Hs2, H1.
      reflexivity. }
  intros ?.
  eapply triple_bind; [ apply triple_chatty, chatty_send_log | intros ? ].
  apply triple_chatty, chatty_put_message.
Qed.

(** A request that arrives at the poll after page [k] of the fetch loop
    stops the loop there. *)
Lemma run_scrape_pages_interrupted a (checked : list string) (total : nat)
    (pages : list string) :
  forall (k c i : nat) (scraped done : list string),
    (k < length pages)%nat ->
    (forall n, (c <= n < c + k)%nat -> interrupt_before_check env n = false) ->
    interrupt_before_check env (c + k) = true ->
    is_Some (reg0 !! client_id) ->
    triple (PL a c checked done)
      (scrape_pages env client_id pid a total i pages scraped)
      (fun _ => NEVER) (HALT a checked (done ++ take (S k) pages)) NEVER.
Proof.
  induction pages as [ | u rest IH]; intros k c i scraped done Hk Hq Hr Hreg;
    cbn [scrape_pages length] in *; [ lia | ].
  eapply triple_bind; [ apply run_try_scrape | intros s1 ].
  eapply triple_pre with (P' := PL a c checked (done ++ [u]));
    [ intros st [H _]; exact H | ].
  destruct k as [ | k].
  - rewrite Nat.add_0_r in Hr.
    eapply triple_bind; [ apply loud_poll; assumption | intros stop ].
    apply (triple_pure_l (stop = true)). intros ->.
    eapply triple_bind; [ apply triple_chatty, chatty_send_log | intros ? ].
    eapply triple_bind; [ apply run_handle_interruption | intros ? ].
    apply triple_return. intros st H. cbn [take]. exact H.
  - eapply triple_bind; [ apply quiet_poll; apply Hq; lia | intros stop ].
    apply (triple_pure_l (stop = false)). intros ->.
    eapply triple_weaken; [ apply (IH k (S c)) | .. ].
    + lia.
    + intros n Hn. apply Hq. lia.
    + replace (S c + k)%nat with (c + S k)%nat by lia. exact Hr.
    + exact Hreg.
    + intros st H. exact H.
    + intros ? st H. exact H.
    + intros st H. cbn [take]. rewrite <- app_assoc in H. exact H.
    + intros st H. exact H.
Qed.

(** A run without keywords, stopped by a request at poll [k]. *)
Lemma plain_pipeline_interrupted (url : string) (limit : Z)
    (search_keywords : option (list Py.value)) (with_meta : bool) (k : nat) :
  Py.truthy search_keywords = false ->
  (k < length (Py.slice_to (discovered env url) limit))%nat ->
  (forall n, (n < k)%nat -> interrupt_before_check env n = false) ->
  interrupt_before_check env k = true ->
  is_Some (reg0 !! client_id) ->
  triple (PL no_filter 0%nat [] [])
    (pipeline env url pid client_id limit search_keywords with_meta)
    (fun _ => NEVER)
    (HALT no_filter [] (take (S k) (Py.slice_to (discovered env url) limit)))
    NEVER.
Proof.
  intros Ht Hk Hq Hr Hreg. unfold pipeline, log_start, select_pages. rewrite Ht.
  eapply triple_bind with (Q' := fun _ => PL no_filter 0%nat [] []).
  { eapply triple_bind; [ apply triple_chatty, chatty_send_log | intros ? ].
    apply triple_ret. intros st H. exact H. }
  intros ?. eapply triple_bind; [ apply run_process_robots | intros ? ].
  eapply triple_bind; [ apply run_process_sitemap | intros pages ].
  apply (triple_pure_l (pages = discovered env url)). intros ->.
  eapply triple_bind with
    (Q' := fun sel st =>
             PL no_filter 0%nat [] [] st
             /\ sel = (Py.slice_to (discovered env url) limit, no_filter));
    [ apply triple_ret; intros st H; split; [exact H | reflexivity] | intros sel ].
  apply (triple_pure_l
           (sel = (Py.slice_to (discovered env url) limit, no_filter))).
  intros ->.
  eapply triple_bind; [ apply triple_chatty, chatty_send_log | intros ? ].
  eapply triple_bind with (Q' := fun _ => NEVER);
    [ | intros ?; apply triple_absurd; auto ].
  eapply triple_weaken;
    [ apply (run_scrape_pages_interrupted no_filter [] _ _ k 0%nat) | .. ];
    try assumption.
  - intros n Hn. apply Hq. lia.
  - intros st H. exact H.
  - intros ? st H. exact H.
  - intros st H. exact H.
  - intros st H. exact H.
Qed.

(** A request that arrives at the poll before page [k] of the keyword
    filter stops the filter there. *)
Lemma run_filter_pages_interrupted a0 (keywords : list Py.value)
    (with_meta : bool) (total : nat) (pages : list string) :
  forall (k c i : nat) (checked : list string) (a : Filtered),
    (k < length pages)%nat ->
    (forall n, (c <= n < c + k)%nat -> interrupt_before_check env n = false) ->
    interrupt_before_check env (c + k) = true ->
    is_Some (reg0 !! client_id) ->
    triple (PL a0 c checked [])
      (filter_pages env client_id pid keywords with_meta total i pages a)
      (fun _ => NEVER) (HALT a0 (checked ++ take k pages) []) NEVER.
Proof.
  induction pages as [ | u rest IH]; intros k c i checked a Hk Hq Hr Hreg;
    cbn [filter_pages length] in *; [ lia | ].
  destruct k as [ | k].
  - rewrite Nat.add_0_r in Hr.
    eapply triple_bind; [ apply loud_poll; assumption | intros stop ].
    apply (triple_pure_l (stop = true)). intros ->.
    eapply triple_bind; [ apply triple_chatty, chatty_send_log | intros ? ].
    eapply triple_bind; [ apply run_handle_interruption | intros ? ].
    apply triple_return. intros st H. cbn [take]. rewrite app_nil_r. exact H.
  - eapply triple_bind; [ apply quiet_poll; apply Hq; lia | intros stop ].
    apply (triple_pure_l (stop = false)). intros ->. cbn zeta.
    eapply triple_bind.
    { eapply triple_try with (E' := NEVER);
        [ apply run_check_one | intros e; apply triple_absurd; auto ]. }
    intros a2.
    eapply triple_pre with (P' := PL a0 (S c) (checked ++ [u]) []);
      [ intros st [H _]; exact H | ].
    eapply triple_weaken; [ apply (IH k (S c)) | .. ].
    + lia.
    + intros n Hn. apply Hq. lia.
    + replace (S c + k)%nat with (c + S k)%nat by lia. exact Hr.
    + exact Hreg.
    + intros st H. exact H.
    + intros ? st H. exact H.
    + intros st H. cbn [take]. rewrite <- app_assoc in H. exact H.
    + intros st H. exact H.
Qed.

(** A run with keywords, stopped by a request at poll [k] of the filter. *)
Lemma keyed_pipeline_interrupted (url : string) (limit : Z)
    (search_keywords : option (list Py.value)) (with_meta : bool) (k : nat) :
  Py.truthy search_keywords = true ->
  is_Some (Py.all_str (Py.or_nil search_keywords)) ->
  (k < length (Py.slice_to (discovered env url) limit))%nat ->
  (forall n, (n < k)%nat -> interrupt_before_check env n = false) ->
  interrupt_before_check env k = true ->
  is_Some (reg0 !! client_id) ->
  triple (PL no_filter 0%nat [] [])
    (pipeline env url pid client_id limit search_keywords with_meta)
    (fun _ => NEVER)
    (HALT no_filter (take k (Py.slice_to (discovered env url) limit)) [])
    NEVER.
Proof.
  intros Ht [ks Hks] Hk Hq Hr Hreg. unfold pipeline.
  eapply triple_bind with (Q' := fun _ => PL no_filter 0%nat [] []).
  { unfold log_start, join_keywords. rewrite Ht, Hks.
    eapply triple_bind; [ apply triple_chatty, chatty_send_log | intros ? ].
    eapply triple_bind with (Q' := fun _ => PL no_filter 0%nat [] []);
      [ apply triple_ret; auto | intros ? ].
    eapply triple_bind; [ apply triple_chatty, chatty_send_log | intros ? ].
    destruct with_meta;
      [ apply triple_chatty, chatty_send_log | apply triple_ret; auto ]. }
  intros ?. eapply triple_bind; [ apply run_process_robots | intros ? ].
  eapply triple_bind; [ apply run_process_sitemap | intros pages ].
  apply (triple_pure_l (pages = discovered env url)). intros ->.
  eapply triple_bind with (Q' := fun _ => NEVER);
    [ | intros ?; apply triple_absurd; auto ].
  unfold select_pages, join_keywords. rewrite Ht, Hks.
  eapply triple_bind with (Q' := fun _ => PL no_filter 0%nat [] []);
    [ apply triple_ret; auto | intros ? ].
  eapply triple_bind; [ apply triple_chatty, chatty_send_log | intros ? ].
  eapply triple_bind with (Q' := fun _ => NEVER);
    [ | intros ?; apply triple_absurd; auto ].
  eapply triple_weaken;
    [ apply (run_filter_pages_interrupted no_filter _ _ _ _ k 0%nat) | .. ];
    try assumption.
  - intros n Hn. apply Hq. lia.
  - intros st H. exact H.
  - intros ? st H. exact H.
  - intros st H. exact H.
  - intros st H. exact H.
Qed.

End Run.

(** A run whose pipeline does not raise ends where the pipeline ends, up to
    the clean-up of the statistics. *)
Lemma run_extraction_thread_ends (env : Env) (j : Job) (w : World)
    (P Q R : St -> Prop) :
  triple P
    (pipeline env (j_url j) (j_project_id j) (j_client_id j) (j_pages_limit j)
       (j_search_keywords j) (j_include_meta j))
    (fun _ => Q) R (fun _ => False) ->
  (let s0 := initial_status (clock w) (j_scrape_mode j) (j_pages_limit j)
               (j_search_keywords j) (j_include_meta j) None in
   P (W.tick w, {| processing_status := s0; checks := 0; trace := [EvStatus s0] |})) ->
  exists w' f',
    run_extraction_thread env j w
    = (W.on_stats (delete (j_client_id j)) w', f')
    /\ (Q (w', f') \/ R (w', f')).
Proof.
  intros Hp H0. cbn zeta in H0.
  unfold run_extraction_thread, clean_up, modify_world. cbn [fst snd].
  match goal with
  | |- context [try_ ?m ?h ?st0] =>
      pose proof (triple_try m h P (fun _ => Q) R (fun _ => False) (fun _ => False)
                    Hp
                    (fun e => triple_absurd (h e) (fun _ => False) _ _ _
                                (fun _ H => H)) st0 H0) as H;
      destruct (try_ m h st0) as [[[] | | e] [w' f']]
  end; [ | | destruct H ]; exists w', f'; (split; [reflexivity | ]); auto.
Qed.

(** X23. A job without keywords to which no interrupt request is made
    fetches no page for a keyword check and hands the first [pages_limit]
    discovered pages to the scraper, each once and in order, whether or not
    earlier pages failed, and completes.  The pages counted and recorded as
    scraped are exactly those for which both [scrape_website] and
    [store_in_mongodb] succeeded: their data is added to the page store in
    order, and the stored project, if there is one, ends with their URLs as
    [scraped_pages], their number as [pages_scraped] and the state
    [completed]. *)
Theorem plain_run_scrapes_every_page (env : Env) (j : Job) (w : World) :
  Py.truthy (j_search_keywords j) = false ->
  (forall n, interrupt_before_check env n = false) ->
  flag (j_client_id j) (active_extractions w) = false ->
  let pages := Py.slice_to (discovered env (j_url j)) (j_pages_limit j) in
  let good := stored_pages env no_filter pages in
  let st' := run_extraction_thread env j w in
  checked_urls (trace st'.2) = []
  /\ scraped_urls (trace st'.2) = pages
  /\ extraction_status (processing_status st'.2) = STATUS_COMPLETED
  /\ pages_scraped (processing_status st'.2) = length good
  /\ scraped_store st'.1
     = scraped_store w ++ omap (stored_page env no_filter) pages
  /\ result_of <$> projects st'.1 !! j_project_id j
     = (fun _ => (good, STATUS_COMPLETED, length good))
         <$> projects w !! j_project_id j.
Proof.
  intros Ht Hq Hflag. cbn zeta.
  destruct (run_extraction_thread_ends env j w _ _ (fun _ => False)
              (plain_pipeline env (j_client_id j) (j_project_id j) (projects w)
                 (scraped_store w) (active_extractions w) Hflag
                 (j_url j) (j_pages_limit j) (j_search_keywords j)
                 (j_include_meta j) Ht Hq))
    as (w' & f' & -> & [H | []]).
  - split; [ repeat split | ]. unfold core. world_cbn.
    split; [reflexivity | ]. split; [ symmetry; apply app_nil_r | reflexivity ].
  - destruct H as [(H1 & H2 & H3 & H4) (H5 & H6 & _)].
    unfold core in *. cbn [fst snd] in *. world_cbn. repeat split; assumption.
Qed.

Lemma plain_run_scrapes_every_page_witness :
  scraped_urls
    (trace
       (run_extraction_thread
          (Demo.env_of (inl ["a"; "b"]%string) Demo.fetch_ab Demo.never)
          (Demo.job None)
          (Demo.submitted
             (Demo.env_of (inl ["a"; "b"]%string) Demo.fetch_ab Demo.never)
             None)).2)
  = ["a"; "b"]%string.
Proof.
  exact (proj1 (proj2 (plain_run_scrapes_every_page
                  (Demo.env_of (inl ["a"; "b"]%string) Demo.fetch_ab Demo.never)
                  (Demo.job None)
                  (Demo.submitted
                     (Demo.env_of (inl ["a"; "b"]%string) Demo.fetch_ab Demo.never)
                     None)
                  ltac:(reflexivity) ltac:(intros n; reflexivity)
                  ltac:(vm_compute; reflexivity)))).
Defined.

(** X24. A job with keywords (all strings) to which no interrupt request is
    made checks each of the first [pages_limit] discovered pages once, in
    order, and then hands to the scraper exactly the pages on which the
    check reported keywords, in that order, or, when it reported none, the
    first [min(pages_limit, n)] of the [n] discovered pages; then it
    completes.  The pages counted and recorded as scraped are those of them
    whose data was scraped and stored, with the meta information of the
    check. *)
Theorem keyword_run_scrapes_matching_pages (env : Env) (j : Job) (w : World) :
  Py.truthy (j_search_keywords j) = true ->
  is_Some (Py.all_str (Py.or_nil (j_search_keywords j))) ->
  (forall n, interrupt_before_check env n = false) ->
  flag (j_client_id j) (active_extractions w) = false ->
  let keywords := Py.or_nil (j_search_keywords j) in
  let found := discovered env (j_url j) in
  let candidates := Py.slice_to found (j_pages_limit j) in
  let chosen :=
    match hits env keywords (j_include_meta j) candidates with
    | [] => Py.slice_to found (Z.min (j_pages_limit j) (Z.of_nat (length found)))
    | l => l
    end in
  let a := foldl (filter_step env keywords (j_include_meta j)) no_filter
             candidates in
  let good := stored_pages env a chosen in
  let st' := run_extraction_thread env j w in
  checked_urls (trace st'.2) = candidates
  /\ scraped_urls (trace st'.2) = chosen
  /\ extraction_status (processing_status st'.2) = STATUS_COMPLETED
  /\ pages_scraped (processing_status st'.2) = length good
  /\ scraped_store st'.1 = scraped_store w ++ omap (stored_page env a) chosen
  /\ result_of <$> projects st'.1 !! j_project_id j
     = (fun _ => (good, STATUS_COMPLETED, length good))
         <$> projects w !! j_project_id j.
Proof.
  intros Ht Hk Hq Hflag. cbn zeta.
  destruct (run_extraction_thread_ends env j w _ _ (fun _ => False)
              (keyed_pipeline env (j_client_id j) (j_project_id j) (projects w)
                 (scraped_store w) (active_extractions w) Hflag
                 (j_url j) (j_pages_limit j) (j_search_keywords j)
                 (j_include_meta j) Ht Hk Hq))
    as (w' & f' & -> & [H | []]).
  - split; [ repeat split | ]. unfold core. world_cbn.
    split; [reflexivity | ]. split; [ symmetry; apply app_nil_r | reflexivity ].
  - destruct H as [(H1 & H2 & H3 & H4) (H5 & H6 & _)].
    unfold core in *. cbn [fst snd] in *. world_cbn. repeat split; assumption.
Qed.

Lemma keyword_run_scrapes_matching_pages_witness :
  scraped_urls
    (trace
       (run_extraction_thread
          (Demo.env_of (inl ["a"; "b"; "c"]%string) Demo.fetch_ab Demo.never)
          (Demo.job (Some [Py.Str "foo"]))
          (Demo.submitted
             (Demo.env_of (inl ["a"; "b"; "c"]%string) Demo.fetch_ab Demo.never)
             (Some [Py.Str "foo"]))).2)
  = ["b"%string].
Proof.
  exact (proj1 (proj2 (keyword_run_scrapes_matching_pages
                  (Demo.env_of (inl ["a"; "b"; "c"]%string) Demo.fetch_ab Demo.never)
                  (Demo.job (Some [Py.Str "foo"]))
                  (Demo.submitted
                     (Demo.env_of (inl ["a"; "b"; "c"]%string)
                        Demo.fetch_ab Demo.never)
                     (Some [Py.Str "foo"]))
                  ltac:(reflexivity) ltac:(eexists; reflexivity)
                  ltac:(intros n; reflexivity)
                  ltac:(vm_compute; reflexivity)))).
Defined.

(** X25. A job without keywords whose client is registered and for which
    the first interrupt request arrives before poll [k] of the flag (the
    poll after page [k + 1]) hands the first [k + 1] pages to the
    scraper and ends interrupted, in the status, the stored project and
    the registry.  The data of the pages scraped so far is in the page
    store, but nothing of it is counted or recorded: [pages_scraped] is 0
    and the project's [scraped_pages] is what it was. *)
Theorem interrupted_run_records_no_page (env : Env) (j : Job) (w : World)
    (k : nat) :
  Py.truthy (j_search_keywords j) = false ->
  (k < length (Py.slice_to (discovered env (j_url j)) (j_pages_limit j)))%nat ->
  (forall n, (n < k)%nat -> interrupt_before_check env n = false) ->
  interrupt_before_check env k = true ->
  is_Some (active_extractions w !! j_client_id j) ->
  flag (j_client_id j) (active_extractions w) = false ->
  let pages := Py.slice_to (discovered env (j_url j)) (j_pages_limit j) in
  let st' := run_extraction_thread env j w in
  scraped_urls (trace st'.2) = take (S k) pages
  /\ extraction_status (processing_status st'.2) = STATUS_INTERRUPTED
  /\ pages_scraped (processing_status st'.2) = 0%nat
  /\ scraped_store st'.1
     = scraped_store w ++ omap (stored_page env no_filter) (take (S k) pages)
  /\ result_of <$> projects st'.1 !! j_project_id j
     = (fun p => (scraped_pages p, STATUS_INTERRUPTED, 0%nat))
         <$> projects w !! j_project_id j
  /\ status <$> active_extractions st'.1 !! j_client_id j
     = Some STATUS_INTERRUPTED.
Proof.
  intros Ht Hk Hq Hr Hreg Hflag. cbn zeta.
  destruct (run_extraction_thread_ends env j w _ (fun _ => False) _
              (plain_pipeline_interrupted env (j_client_id j) (j_project_id j)
                 (projects w) (scraped_store w) (active_extractions w) Hflag
                 (j_url j) (j_pages_limit j) (j_search_keywords j)
                 (j_include_meta j) k Ht Hk Hq Hr Hreg))
    as (w' & f' & -> & [[] | H]).
  - split; [ repeat split | ]. unfold core. world_cbn.
    split; [reflexivity | ]. split; [ symmetry; apply app_nil_r | reflexivity ].
  - destruct H as [(H1 & H2 & H3 & H4) (H5 & H6 & H7)].
    unfold core in *. cbn [fst snd] in *. world_cbn. repeat split; assumption.
Qed.

Lemma interrupted_run_records_no_page_witness :
  (fun st : St => (scraped_urls (trace st.2),
                   pages_scraped (processing_status st.2)))
    (run_extraction_thread
       (Demo.env_of (inl ["a"; "b"; "c"]%string) Demo.fetch_ab (Demo.at_poll 1))
       (Demo.job None)
       (Demo.submitted
          (Demo.env_of (inl ["a"; "b"; "c"]%string) Demo.fetch_ab (Demo.at_poll 1))
          None))
  = (["a"; "b"]%string, 0%nat).
Proof.
  pose proof (interrupted_run_records_no_page
                (Demo.env_of (inl ["a"; "b"; "c"]%string) Demo.fetch_ab
                   (Demo.at_poll 1))
                (Demo.job None)
                (Demo.submitted
                   (Demo.env_of (inl ["a"; "b"; "c"]%string) Demo.fetch_ab
                      (Demo.at_poll 1))
                   None)
                1%nat
                ltac:(reflexivity) ltac:(vm_compute; lia)
                ltac:(intros n Hn; destruct n; [reflexivity | lia])
                ltac:(reflexivity) ltac:(vm_compute; eexists; reflexivity)
                ltac:(vm_compute; reflexivity)) as H.
  cbn zeta in H. destruct H as (H1 & _ & H3 & _).
  cbn beta. rewrite H1, H3. reflexivity.
Defined.

(** X26. A job with keywords (all strings) whose client is registered and
    for which the first interrupt request arrives before poll [k] of the
    flag, while the filter still has pages to check, has checked the first
    [k] candidate pages and no more, hands no page to the scraper and ends
    interrupted; the page store is untouched. *)
Theorem interrupted_filter_scrapes_nothing (env : Env) (j : Job) (w : World)
    (k : nat) :
  Py.truthy (j_search_keywords j) = true ->
  is_Some (Py.all_str (Py.or_nil (j_search_keywords j))) ->
  (k < length (Py.slice_to (discovered env (j_url j)) (j_pages_limit j)))%nat ->
  (forall n, (n < k)%nat -> interrupt_before_check env n = false) ->
  interrupt_before_check env k = true ->
  is_Some (active_extractions w !! j_client_id j) ->
  flag (j_client_id j) (active_extractions w) = false ->
  let candidates := Py.slice_to (discovered env (j_url j)) (j_pages_limit j) in
  let st' := run_extraction_thread env j w in
  checked_urls (trace st'.2) = take k candidates
  /\ scraped_urls (trace st'.2) = []
  /\ extraction_status (processing_status st'.2) = STATUS_INTERRUPTED
  /\ pages_scraped (processing_status st'.2) = 0%nat
  /\ scraped_store st'.1 = scraped_store w
  /\ result_of <$> projects st'.1 !! j_project_id j
     = (fun p => (scraped_pages p, STATUS_INTERRUPTED, 0%nat))
         <$> projects w !! j_project_id j
  /\ status <$> active_extractions st'.1 !! j_client_id j
     = Some STATUS_INTERRUPTED.
Proof.
  intros Ht Hks Hk Hq Hr Hreg Hflag. cbn zeta.
  destruct (run_extraction_thread_ends env j w _ (fun _ => False) _
              (keyed_pipeline_interrupted env (j_client_id j) (j_project_id j)
                 (projects w) (scraped_store w) (active_extractions w) Hflag
                 (j_url j) (j_pages_limit j) (j_search_keywords j)
                 (j_include_meta j) k Ht Hks Hk Hq Hr Hreg))
    as (w' & f' & -> & [[] | H]).
  - split; [ repeat split | ]. unfold core. world_cbn.
    split; [reflexivity | ]. split; [ symmetry; apply app_nil_r | reflexivity ].
  - destruct H as [(H1 & H2 & H3 & H4) (H5 & H6 & H7)].
    unfold core in *. cbn [fst snd omap list_omap] in *.
    rewrite app_nil_r in H6. world_cbn. repeat split; assumption.
Qed.

Lemma interrupted_filter_scrapes_nothing_witness :
  (fun st : St => (checked_urls (trace st.2), scraped_urls (trace st.2)))
    (run_extraction_thread
       (Demo.env_of (inl ["a"; "b"; "c"]%string) Demo.fetch_ab (Demo.at_poll 1))
       (Demo.job (Some [Py.Str "foo"]))
       (Demo.submitted
          (Demo.env_of (inl ["a"; "b"; "c"]%string) Demo.fetch_ab (Demo.at_poll 1))
          (Some [Py.Str "foo"])))
  = (["a"%string], []).
Proof.
  pose proof (interrupted_filter_scrapes_nothing
                (Demo.env_of (inl ["a"; "b"; "c"]%string) Demo.fetch_ab
                   (Demo.at_poll 1))
                (Demo.job (Some [Py.Str "foo"]))
                (Demo.submitted
                   (Demo.env_of (inl ["a"; "b"; "c"]%string) Demo.fetch_ab
                      (Demo.at_poll 1))
                   (Some [Py.Str "foo"]))
                1%nat
                ltac:(reflexivity) ltac:(eexists; reflexivity)
                ltac:(vm_compute; lia)
                ltac:(intros n Hn; destruct n; [reflexivity | lia])
                ltac:(reflexivity) ltac:(vm_compute; eexists; reflexivity)
                ltac:(vm_compute; reflexivity)) as H.
  cbn zeta in H. destruct H as (H1 & H2 & _).
  cbn beta. rewrite H1, H2. reflexivity.
Defined.

(** ** When a job fails *)

Section Safe.

Variable env : Env.
Variables client_id pid : string.

(** A step that does not raise, whatever the state. *)
#[local] Abbreviation safe m :=
  (triple (fun _ => True) m (fun _ _ => True) (fun _ => True) (fun _ => False)).

Lemma safe_bind {A B} (m : M A) (k : A -> M B) :
  safe m -> (forall a, safe (k a)) -> safe (m ≫= k).
Proof. intros Hm Hk. eapply triple_bind; [ exact Hm | intros a0; apply Hk ]. Qed.

(** A [try] whose handler does not raise does not raise. *)
Lemma safe_try {A} (m : M A) (h : string -> M A) :
  (forall e, safe (h e)) -> safe (try_ m h).
Proof.
  intros Hh st _. unfold try_.
  destruct (m st) as [[a0 | | e] st']; [ exact I | exact I | apply (Hh e st' I) ].
Qed.

Lemma safe_chatty {A} (m : M A) : chatty m -> safe m.
Proof. intros Hm [w f] _. destruct (Hm w f) as (a0 & w' & -> & _). exact I. Qed.

Ltac safe_tac :=
  repeat lazymatch goal with
    | |- triple _ (send_log _ _ _) _ _ _ => apply safe_chatty, chatty_send_log
    | |- triple _ (put_message _ _ _) _ _ _ => apply safe_chatty, chatty_put_message
    | |- triple _ (log_match_details _ _ _) _ _ _ =>
        apply safe_chatty, chatty_log_match_details
    | |- triple _ (_ ≫= _) _ _ _ => apply safe_bind; [ | intros ? ]
    | |- triple _ (try_ _ _) _ _ _ => apply safe_try; intros ?
    | |- triple _ (match ?x with _ => _ end) _ _ _ => destruct x
    | |- triple _ (raise _) _ _ _ => fail
    | |- triple _ _ _ _ _ => intros [? ?] _; exact I
    end.

Lemma safe_handle_interruption : safe (handle_interruption client_id pid).
Proof. unfold handle_interruption, update_project_partial_sync. safe_tac. Qed.

Lemma safe_filter_pages (keywords : list Py.value) (with_meta : bool)
    (total : nat) (pages : list string) :
  forall (i : nat) (a : Filtered),
    safe (filter_pages env client_id pid keywords with_meta total i pages a).
Proof.
  induction pages as [ | page_url rest IH]; intros i a; cbn [filter_pages].
  - safe_tac.
  - apply safe_bind; [ safe_tac | intros [ | ] ].
    + apply safe_bind; [ safe_tac | intros ? ].
      apply safe_bind; [ apply safe_handle_interruption | intros ? ]. safe_tac.
    + apply safe_bind; [ safe_tac | intros a2; apply IH ].
Qed.

Lemma safe_scrape_pages (a : Filtered) (total : nat) (pages : list string) :
  forall (i : nat) (scraped : list string),
    safe (scrape_pages env client_id pid a total i pages scraped).
Proof.
  induction pages as [ | page_url rest IH]; intros i scraped; cbn [scrape_pages].
  - safe_tac.
  - apply safe_bind; [ safe_tac | intros scraped' ].
    apply safe_bind; [ safe_tac | intros [ | ] ].
    + apply safe_bind; [ safe_tac | intros ? ].
      apply safe_bind; [ apply safe_handle_interruption | intros ? ]. safe_tac.
    + apply IH.
Qed.

(** Apart from the join of the keywords, nothing in the pipeline raises:
    failures of discovery, of a keyword check and of a page are caught
    where they occur. *)
Lemma safe_pipeline (url : string) (limit : Z)
    (search_keywords : option (list Py.value)) (with_meta : bool) :
  (Py.truthy search_keywords = true ->
   is_Some (Py.all_str (Py.or_nil search_keywords))) ->
  safe (pipeline env url pid client_id limit search_keywords with_meta).
Proof.
  intros Hk.
  assert (Hj : Py.truthy search_keywords = true ->
               safe (join_keywords (Py.or_nil search_keywords))).
  { intros Ht. destruct (Hk Ht) as [ks Hks]. unfold join_keywords. rewrite Hks.
    safe_tac. }
  unfold pipeline, log_start, select_pages, process_robots, process_sitemap,
    complete, update_project_partial_sync.
  destruct (Py.truthy search_keywords).
  - specialize (Hj eq_refl).
    apply safe_bind.
    { apply safe_bind; [ safe_tac | intros ? ].
      apply safe_bind; [ exact Hj | intros ? ]. safe_tac. }
    intros ?. apply safe_bind; [ safe_tac | intros ? ].
    apply safe_bind; [ safe_tac | intros sitemap_pages ].
    apply safe_bind.
    { apply safe_bind; [ exact Hj | intros ? ].
      apply safe_bind; [ safe_tac | intros ? ].
      apply safe_bind; [ apply safe_filter_pages | intros flt ]. safe_tac. }
    intros [pages_to_process flt].
    apply safe_bind; [ safe_tac | intros ? ].
    apply safe_bind; [ apply safe_scrape_pages | intros scraped ]. safe_tac.
  - apply safe_bind; [ safe_tac | intros ? ].
    apply safe_bind; [ safe_tac | intros ? ].
    apply safe_bind; [ safe_tac | intros sitemap_pages ].
    apply safe_bind; [ safe_tac | intros [pages_to_process flt] ].
    apply safe_bind; [ safe_tac | intros ? ].
    apply safe_bind; [ apply safe_scrape_pages | intros scraped ]. safe_tac.
Qed.

(** With keywords that are not all strings the pipeline raises, at the
    first log line that joins them. *)
Lemma pipeline_raises (url : string) (limit : Z)
    (search_keywords : option (list Py.value)) (with_meta : bool) :
  Py.truthy search_keywords = true ->
  Py.all_str (Py.or_nil search_keywords) = None ->
  triple (fun _ => True)
    (pipeline env url pid client_id limit search_keywords with_meta)
    (fun _ _ => False) (fun _ => False) (fun _ => True).
Proof.
  intros Ht Hk. unfold pipeline, log_start, join_keywords. rewrite Ht, Hk.
  eapply triple_bind with (Q' := fun _ _ => False);
    [ | intros ?; apply triple_absurd; auto ].
  eapply triple_bind with (Q' := fun _ _ => True).
  { intros [w f] _. destruct (chatty_send_log client_id log_info
                                ("Starting extraction process for " +:+ url) w f)
      as (a0 & w' & -> & _). exact I. }
  intros ?. eapply triple_bind with (Q' := fun _ _ => False);
    [ apply triple_raise; auto | intros ?; apply triple_absurd; auto ].
Qed.

End Safe.

(** X27. A job ends in the state [error] exactly when it has keywords that
    are not all strings: the join of the keywords for the first log line is
    the only thing that reaches the worker's outer handler.  Failures of
    robots and sitemap processing, of a keyword check, of a page's scrape or
    of its storage are caught where they occur and never fail the job. *)
Theorem job_fails_iff_keywords_malformed (env : Env) (j : Job) (w : World) :
  extraction_status (processing_status (run_extraction_thread env j w).2)
  = STATUS_ERROR
  <-> Py.truthy (j_search_keywords j) = true
      /\ Py.all_str (Py.or_nil (j_search_keywords j)) = None.
Proof.
  unfold run_extraction_thread, clean_up, modify_world, try_. cbn [fst snd].
  match goal with
  | |- context [pipeline ?e ?u ?p ?c ?l ?k ?m ?st0] =>
      pose proof (outcome_pipeline e c p (active_extractions w) u l k m st0
                    ltac:(split; reflexivity)) as H2;
      pose proof (fun Hk => safe_pipeline e c p u l k m Hk st0 I) as H1;
      pose proof (fun Ht Hk => pipeline_raises e c p u l k m Ht Hk st0 I) as H3;
      destruct (pipeline e u p c l k m st0) as [[[] | | err] [w1 f1]]
  end.
  - destruct H2 as [H2 _]. cbn [snd] in *. rewrite H2. split; [ discriminate | ].
    intros [Ht Hk]. destruct (H3 Ht Hk).
  - destruct H2 as [H2 _]. cbn [snd] in *. rewrite H2. split; [ discriminate | ].
    intros [Ht Hk]. destruct (H3 Ht Hk).
  - pose proof (outcome_on_unexpected_error (j_client_id j) (j_project_id j)
                  (active_extractions w) err (fun _ => False) (fun _ => False)
                  (w1, f1) H2) as H4.
    destruct (on_unexpected_error (j_client_id j) (j_project_id j) err (w1, f1))
      as [[[] | | err'] [w2 f2]]; [ | destruct H4 | destruct H4 ].
    destruct H4 as [H4 _]. cbn [snd] in *. split; [ intros _ | intros _; exact H4 ].
    destruct (Py.truthy (j_search_keywords j)) eqn:Ht.
    + destruct (Py.all_str (Py.or_nil (j_search_keywords j))) eqn:Hk;
        [ | split; reflexivity ].
      destruct (H1 ltac:(eauto)).
    + destruct (H1 ltac:(discriminate)).
Qed.

(** ** The last message of a job *)

Section Told.

Variable env : Env.
Variables client_id pid : string.

(** The client's queue, if there is one, ends with a completion message
    that carries the project id and the counts of the status. *)
#[local] Abbreviation TOLD :=
  (fun st : St =>
     match message_queues st.1 !! client_id with
     | None => True
     | Some q =>
         exists m c, last q = Some m
           /\ msg_type m = log_completion
           /\ message m = Json c
           /\ c_project_id c = pid
           /\ c_pages_found c = pages_found (processing_status st.2)
           /\ c_pages_scraped c = pages_scraped (processing_status st.2)
     end).
#[local] Abbreviation ANY := (fun _ : St => True).
#[local] Abbreviation told m := (triple ANY m (fun _ => ANY) TOLD ANY).

Lemma told_bind {A B} (m : M A) (k : A -> M B) (Q : B -> St -> Prop) :
  told m -> (forall a, triple ANY (k a) Q TOLD ANY) ->
  triple ANY (m ≫= k) Q TOLD ANY.
Proof. intros Hm Hk. eapply triple_bind; [ exact Hm | exact Hk ]. Qed.

Lemma told_try {A} (m : M A) (h : string -> M A) :
  told m -> (forall e, told (h e)) -> told (try_ m h).
Proof. intros Hm Hh. eapply triple_try; [ exact Hm | exact Hh ]. Qed.

Lemma told_chatty {A} (m : M A) : chatty m -> told m.
Proof. intros Hm [w f] _. destruct (Hm w f) as (a0 & w' & -> & _). exact I. Qed.

(** The completion message, put last. *)
Lemma told_completion (s : ProcessingStatus) (st : option Status) R E :
  triple (inv (fun f => processing_status f = s) (fun _ => True))
    (put_message client_id log_completion
       (Json {| c_project_id := pid; c_pages_found := pages_found s;
                c_pages_scraped := pages_scraped s;
                c_extraction_status := st |}))
    (fun _ => TOLD) R E.
Proof.
  eapply triple_post; [ | apply triple_put_completion ].
  intros _ [w f] (Hs & _ & Hq). cbn [fst snd] in *.
  destruct (message_queues w !! client_id) as [q | ]; [ | exact I ].
  destruct (Hq q eq_refl) as (m & H1 & H2 & H3).
  exists m, {| c_project_id := pid; c_pages_found := pages_found s;
               c_pages_scraped := pages_scraped s; c_extraction_status := st |}.
  rewrite Hs. repeat split; assumption.
Qed.

Lemma told_handle_interruption R E :
  triple (inv (fun _ => True) (fun reg => is_Some (reg !! client_id)))
    (handle_interruption client_id pid) (fun _ => TOLD) R E.
Proof.
  unfold handle_interruption.
  bind_as triple_get_world_inv w0.
  destruct (active_extractions w0 !! client_id) as [e | ] eqn:He.
  - bind_calm.
    eapply triple_bind;
      [ eapply triple_modify_world_inv with (WP' := fun _ => True); intros; exact I
      | intros ? ].
    bind_calm.
    eapply triple_bind;
      [ eapply triple_assign_inv with (FP' := fun _ => True); intros; exact I
      | intros ? ].
    eapply triple_bind; [ apply triple_get_status_inv | intros s ].
    eapply triple_pre with
      (P' := inv (fun f => processing_status f = s) (fun _ => True));
      [ intros st [[_ H] _]; split; [exact H | exact I] | ].
    eapply triple_bind;
      [ eapply triple_persist_inv with (FP' := fun f => processing_status f = s)
      | intros ? ].
    { intros f Hf. exact Hf. }
    bind_calm. apply told_completion.
  - apply triple_absurd. intros st [_ [[x Hx] Heq]].
    cbn beta in Heq. rewrite Heq in Hx. congruence.
Qed.

Lemma told_interruptible {A} (text : string) (cont : M A) (Q : A -> St -> Prop) :
  triple ANY cont Q TOLD ANY ->
  triple ANY
    (stop ← poll_interrupt env client_id;
     if stop : bool then
       send_log client_id log_warning text;;
       handle_interruption client_id pid;;
       return_
     else cont) Q TOLD ANY.
Proof.
  intros Hc.
  eapply triple_bind with
    (Q' := fun stop st => stop = true -> is_Some (active_extractions st.1 !! client_id)).
  { intros [w f] _. unfold poll_interrupt. cbn [fst snd].
    match goal with |- should_interrupt _ ?w' = true -> _ => generalize w' end.
    intros w'. unfold should_interrupt.
    destruct (active_extractions w' !! client_id); [ eauto | discriminate ]. }
  intros [ | ].
  - eapply triple_pre with
      (P' := inv (fun _ => True) (fun reg => is_Some (reg !! client_id)));
      [ intros st H; split; [exact I | exact (H eq_refl)] | ].
    bind_calm. bind_with told_handle_interruption.
    apply triple_return. intros st H. exact H.
  - eapply triple_pre; [ | exact Hc ]. intros st _. exact I.
Qed.

Ltac told_tac :=
  repeat lazymatch goal with
    | |- triple _ (send_log _ _ _) _ _ _ => apply told_chatty, chatty_send_log
    | |- triple _ (put_message _ _ _) _ _ _ => apply told_chatty, chatty_put_message
    | |- triple _ (log_match_details _ _ _) _ _ _ =>
        apply told_chatty, chatty_log_match_details
    | |- triple _ (poll_interrupt _ _ ≫= _) _ _ _ => apply told_interruptible
    | |- triple _ (_ ≫= _) _ _ _ => apply told_bind; [ | intros ? ]
    | |- triple _ (try_ _ _) _ _ _ => apply told_try; [ | intros ? ]
    | |- triple _ (match ?x with _ => _ end) _ _ _ => destruct x
    | |- triple _ return_ _ _ _ => fail
    | |- triple _ _ _ _ _ => intros [? ?] _; exact I
    end.

Lemma told_filter_pages (keywords : list Py.value) (with_meta : bool)
    (total : nat) (pages : list string) :
  forall (i : nat) (a : Filtered),
    told (filter_pages env client_id pid keywords with_meta total i pages a).
Proof.
  induction pages as [ | page_url rest IH]; intros i a; cbn [filter_pages].
  - told_tac.
  - apply told_interruptible.
    apply told_bind; [ | intros a2; apply IH ].
    unfold check_one, check_page_for_keywords. told_tac.
Qed.

Lemma told_scrape_pages (a : Filtered) (total : nat) (pages : list string) :
  forall (i : nat) (scraped : list string),
    told (scrape_pages env client_id pid a total i pages scraped).
Proof.
  induction pages as [ | page_url rest IH]; intros i scraped; cbn [scrape_pages].
  - told_tac.
  - apply told_bind; [ | intros scraped'; apply told_interruptible, IH ].
    unfold scrape_one, log_page_keywords, log_page_info. told_tac.
Qed.

Lemma told_complete (search_keywords : option (list Py.value)) (a : Filtered)
    (scraped : list string) R E :
  triple ANY (complete client_id pid search_keywords a scraped)
    (fun _ => TOLD) R E.
Proof.
  unfold complete.
  eapply triple_pre with (P' := inv (fun _ => True) (fun _ => True));
    [ intros st _; split; exact I | ].
  bind_calm.
  eapply triple_bind;
    [ eapply triple_assign_inv with (FP' := fun _ => True); intros; exact I
    | intros ? ].
  eapply triple_bind; [ apply triple_get_status_inv | intros s ].
  eapply triple_pre with
    (P' := inv (fun f => processing_status f = s) (fun _ => True));
    [ intros st [[_ H] _]; split; [exact H | exact I] | ].
  eapply triple_bind;
    [ eapply triple_persist_inv with (FP' := fun f => processing_status f = s)
    | intros ? ].
  { intros f Hf. exact Hf. }
  eapply triple_bind;
    [ eapply triple_persist_inv with (FP' := fun f => processing_status f = s)
    | intros ? ].
  { intros f Hf. exact Hf. }
  bind_calm. apply told_completion.
Qed.

Lemma told_pipeline (url : string) (limit : Z)
    (search_keywords : option (list Py.value)) (with_meta : bool) :
  triple ANY (pipeline env url pid client_id limit search_keywords with_meta)
    (fun _ => TOLD) TOLD ANY.
Proof.
  unfold pipeline.
  apply told_bind; [ unfold log_start, join_keywords; told_tac | intros ? ].
  apply told_bind; [ unfold process_robots; told_tac | intros ? ].
  apply told_bind; [ unfold process_sitemap; told_tac | intros sitemap_pages ].
  apply told_bind.
  { unfold select_pages, join_keywords, update_project_partial_sync.
    destruct (Py.truthy search_keywords); [ | told_tac ].
    apply told_bind; [ told_tac | intros ? ].
    apply told_bind; [ told_tac | intros ? ].
    apply told_bind; [ apply told_filter_pages | intros flt ]. told_tac. }
  intros [pages_to_process flt].
  apply told_bind; [ told_tac | intros ? ].
  apply told_bind; [ apply told_scrape_pages | intros scraped ].
  apply told_complete.
Qed.

End Told.

(** X28. The client is always told how the job ended: when the worker ends
    and the client has a queue, the last message in the queue is, for a
    job that completed or was interrupted, a completion message carrying
    the project id and the [pages_found] and [pages_scraped] of the final
    status, and for a job that failed, an error message.  A client without
    a queue when the worker ends had none when it started. *)
Theorem last_message_reports_outcome (env : Env) (j : Job) (w : World) :
  let st' := run_extraction_thread env j w in
  match message_queues st'.1 !! j_client_id j with
  | None => message_queues w !! j_client_id j = None
  | Some q =>
      exists m, last q = Some m
        /\ match extraction_status (processing_status st'.2) with
           | STATUS_ERROR => msg_type m = log_error
           | _ =>
               msg_type m = log_completion
               /\ exists c, message m = Json c
                    /\ c_project_id c = j_project_id j
                    /\ c_pages_found c = pages_found (processing_status st'.2)
                    /\ c_pages_scraped c = pages_scraped (processing_status st'.2)
           end
  end.
Proof.
  cbn zeta.
  destruct (message_queues (run_extraction_thread env j w).1 !! j_client_id j)
    as [q | ] eqn:Hq.
  2: { destruct (effects_append _ _ _ _ (run_extraction_thread_effects env j w))
         as (_ & _ & more & Hmore).
       cbn [fst] in Hmore. rewrite Hq in Hmore.
       destruct (message_queues w !! j_client_id j); [ discriminate | reflexivity ]. }
  revert Hq.
  unfold run_extraction_thread, clean_up, modify_world, try_. cbn [fst snd].
  match goal with
  | |- context [pipeline ?e ?u ?p ?c ?l ?k ?m ?st0] =>
      pose proof (outcome_pipeline e c p (active_extractions w) u l k m st0
                    ltac:(split; reflexivity)) as H2;
      pose proof (told_pipeline e c p u l k m st0 I) as H5;
      destruct (pipeline e u p c l k m st0) as [[[] | | err] [w1 f1]]
  end.
  - destruct H2 as [H2 _]. cbn [fst snd] in *. world_cbn. intros Hq.
    rewrite Hq in H5. destruct H5 as (m & c & H5 & H6 & H7 & H8 & H9 & H10).
    exists m. split; [exact H5 | ]. rewrite H2. split; [exact H6 | ]. eauto.
  - destruct H2 as [H2 _]. cbn [fst snd] in *. world_cbn. intros Hq.
    rewrite Hq in H5. destruct H5 as (m & c & H5 & H6 & H7 & H8 & H9 & H10).
    exists m. split; [exact H5 | ]. rewrite H2. split; [exact H6 | ]. eauto.
  - pose proof (outcome_on_unexpected_error (j_client_id j) (j_project_id j)
                  (active_extractions w) err (fun _ => False) (fun _ => False)
                  (w1, f1) H2) as H4.
    pose proof (on_unexpected_error_queues_error_only (j_client_id j)
                  (j_project_id j) err w1 f1) as H6.
    pose proof (effects_append _ _ _ _
                  (walks_on_unexpected_error (j_client_id j) (j_project_id j) err
                     (w1, f1))) as (_ & _ & more & H7).
    destruct (on_unexpected_error (j_client_id j) (j_project_id j) err (w1, f1))
      as [[[] | | err'] [w2 f2]]; [ | destruct H4 | destruct H4 ].
    destruct H4 as [H4 _]. cbn [fst snd] in *. world_cbn. intros Hq.
    rewrite H4. rewrite Hq in H7.
    destruct (message_queues w1 !! j_client_id j) as [q1 | ]; [ | discriminate ].
    unfold queued_kinds in H6. rewrite Hq in H6. cbn [from_option id] in H6.
    assert (Hl : last (msg_type <$> q) = Some log_error).
    { rewrite H6. apply last_snoc. }
    rewrite fmap_last in Hl.
    destruct (last q) as [m | ]; [ | discriminate ].
    exists m. split; [reflexivity | ]. cbn in Hl. congruence.
Qed.
